(** * Policy-Dissection, quadrupedal locomotion: task, sensors, driver

    A shallow embedding of

    - [vision4leg/envs/env_wrappers/goal_task.py]   (module [goal_task]),
    - [vision4leg/envs/sensors/environment_sensors.py]
                                                   (module [environment_sensors]),
    - [starter/ppo_nature_cnn_sim2sim.py]           (module [ppo_nature_cnn_sim2sim]),

    and the properties of the written specification that concern them.

    Python floats are idealised as real numbers: rounding, overflow, inf
    and nan are outside the model.  Where the source divides by a
    quantity that can be zero the embedding follows the control flow of
    Python there: a division of Python floats raises ZeroDivisionError,
    a division of a numpy scalar or array returns (inf or nan, with a
    warning) and the code goes on. *)

From Stdlib Require Import Reals Lra ZArith.
From stdpp Require Import base option list functions gmap strings.

(** ** Python outcomes *)

Inductive Exn : Type :=
  | AttributeError
  | KeyError
  | IndexError
  | TypeError
  | ValueError
  | ZeroDivisionError.

Inductive Result (A : Type) : Type :=
  | Ok (a : A)
  | Raise (e : Exn).
Arguments Ok {A} a.
Arguments Raise {A} e.

#[global] Instance Result_ret : MRet Result := @Ok.
#[global] Instance Result_bind : MBind Result :=
  λ A B f m, match m with Ok a => f a | Raise e => Raise e end.

(** [obj.attr] on an attribute that may not have been assigned yet. *)
Definition getattr {A : Type} (o : option A) : Result A :=
  match o with Some a => Ok a | None => Raise AttributeError end.

(** [d[key]] on a dictionary entry that may be missing. *)
Definition getitem {A : Type} (o : option A) : Result A :=
  match o with Some a => Ok a | None => Raise KeyError end.

(** [l[i]] for a list and a non-negative index. *)
Definition list_getitem {A : Type} (l : list A) (i : nat) : Result A :=
  match l !! i with Some a => Ok a | None => Raise IndexError end.

(** ** Code that reads and writes shared objects

    A computation on a store [S] of shared objects returns or raises and
    leaves a store in both cases: what was written before an exception
    stays written. *)

Definition StateExn (S A : Type) : Type := S → Result A * S.

#[global] Instance StateExn_ret (S : Type) : MRet (StateExn S) := λ A a σ, (Ok a, σ).
#[global] Instance StateExn_bind (S : Type) : MBind (StateExn S) :=
  λ A B f m σ,
    match m σ with
    | (Ok a, σ') => f a σ'
    | (Raise e, σ') => (Raise e, σ')
    end.

(** A computation that does not touch the store. *)
Definition lift {S A : Type} (r : Result A) : StateExn S A := λ σ, (r, σ).

(** ** Comparisons of floats, as booleans *)

Definition Rltb (x y : R) : bool := if Rlt_dec x y then true else false.
Definition Rleb (x y : R) : bool := if Rle_dec x y then true else false.
Definition Rgtb (x y : R) : bool := Rltb y x.

(** ** Vectors of the simulator *)

Record Vec3 : Type := mkVec3 { vx : R; vy : R; vz : R }.
Record Quat : Type := mkQuat { qx : R; qy : R; qz : R; qw : R }.

(** The nine entries of a rotation matrix, row by row, as
    [getMatrixFromQuaternion] returns them; [rot_mat[-1]] is [m22]. *)
Record RotMat : Type := mkRotMat {
  m00 : R; m01 : R; m02 : R;
  m10 : R; m11 : R; m12 : R;
  m20 : R; m21 : R; m22 : R }.

Section Vectors.
Local Open Scope R_scope.

Definition vsub (a b : Vec3) : Vec3 :=
  mkVec3 (vx a - vx b) (vy a - vy b) (vz a - vz b).

Definition vdiv (a : Vec3) (d : R) : Vec3 :=
  mkVec3 (vx a / d) (vy a / d) (vz a / d).

(** [np.linalg.norm] of a 3-vector and of a 2-vector. *)
Definition norm3 (a : Vec3) : R := sqrt (vx a ^ 2 + vy a ^ 2 + vz a ^ 2).
Definition norm2 (x y : R) : R := sqrt (x ^ 2 + y ^ 2).

(** [np.dot] of two 1-d arrays. *)
Definition dot (a b : list R) : R := foldr Rplus 0 (zip_with Rmult a b).

(** [np.sum((a - b)**2)] on quaternions. *)
Definition quat_sqdist (a b : Quat) : R :=
  (qx a - qx b) ^ 2 + (qy a - qy b) ^ 2 + (qz a - qz b) ^ 2 + (qw a - qw b) ^ 2.

(** [np.clip(x, a_min=None, a_max=hi)]. *)
Definition clip_max (x hi : R) : R := Rmin x hi.
End Vectors.

(** * goal_task.py *)

Module goal_task.
Local Open Scope R_scope.

(** ** The environment the task reads

    The environment class, the robot and the physics client are not part
    of the task's file; the task uses them through the attributes and
    calls below, which are taken as the fields of what the environment
    currently answers. *)

(** A contact point: [contact[2]] is the other body, [contact[3]] the
    robot link in contact. *)
Record Contact : Type := mkContact { contact_2 : Z; contact_3 : Z }.

Record Robot : Type := mkRobot {
  quadruped : Z;
  GetBasePosition : Vec3;
  GetBaseOrientation : Quat;
  GetMotorTorques : list R;
  _foot_link_ids : list Z }.

Record PybulletClient : Type := mkPybulletClient {
  getBasePositionAndOrientation : Z → Vec3 * Quat;
  getMatrixFromQuaternion : Quat → RotMat;
  getContactPoints : Z → list Contact;
  getBaseVelocity : Z → Vec3 * Vec3 }.

(** The world dictionary, by key; a key that is absent is [None].
    Body identifiers are small integers, for which [is] is equality. *)
Record WorldDict : Type := mkWorldDict {
  ground : option Z;
  terrain : option Z;
  goal_pos : option Vec3;
  subgoals : option (list Vec3);
  subgoals_achieved : option (list bool) }.

Record Env : Type := mkEnv {
  robot : Robot;
  _pybullet_client : PybulletClient;
  _world_dict : WorldDict }.

(** The public accessors of the environment for the same two objects. *)
Definition pybullet_client (env : Env) : PybulletClient := _pybullet_client env.
Definition world_dict (env : Env) : WorldDict := _world_dict env.

Definition set_subgoals_achieved (flags : list bool) (env : Env) : Env :=
  let d := _world_dict env in
  mkEnv (robot env) (_pybullet_client env)
        (mkWorldDict (ground d) (terrain d) (goal_pos d) (subgoals d) (Some flags)).

(** ** Environments are shared objects

    The task keeps a reference to the environment it was reset with, and
    the simulation goes on changing that object: a store maps the
    identity of an environment to its current state. *)

Abbreviation EnvId := nat (only parsing).
Abbreviation Store := (EnvId → Env) (only parsing).

Abbreviation M := (StateExn Store) (only parsing).

Definition read_env (id : EnvId) : M Env := λ σ, (Ok (σ id), σ).
Definition modify_env (id : EnvId) (f : Env → Env) : M unit :=
  λ σ, (Ok tt, <[id := f (σ id)]> σ).

(** ** The task object *)

Record GoalTask : Type := mkGoalTask {
  _draw_ref_model_alpha : R;
  subgoal : bool;
  goal_coeff : R;
  energy_weight : R;
  move_forward_coeff : R;
  _ref_model : Z;
  _alive_reward : R;
  fall_reward : R;
  _time_step : R;
  num_action_repeat : Z;
  z_constrain : bool;
  other_direction_penalty : R;
  z_penalty : R;
  init_orientation : option Quat;
  orientation_penalty : R;
  height_fall_coeff : R;
  target_vel : option R;
  check_contact : bool;
  target_vel_dir : R * R;
  (* assigned by [reset] and [update] only *)
  _env : option EnvId;
  last_base_pos : option Vec3;
  current_base_pos : option Vec3 }.

Definition __init__ (z_constrain : bool) (other_direction_penalty z_penalty
    orientation_penalty time_step_s : R) (num_action_repeat : Z)
    (height_fall_coeff alive_reward fall_reward : R) (target_vel : option R)
    (check_contact : bool) (target_vel_dir : R * R) (goal_coeff : R)
    (subgoal : bool) : GoalTask :=
  {| _draw_ref_model_alpha := 1;
     subgoal := subgoal;
     goal_coeff := goal_coeff;
     energy_weight := - (5 / 1000);
     move_forward_coeff := 1;
     _ref_model := (-1)%Z;
     _alive_reward := alive_reward;
     fall_reward := fall_reward;
     _time_step := time_step_s;
     num_action_repeat := num_action_repeat;
     z_constrain := z_constrain;
     other_direction_penalty := other_direction_penalty;
     z_penalty := z_penalty;
     init_orientation := Some (mkQuat 0 0 0 1);
     orientation_penalty := orientation_penalty;
     height_fall_coeff := height_fall_coeff;
     target_vel := target_vel;
     check_contact := check_contact;
     target_vel_dir := target_vel_dir;
     _env := None;
     last_base_pos := None;
     current_base_pos := None |}.

(** The constructor with every argument at its default. *)
Definition default_task : GoalTask :=
  __init__ false 0 0 0 (1 / 100) 10 (3 / 10) (1 / 10) 0 None false (1, 0) 10 false.

Definition with_state (self : GoalTask) (env : option EnvId)
    (last cur : option Vec3) : GoalTask :=
  {| _draw_ref_model_alpha := _draw_ref_model_alpha self;
     subgoal := subgoal self;
     goal_coeff := goal_coeff self;
     energy_weight := energy_weight self;
     move_forward_coeff := move_forward_coeff self;
     _ref_model := _ref_model self;
     _alive_reward := _alive_reward self;
     fall_reward := fall_reward self;
     _time_step := _time_step self;
     num_action_repeat := num_action_repeat self;
     z_constrain := z_constrain self;
     other_direction_penalty := other_direction_penalty self;
     z_penalty := z_penalty self;
     init_orientation := init_orientation self;
     orientation_penalty := orientation_penalty self;
     height_fall_coeff := height_fall_coeff self;
     target_vel := target_vel self;
     check_contact := check_contact self;
     target_vel_dir := target_vel_dir self;
     _env := env;
     last_base_pos := last;
     current_base_pos := cur |}.

(** [self._time_step * self.num_action_repeat] *)
Definition elapsed (self : GoalTask) : R :=
  _time_step self * IZR (num_action_repeat self).

(** [reset]: binds the environment and takes its base position as both
    the last and the current one. *)
Definition reset (self : GoalTask) (env : EnvId) : M GoalTask :=
  e ← read_env env;
  let pos := GetBasePosition (robot e) in
  mret (with_state self (Some env) (Some pos) (Some pos)).

(** [update]: the current position becomes the last one. *)
Definition update (self : GoalTask) (env : EnvId) : M GoalTask :=
  cur ← lift (getattr (current_base_pos self));
  e ← read_env env;
  mret (with_state self (_env self) (Some cur) (Some (GetBasePosition (robot e)))).

(** [self._env], then the state of that object. *)
Definition self_env (self : GoalTask) : M Env :=
  id ← lift (getattr (_env self));
  read_env id.

(** ** Termination *)

(** [x in self._foot_link_ids] *)
Definition is_foot_link (env : Env) (link : Z) : bool :=
  bool_decide (link ∈ _foot_link_ids (robot env)).

(** First loop of [done]: a link that is not a foot touches the ground
    or the terrain.  [env._world_dict["ground"]] is looked up at every
    contact. *)
Fixpoint body_contact_loop (env : Env) (contacts : list Contact)
    (contact_done : bool) : Result bool :=
  match contacts with
  | [] => Ok contact_done
  | contact :: rest =>
      g ← getitem (ground (_world_dict env));
      if Z.eqb (contact_2 contact) g
         || match terrain (_world_dict env) with
            | Some t => Z.eqb (contact_2 contact) t
            | None => false
            end
      then if negb (is_foot_link env (contact_3 contact))
           then Ok true
           else body_contact_loop env rest contact_done
      else body_contact_loop env rest contact_done
  end.

(** Second loop of [done]: a contact with a body that is not the ground. *)
Fixpoint non_ground_loop (env : Env) (contacts : list Contact)
    (contact_done : bool) : Result bool :=
  match contacts with
  | [] => Ok contact_done
  | contact :: rest =>
      g ← getitem (ground (_world_dict env));
      if negb (Z.eqb (contact_2 contact) g)
      then Ok true
      else non_ground_loop env rest contact_done
  end.

(** [np.linalg.norm((cur - last) / dt) <= bound] on arrays.  Dividing an
    array by zero gives inf or nan entries and no exception, and a
    comparison with inf or nan on the left is false. *)
Definition speed_norm_le (cur last : Vec3) (dt bound : R) : bool :=
  if Req_dec_T dt 0 then false
  else Rleb (norm3 (vdiv (vsub cur last) dt)) bound.

Definition done (self : GoalTask) (env : EnvId) : M bool :=
  env ← self_env self;
  let pyb := _pybullet_client env in
  let '(root_pos_sim, root_rot_sim) :=
    getBasePositionAndOrientation pyb (quadruped (robot env)) in
  let rot_quat := GetBaseOrientation (robot env) in
  let rot_mat := getMatrixFromQuaternion (pybullet_client env) rot_quat in
  let rot_fall := Rltb (m22 rot_mat) (6 / 10) in
  let height_fall := Rltb (vz root_pos_sim) (height_fall_coeff self) in
  let height_fall :=
    if z_constrain self
    then Rltb (vz root_pos_sim) (height_fall_coeff self)
         || Rgtb (vz root_pos_sim) (8 / 10)
    else height_fall in
  contact_done ←
    (if check_contact self then
       let contacts := getContactPoints (_pybullet_client env) (quadruped (robot env)) in
       contact_done ← lift (body_contact_loop env contacts false);
       contact_done ← lift (non_ground_loop env contacts contact_done);
       cur ← lift (getattr (current_base_pos self));
       last ← lift (getattr (last_base_pos self));
       mret (contact_done && speed_norm_le cur last (elapsed self) (5 / 100))
     else mret false);
  mret (height_fall || rot_fall || contact_done).

(** ** Reward terms *)

(** [last_dist - current_dist] is a numpy scalar, and its division never
    raises: the call returns also when the elapsed time is zero, where
    numpy gives inf or nan.  These are no real numbers: what the model
    returns there ([x / 0] of the reals) stands for no value of the
    code, and every statement about the value of this term assumes an
    elapsed time that is not zero. *)
Definition _calc_reward_goal_dist (self : GoalTask) : M R :=
  env ← self_env self;
  goal ← lift (getitem (goal_pos (_world_dict env)));
  last ← lift (getattr (last_base_pos self));
  let last_dist := norm3 (vsub goal last) in
  cur ← lift (getattr (current_base_pos self));
  let current_dist := norm3 (vsub goal cur) in
  let reward := (last_dist - current_dist) / elapsed self in
  mret reward.

(** The body of the loop of [_calc_reward_subgoal], from index [i] on. *)
Fixpoint subgoal_loop (self : GoalTask) (i : nat) (subgoal_pos : list Vec3)
    (reward : R) : M R :=
  match subgoal_pos with
  | [] => mret reward
  | pos :: rest =>
      cur ← lift (getattr (current_base_pos self));
      if Rltb (norm3 (vsub cur pos)) 1 then
        id ← lift (getattr (_env self));
        env ← read_env id;
        flags ← lift (getitem (subgoals_achieved (world_dict env)));
        achieved ← lift (list_getitem flags i);
        if negb achieved then
          _ ← modify_env id (set_subgoals_achieved (<[i := true]> flags));
          subgoal_loop self (S i) rest (reward + 5)
        else subgoal_loop self (S i) rest reward
      else subgoal_loop self (S i) rest reward
  end.

Definition _calc_reward_subgoal (self : GoalTask) : M R :=
  env ← self_env self;
  subgoal_pos ← lift (getitem (subgoals (world_dict env)));
  subgoal_loop self 0 subgoal_pos 0.

(** Python floats: [/] raises on a zero divisor. *)
Definition float_div (x y : R) : Result R :=
  if Req_dec_T y 0 then Raise ZeroDivisionError else Ok (x / y).

Definition _calc_reward_root_velocity (self : GoalTask) : M R :=
  env ← self_env self;
  let sim_model := quadruped (robot env) in
  let pyb := _pybullet_client env in
  let '(root_vel_sim, _) := getBaseVelocity pyb sim_model in
  cur ← lift (getattr (current_base_pos self));
  last ← lift (getattr (last_base_pos self));
  x_speed ← lift (float_div (vx cur - vx last) (elapsed self));
  y_speed ← lift (float_div (vy cur - vy last) (elapsed self));
  z_speed ← lift (float_div (vz cur - vz last) (elapsed self));
  let xy_speed := norm2 x_speed y_speed in
  match target_vel self with
  | None => lift (Raise ValueError)   (* np.clip with neither bound *)
  | Some target_vel =>
      let xy_speed := clip_max xy_speed target_vel in
      let along_reward := target_vel ^ 2 - (xy_speed - target_vel) ^ 2 in
      let forward_reward := along_reward - z_penalty self * z_speed ^ 2 in
      mret forward_reward
  end.

Definition _calc_reward_rotation (self : GoalTask) : M R :=
  env ← self_env self;
  let rot_quat := GetBaseOrientation (robot env) in
  match init_orientation self with
  | None => mret 0
  | Some init => mret (quat_sqdist init rot_quat)
  end.

(** ** Reward *)

(** The first assignment of [reward]:
    [np.dot(torques, torques) * self._time_step]. *)
Definition energy_reward (self : GoalTask) (env : Env) : R :=
  dot (GetMotorTorques (robot env)) (GetMotorTorques (robot env)) * _time_step self.

Definition reward (self : GoalTask) (env : EnvId) : M R :=
  env' ← self_env self;
  let energy_reward := energy_reward self env' in
  move_forward_reward ← _calc_reward_root_velocity self;
  let alive_reward := _alive_reward self in
  orientation_reward ← _calc_reward_rotation self;
  goal_reward ← _calc_reward_goal_dist self;
  subgoal_reward ← (if subgoal self then _calc_reward_subgoal self else mret 0);
  let reward :=
    goal_reward * goal_coeff self + move_forward_reward * move_forward_coeff self
    + energy_reward * energy_weight self
    - orientation_penalty self * orientation_reward
    + alive_reward + subgoal_reward in
  done ← done self env;
  mret (if done : bool then reward + fall_reward self else reward).

(** [__call__] *)
Definition __call__ (self : GoalTask) (env : EnvId) : M R := reward self env.

End goal_task.


(** * goal_task.py, the remaining method *)

Module goal_task_more.
Import goal_task.

(** [_get_pybullet_client]: the physics client of the bound environment. *)
Definition _get_pybullet_client (self : GoalTask) : M PybulletClient :=
  env ← self_env self;
  mret (_pybullet_client env).

End goal_task_more.

(** * environment_sensors.py *)

Module environment_sensors.

(** ** The environment the sensors read

    The environment, its robot and its physics client are objects of
    other files; a sensor reads the attributes below. *)

(** A joint state as [getJointStates] returns it, [f[2]] being an array. *)
Record JointState : Type := mkJointState {
  js_0 : R;
  js_1 : R;
  js_2 : list R;
  js_3 : R }.

Record Robot : Type := mkRobot {
  quadruped : Z;
  GetBasePosition : list R }.

Record PybulletClient : Type := mkPybulletClient {
  getJointStates : Z → list Z → list JointState }.

Record Env : Type := mkEnv {
  last_action : list R;
  _robot : Robot;
  _pybullet_client : PybulletClient;
  world_dict : gmap string (list R) }.

(** ** Sensor objects

    A sensor is a Python object: a finite map from attribute names to
    values. *)

Inductive Dtype : Type := float64 | float32.

Inductive Value : Type :=
  | VNone
  | VInt (n : Z)
  | VFloat (x : R)
  | VStr (s : string)
  | VShape (dims : list Z)
  | VIntList (l : list Z)
  | VDtype (d : Dtype)
  | VEnv (env : Env)
  | VRobot (robot : Robot).

Abbreviation Attrs := (gmap string Value) (only parsing).

(** [self.name] *)
Definition self_attr (self : Attrs) (name : string) : Result Value :=
  match self !! name with Some v => Ok v | None => Raise AttributeError end.

(** An attribute of an environment, read from a value: only an
    environment has it. *)
Definition as_env (v : Value) : Result Env :=
  match v with VEnv env => Ok env | _ => Raise AttributeError end.

(** An attribute of a robot, read from a value: only a robot has it. *)
Definition as_robot (v : Value) : Result Robot :=
  match v with VRobot robot => Ok robot | _ => Raise AttributeError end.

(** A list of joint indices passed to the physics client. *)
Definition as_int_list (v : Value) : Result (list Z) :=
  match v with VIntList l => Ok l | _ => Raise TypeError end.

(** The arguments of [sensor.BoxSpaceSensor.__init__]; a bound that is
    not passed is [None]. *)
Record BoxArgs : Type := mkBoxArgs {
  box_name : string;
  box_shape : list Z;
  box_lower_bound : option R;
  box_upper_bound : option R;
  box_dtype : Dtype }.

(** Modelled from the spec: the constructor of [sensor.BoxSpaceSensor],
    the base class of the three sensors, whose file is not among the
    sources.  The specification says of it only that a sensor has "a
    fixed output shape, declared at construction": the constructor is
    taken to record its arguments. *)
Definition BoxSpaceSensor__init__ (args : BoxArgs) (self : Attrs) : Attrs :=
  <["_dtype" := VDtype (box_dtype args)]>
    (<["_shape" := VShape (box_shape args)]>
       (<["_name" := VStr (box_name args)]> self)).

Module LastActionSensor.

Definition super_args (num_actions : Z) (lower_bound upper_bound : R)
    (name : string) (dtype : Dtype) : BoxArgs :=
  mkBoxArgs name [num_actions] (Some lower_bound) (Some upper_bound) dtype.

Definition __init__ (super_init : BoxArgs → Attrs → Attrs) (num_actions : Z)
    (lower_bound upper_bound : R) (name : string) (dtype : Dtype) : Attrs :=
  let self : Attrs := <["_num_actions" := VInt num_actions]> ∅ in
  let self := <["_env" := VNone]> self in
  super_init (super_args num_actions lower_bound upper_bound name dtype) self.

Definition on_reset (self : Attrs) (env : Env) : Attrs :=
  <["_env" := VEnv env]> self.

Definition _get_observation (self : Attrs) : Result (list R) :=
  v ← self_attr self "_env";
  env ← as_env v;
  Ok (last_action env).

End LastActionSensor.

Module GoalPosSensor.

Definition super_args (goal_dim : Z) (name : string) (dtype : Dtype) : BoxArgs :=
  mkBoxArgs name [(goal_dim * 2)%Z] None None dtype.

Definition __init__ (super_init : BoxArgs → Attrs → Attrs) (goal_dim : Z)
    (name : string) (dtype : Dtype) : Attrs :=
  let self : Attrs := <["_goal_dim" := VInt goal_dim]> ∅ in
  let self := <["_env" := VNone]> self in
  super_init (super_args goal_dim name dtype) self.

Definition on_reset (self : Attrs) (env : Env) : Attrs :=
  <["_env" := VEnv env]> self.

Definition _get_observation (self : Attrs) : Result (list R) :=
  v ← self_attr self "_env";
  env ← as_env v;
  let base_position := GetBasePosition (_robot env) in
  v' ← self_attr self "_env";
  env' ← as_env v';
  goal ← getitem (world_dict env' !! "goal_pos");
  Ok (base_position ++ goal).

End GoalPosSensor.

Module ForceSensor.

(** [[2 + 3 * i for i in range(4)]] *)
Definition feet_id : list Z := (λ i, (2 + 3 * Z.of_nat i)%Z) <$> seq 0 4.

(** The shape is the literal [(24,)]; [goal_dim] is not used. *)
Definition super_args (goal_dim : Z) (name : string) (dtype : Dtype) : BoxArgs :=
  mkBoxArgs name [24%Z] None None dtype.

Definition __init__ (super_init : BoxArgs → Attrs → Attrs) (goal_dim : Z)
    (name : string) (dtype : Dtype) : Attrs :=
  let self : Attrs := <["_env" := VNone]> ∅ in
  let self := <["feet_id" := VIntList feet_id]> self in
  super_init (super_args goal_dim name dtype) self.

Definition on_reset (self : Attrs) (env : Env) : Attrs :=
  <["_env" := VEnv env]> self.

(** The callee [self._env._pybullet_client.getJointStates] is evaluated
    before the arguments [self._robot.quadruped] and [self.feet_id];
    the result is unpacked into exactly four joint states. *)
Definition _get_observation (self : Attrs) : Result (list R) :=
  v ← self_attr self "_env";
  env ← as_env v;
  let getJointStates := getJointStates (_pybullet_client env) in
  r ← self_attr self "_robot";
  robot ← as_robot r;
  ids ← self_attr self "feet_id";
  ids ← as_int_list ids;
  match getJointStates (quadruped robot) ids with
  | [f1; f2; f3; f4] =>
      let forces := js_2 f1 ++ js_2 f2 ++ js_2 f3 ++ js_2 f4 in
      Ok forces
  | _ => Raise ValueError
  end.

End ForceSensor.

End environment_sensors.

(** * ppo_nature_cnn_sim2sim.py *)

Module ppo_nature_cnn_sim2sim.

(** ** Configuration objects

    The configuration is a dictionary of dictionaries.  Dictionaries are
    objects: a value that is a dictionary is a reference into the heap,
    so that two names can hold the same dictionary. *)

Inductive Val : Type :=
  | VNone
  | VBool (b : bool)
  | VInt (n : Z)
  | VStr (s : string)
  | VRef (l : nat).

Abbreviation Dict := (gmap string Val) (only parsing).
Abbreviation Heap := (gmap nat (gmap string Val)) (only parsing).
Abbreviation H := (StateExn (gmap nat (gmap string Val))) (only parsing).

(** The dictionary a value refers to; subscripting or assigning into any
    other value is a TypeError.  Every reference a program holds is to a
    dictionary of the heap; for a reference to nothing the model raises
    as well. *)
Definition deref (v : Val) : H (gmap string Val) :=
  λ h, match v with
       | VRef l => match h !! l with
                   | Some d => (Ok d, h)
                   | None => (Raise TypeError, h)
                   end
       | _ => (Raise TypeError, h)
       end.

(** [v[k]] *)
Definition subscript (v : Val) (k : string) : H Val :=
  d ← deref v;
  lift (getitem (d !! k)).

Definition put_dict (l : nat) (d : gmap string Val) : H unit :=
  λ h, (Ok tt, <[l := d]> h).

Definition new_dict (d : gmap string Val) : H Val :=
  λ h, let l := fresh (dom h) in (Ok (VRef l), <[l := d]> h).

(** [v[k] = x] *)
Definition store_subscript (v : Val) (k : string) (x : Val) : H unit :=
  d ← deref v;
  match v with
  | VRef l => put_dict l (<[k := x]> d)
  | _ => lift (Raise TypeError)
  end.

(** [k in v]: a key of a dictionary, or a part of a string. *)
Definition contains (k : string) (v : Val) : H bool :=
  match v with
  | VStr s => mret (bool_decide (is_Some (String.index 0 k s)))
  | _ =>
      d ← deref v;
      mret (bool_decide (is_Some (d !! k)))
  end.

(** [v.copy()]: a new dictionary with the same entries; only a
    dictionary has the method. *)
Definition dict_copy (v : Val) : H Val :=
  match v with
  | VRef _ =>
      d ← deref v;
      new_dict d
  | _ => lift (Raise AttributeError)
  end.

(** [v > n] and [v == n] for an integer literal [n]. *)
Definition py_gt (v : Val) (n : Z) : Result bool :=
  match v with
  | VInt m => Ok (m >? n)%Z
  | VBool b => Ok (Z.b2z b >? n)%Z
  | _ => Raise TypeError
  end.

Definition py_eq (v : Val) (n : Z) : bool :=
  match v with
  | VInt m => (m =? n)%Z
  | VBool b => (Z.b2z b =? n)%Z
  | _ => false
  end.

(** ** The command line and the environments built *)

Record Args : Type := mkArgs {
  vec_env_nums : Z;
  proc_nums : Z;
  seed : Z;
  cuda : bool }.

(** A call [get_subprocvec_env(env_name, env_cfg, nums, procs)]; the
    function belongs to another package and is taken to leave the
    configuration as it is. *)
Record EnvCall : Type := mkEnvCall {
  call_env_name : Val;
  call_env_cfg : Val;
  call_env_nums : Z;
  call_proc_nums : Z }.

Definition get_subprocvec_env (env_name env_cfg : Val) (nums procs : Z) : H EnvCall :=
  mret (mkEnvCall env_name env_cfg nums procs).

(** ** The module body and [experiment] *)

(** [eval_params = params.copy()] *)
Definition eval_params (params : Val) : H Val := dict_copy params.

(** [eval_params["env"]["env_build"]], as every statement of the
    evaluation set-up evaluates it anew. *)
Definition env_build (eval_params : Val) : H Val :=
  env ← subscript eval_params "env";
  subscript env "env_build".

(** [if k in eval_params["env"]["env_build"]:
       eval_params["env"]["env_build"][k] = False] *)
Definition disable_if_present (eval_params : Val) (k : string) : H unit :=
  b ← env_build eval_params;
  present ← contains k b;
  if present : bool then
    b ← env_build eval_params;
    store_subscript b k (VBool false)
  else mret tt.

(** The frame settings of the evaluation environment. *)
Definition frame_settings (eval_params : Val) : H unit :=
  b ← env_build eval_params;
  present ← contains "get_image_interval" b;
  cond1 ←
    (if present : bool then
       b ← env_build eval_params;
       v ← subscript b "get_image_interval";
       lift (py_gt v 1)
     else mret false);
  if cond1 : bool then
    b ← env_build eval_params;
    v ← subscript b "get_image_interval";
    b ← env_build eval_params;
    _ ← store_subscript b "frame_extract" v;
    b ← env_build eval_params;
    store_subscript b "get_image_interval" (VInt 1)
  else
    b ← env_build eval_params;
    present ← contains "get_image_interval" b;
    cond2 ←
      (if present : bool then
         b ← env_build eval_params;
         v ← subscript b "get_image_interval";
         if py_eq v 1 then
           b ← env_build eval_params;
           v ← subscript b "frame_extract";
           mret (py_eq v 1)
         else mret false
       else mret false);
    if cond2 : bool then
      b ← env_build eval_params;
      store_subscript b "frame_extract" (VInt 4)
    else mret tt.

(** [experiment(args)] up to the construction of the evaluation
    environment: the two environments it asks for. *)
Definition experiment (params eval_params : Val) (args : Args) : H (EnvCall * EnvCall) :=
  name ← subscript params "env_name";
  cfg ← subscript params "env";
  env ← get_subprocvec_env name cfg (vec_env_nums args) (proc_nums args);
  b ← env_build eval_params;
  _ ← store_subscript b "reset_frame_idx_each_step" (VBool true);
  e ← subscript eval_params "env";
  _ ← store_subscript e "horizon" (VInt 2000);
  _ ← frame_settings eval_params;
  _ ← disable_if_present eval_params "curriculum";
  _ ← disable_if_present eval_params "interpolation";
  _ ← disable_if_present eval_params "fixed_delay_observation";
  name ← subscript eval_params "env_name";
  cfg ← subscript eval_params "env";
  eval_env ← get_subprocvec_env name cfg (Z.max 2 (vec_env_nums args))
                (Z.max 2 (proc_nums args));
  mret (env, eval_env).

(** The module from its first statement to the call of [experiment]. *)
Definition main (params : Val) (args : Args) : H (EnvCall * EnvCall) :=
  eval_params ← eval_params params;
  experiment params eval_params args.

End ppo_nature_cnn_sim2sim.

(** * The specification's view of goal_task.py *)

Module goal_task_spec.
Import goal_task.
Local Open Scope R_scope.

(** A task whose three state attributes have been assigned, as [reset]
    and [update] leave it. *)
Definition bound (self : GoalTask) (id : EnvId) (last cur : Vec3) : Prop :=
  _env self = Some id ∧ last_base_pos self = Some last
  ∧ current_base_pos self = Some cur.

(** The task after the base went from [last] to [cur]. *)
Definition moved (self : GoalTask) (last cur : Vec3) : GoalTask :=
  with_state self (_env self) (Some last) (Some cur).

(** Speeds derived from the position delta. *)
Definition horizontal_speed (self : GoalTask) (last cur : Vec3) : R :=
  norm2 ((vx cur - vx last) / elapsed self) ((vy cur - vy last) / elapsed self).

Definition vertical_speed (self : GoalTask) (last cur : Vec3) : R :=
  (vz cur - vz last) / elapsed self.

Definition speed_3d (self : GoalTask) (last cur : Vec3) : R :=
  norm3 (vdiv (vsub cur last) (elapsed self)).

(** The forward-velocity reward as a function of the position delta. *)
Definition forward_reward (self : GoalTask) (σ : Store) (last cur : Vec3) : Result R :=
  (_calc_reward_root_velocity (moved self last cur) σ).1.

(** The forward-velocity law in words: a strict peak at the target speed,
    with a strictly smaller reward [δ] below it and [δ] above it. *)
Definition strict_peak_at_target_vel (self : GoalTask) (σ : Store) (δ : R) : Prop :=
  ∀ tv last cur last_lo cur_lo last_hi cur_hi r r_lo r_hi,
    target_vel self = Some tv → 0 < tv → z_penalty self = 0 → 0 < δ →
    horizontal_speed self last cur = tv →
    horizontal_speed self last_lo cur_lo = tv - δ →
    horizontal_speed self last_hi cur_hi = tv + δ →
    forward_reward self σ last cur = Ok r →
    forward_reward self σ last_lo cur_lo = Ok r_lo →
    forward_reward self σ last_hi cur_hi = Ok r_hi →
    r_lo < r ∧ r_hi < r.

(** ** Termination, in the specification's terms *)

(** The simulator's readings that [done] looks at. *)
Definition base_height (env : Env) : R :=
  vz (getBasePositionAndOrientation (_pybullet_client env) (quadruped (robot env))).1.

Definition up_component (env : Env) : R :=
  m22 (getMatrixFromQuaternion (pybullet_client env) (GetBaseOrientation (robot env))).

Definition contacts_of (env : Env) : list Contact :=
  getContactPoints (_pybullet_client env) (quadruped (robot env)).

(** The test of the first loop of [done] on one contact, the ground
    being body [g]. *)
Definition body_contact (env : Env) (g : Z) (c : Contact) : bool :=
  (Z.eqb (contact_2 c) g
   || match terrain (_world_dict env) with
      | Some t => Z.eqb (contact_2 c) t
      | None => false
      end)
  && negb (is_foot_link env (contact_3 c)).

(** An illegal contact: a link that is not a foot touches the ground or
    the terrain, or the robot touches a body that is not the ground. *)
Definition illegal_contact (env : Env) : Prop :=
  ∃ g c, ground (_world_dict env) = Some g ∧ c ∈ contacts_of env
    ∧ (((contact_2 c = g ∨ terrain (_world_dict env) = Some (contact_2 c))
        ∧ contact_3 c ∉ _foot_link_ids (robot env))
       ∨ contact_2 c ≠ g).

(** The three conditions of the specification. *)
Definition done_condition_in_words (self : GoalTask) (env : Env)
    (last cur : Vec3) : Prop :=
  base_height env < height_fall_coeff self
  ∨ up_component env < 6 / 10
  ∨ (check_contact self = true ∧ illegal_contact env
     ∧ horizontal_speed self last cur <= 5 / 100).

(** The conditions the code tests. *)
Definition done_condition (self : GoalTask) (env : Env) (last cur : Vec3) : Prop :=
  base_height env < height_fall_coeff self
  ∨ (z_constrain self = true ∧ 8 / 10 < base_height env)
  ∨ up_component env < 6 / 10
  ∨ (check_contact self = true ∧ illegal_contact env
     ∧ elapsed self ≠ 0 ∧ speed_3d self last cur <= 5 / 100).

(** ** The reward, in the specification's terms *)

(** Progress towards the goal per second. *)
Definition goal_progress (self : GoalTask) (goal last cur : Vec3) : R :=
  (norm3 (vsub goal last) - norm3 (vsub goal cur)) / elapsed self.

(** Quadratic law around the target speed after the clip, with the
    penalty on vertical drift. *)
Definition forward_velocity_term (self : GoalTask) (tv : R) (last cur : Vec3) : R :=
  tv ^ 2 - (Rmin (horizontal_speed self last cur) tv - tv) ^ 2
  - z_penalty self * vertical_speed self last cur ^ 2.

Definition sum_squares (l : list R) : R := foldr (λ x acc, x ^ 2 + acc) 0 l.

(** Squared motor torque, times the simulation time step. *)
Definition energy_term (self : GoalTask) (torques : list R) : R :=
  sum_squares torques * _time_step self.

(** Squared componentwise distance from the reference orientation. *)
Definition orientation_deviation (ref q : Quat) : R :=
  (qx ref - qx q) ^ 2 + (qy ref - qy q) ^ 2 + (qz ref - qz q) ^ 2
  + (qw ref - qw q) ^ 2.

(** A subgoal is reached within radius 1. *)
Definition within_radius (cur pos : Vec3) : bool := Rltb (norm3 (vsub cur pos)) 1.

(** What one subgoal adds to the subgoal bonus. *)
Definition subgoal_contribution (cur pos : Vec3) (achieved : bool) : R :=
  if within_radius cur pos && negb achieved then 5 else 0.

(** The subgoal bonus: the contributions of the subgoals, the first of
    which has index [i]. *)
Fixpoint subgoal_bonus (cur : Vec3) (i : nat) (subs : list Vec3)
    (flags : list bool) : R :=
  match subs with
  | [] => 0
  | pos :: rest =>
      match flags !! i with
      | Some achieved => subgoal_contribution cur pos achieved
      | None => 0
      end + subgoal_bonus cur (S i) rest flags
  end.

(** The flags after the subgoals within the radius have been marked. *)
Fixpoint mark_reached (cur : Vec3) (i : nat) (subs : list Vec3)
    (flags : list bool) : list bool :=
  match subs with
  | [] => flags
  | pos :: rest =>
      mark_reached cur (S i) rest
        (if within_radius cur pos then <[i := true]> flags else flags)
  end.

(** The world has a flag for every subgoal. *)
Definition subgoals_well_formed (env : Env) (subs : list Vec3)
    (flags : list bool) : Prop :=
  subgoals (world_dict env) = Some subs
  ∧ subgoals_achieved (world_dict env) = Some flags
  ∧ (length subs ≤ length flags)%nat.

(** The weighted sum of the specification. *)
Definition reward_in_words (self : GoalTask) (env : Env) (tv : R) (ref : Quat)
    (goal last cur : Vec3) (bonus : R) (d : bool) : R :=
  goal_progress self goal last cur * goal_coeff self
  + forward_velocity_term self tv last cur * move_forward_coeff self
  + energy_term self (GetMotorTorques (robot env)) * energy_weight self
  + orientation_deviation ref (GetBaseOrientation (robot env))
    * - orientation_penalty self
  + _alive_reward self
  + (if subgoal self then bonus else 0)
  + (if d then fall_reward self else 0).

(** The reward as the specification words it, for every task bound to
    an environment by [reset] and updated by [update], whatever its
    target velocity: [reward] returns the weighted sum, with the
    forward-velocity term of some target velocity. *)
Definition weighted_sum_for_every_task : Prop :=
  ∀ self0 self1 self env σ0 σ1 σ ref goal subs flags d,
    (reset self0 env σ0).1 = Ok self1 →
    (update self1 env σ1).1 = Ok self →
    init_orientation self = Some ref →
    elapsed self ≠ 0 →
    goal_pos (_world_dict (σ env)) = Some goal →
    (subgoal self = true → subgoals_well_formed (σ env) subs flags) →
    (done self env σ).1 = Ok d →
    ∃ tv,
      (reward self env σ).1 =
        Ok (reward_in_words self (σ env) tv ref goal
              (GetBasePosition (robot (σ0 env))) (GetBasePosition (robot (σ1 env)))
              (subgoal_bonus (GetBasePosition (robot (σ1 env))) 0 subs flags) d).

(** Store [σ'] is store [σ] with the achieved flags of environment [id]
    replaced by [flags]. *)
Definition flags_replaced (σ σ' : Store) (id : EnvId) (flags : list bool) : Prop :=
  (∀ j, j ≠ id → σ' j = σ j)
  ∧ robot (σ' id) = robot (σ id)
  ∧ _pybullet_client (σ' id) = _pybullet_client (σ id)
  ∧ ground (_world_dict (σ' id)) = ground (_world_dict (σ id))
  ∧ terrain (_world_dict (σ' id)) = terrain (_world_dict (σ id))
  ∧ goal_pos (_world_dict (σ' id)) = goal_pos (_world_dict (σ id))
  ∧ subgoals (_world_dict (σ' id)) = subgoals (_world_dict (σ id))
  ∧ subgoals_achieved (_world_dict (σ' id)) = Some flags.

(** ** Time scaling of the reward terms *)

(** The same task run at another time step and action repeat, between
    other positions. *)
Definition retimed (self : GoalTask) (ts : R) (nar : Z)
    (last cur : option Vec3) : GoalTask :=
  {| _draw_ref_model_alpha := _draw_ref_model_alpha self;
     subgoal := subgoal self;
     goal_coeff := goal_coeff self;
     energy_weight := energy_weight self;
     move_forward_coeff := move_forward_coeff self;
     _ref_model := _ref_model self;
     _alive_reward := _alive_reward self;
     fall_reward := fall_reward self;
     _time_step := ts;
     num_action_repeat := nar;
     z_constrain := z_constrain self;
     other_direction_penalty := other_direction_penalty self;
     z_penalty := z_penalty self;
     init_orientation := init_orientation self;
     orientation_penalty := orientation_penalty self;
     height_fall_coeff := height_fall_coeff self;
     target_vel := target_vel self;
     check_contact := check_contact self;
     target_vel_dir := target_vel_dir self;
     _env := _env self;
     last_base_pos := last;
     current_base_pos := cur |}.

(** A term is divided by the elapsed time: at another time step and
    action repeat, between the same positions, it changes in inverse
    proportion to the elapsed time. *)
Definition divided_by_elapsed (term : GoalTask → Store → Result R) : Prop :=
  ∀ self σ ts nar r,
    elapsed self ≠ 0 → ts * IZR nar ≠ 0 →
    term self σ = Ok r →
    term (retimed self ts nar (last_base_pos self) (current_base_pos self)) σ
    = Ok (r * elapsed self / (ts * IZR nar)).

(** A term does not depend on the control frequency: at another time
    step and action repeat it is the same whenever the base moves at the
    same velocity. *)
Definition independent_of_control_frequency
    (term : GoalTask → Store → Result R) : Prop :=
  ∀ self σ ts nar last cur last' cur',
    last_base_pos self = Some last → current_base_pos self = Some cur →
    elapsed self ≠ 0 → ts * IZR nar ≠ 0 →
    vdiv (vsub cur last) (elapsed self) = vdiv (vsub cur' last') (ts * IZR nar) →
    term (retimed self ts nar (Some last') (Some cur')) σ = term self σ.

(** The terms of [reward], each as a function of the task and the store. *)
Definition goal_dist_term (self : GoalTask) (σ : Store) : Result R :=
  (_calc_reward_goal_dist self σ).1.

Definition root_velocity_term (self : GoalTask) (σ : Store) : Result R :=
  (_calc_reward_root_velocity self σ).1.

Definition rotation_term (self : GoalTask) (σ : Store) : Result R :=
  (_calc_reward_rotation self σ).1.

Definition energy_reward_term (self : GoalTask) (σ : Store) : Result R :=
  ((self_env self ≫= λ env, mret (energy_reward self env)) σ).1.

(** Every term of the reward is divided by the elapsed time and is
    therefore independent of the control frequency, the energy and
    orientation terms in particular. *)
Definition terms_scaled_in_words : Prop :=
  (divided_by_elapsed energy_reward_term
   ∧ independent_of_control_frequency energy_reward_term)
  ∧ (divided_by_elapsed rotation_term
     ∧ independent_of_control_frequency rotation_term).

(** ** Subgoals over an episode *)

(** Subgoal [i] of environment [id] has been achieved. *)
Definition achieved (σ : Store) (id : EnvId) (i : nat) : Prop :=
  ∃ flags, subgoals_achieved (world_dict (σ id)) = Some flags
           ∧ flags !! i = Some true.

(** A computation that never clears an achieved flag, whether it returns
    or raises. *)
Definition keeps_achieved {A : Type} (m : M A) : Prop :=
  ∀ σ j i, achieved σ j i → achieved (m σ).2 j i.

(** The subgoal bonus without the contribution of subgoal [skip]. *)
Fixpoint subgoal_bonus_except (skip : nat) (cur : Vec3) (i : nat)
    (subs : list Vec3) (flags : list bool) : R :=
  match subs with
  | [] => 0
  | pos :: rest =>
      (if decide (i = skip) then 0
       else match flags !! i with
            | Some achieved => subgoal_contribution cur pos achieved
            | None => 0
            end)
      + subgoal_bonus_except skip cur (S i) rest flags
  end.

(** The operations of the task. *)
Inductive TaskOp : Type :=
  | OpReset (env : EnvId)
  | OpUpdate (env : EnvId)
  | OpDone (env : EnvId)
  | OpReward (env : EnvId)
  | OpCall (env : EnvId)
  | OpGoalDist
  | OpSubgoal
  | OpRootVelocity
  | OpRotation.

(** One operation: the task and the store it leaves, whether it returns
    or raises. *)
Definition run_op (op : TaskOp) (self : GoalTask) (σ : Store) : GoalTask * Store :=
  match op with
  | OpReset env =>
      match reset self env σ with
      | (Ok self', σ') => (self', σ')
      | (Raise _, σ') => (self, σ')
      end
  | OpUpdate env =>
      match update self env σ with
      | (Ok self', σ') => (self', σ')
      | (Raise _, σ') => (self, σ')
      end
  | OpDone env => (self, (done self env σ).2)
  | OpReward env => (self, (reward self env σ).2)
  | OpCall env => (self, (__call__ self env σ).2)
  | OpGoalDist => (self, (_calc_reward_goal_dist self σ).2)
  | OpSubgoal => (self, (_calc_reward_subgoal self σ).2)
  | OpRootVelocity => (self, (_calc_reward_root_velocity self σ).2)
  | OpRotation => (self, (_calc_reward_rotation self σ).2)
  end.

Fixpoint run_ops (ops : list TaskOp) (self : GoalTask) (σ : Store) : GoalTask * Store :=
  match ops with
  | [] => (self, σ)
  | op :: rest => let '(self', σ') := run_op op self σ in run_ops rest self' σ'
  end.

(** ** A flat world to run the task in *)

Definition identity_rotation : RotMat := mkRotMat 1 0 0 0 1 0 0 0 1.
Definition upright : Quat := mkQuat 0 0 0 1.
Definition origin : Vec3 := mkVec3 0 0 0.

Definition still_client (pos : Vec3) (contacts : list Contact) : PybulletClient :=
  {| getBasePositionAndOrientation := λ _, (pos, upright);
     getMatrixFromQuaternion := λ _, identity_rotation;
     getContactPoints := λ _, contacts;
     getBaseVelocity := λ _, (origin, origin) |}.

Definition flat_world (goal : Vec3) : WorldDict :=
  {| ground := Some 0%Z; terrain := None; goal_pos := Some goal;
     subgoals := None; subgoals_achieved := None |}.

(** A robot standing at [pos] with motor torques [torques], the goal ten
    units ahead. *)
Definition standing_env (pos : Vec3) (torques : list R)
    (contacts : list Contact) : Env :=
  {| robot := mkRobot 1 pos upright torques [2; 5; 8; 11]%Z;
     _pybullet_client := still_client pos contacts;
     _world_dict := flat_world (mkVec3 10 0 0) |}.

Definition standing_store (pos : Vec3) : Store := λ _, standing_env pos [] [].

(** The default task asked to run at one unit per second, bound to
    environment 0. *)
Definition runner : GoalTask :=
  with_state
    (__init__ false 0 0 0 (1 / 100) 10 (3 / 10) (1 / 10) 0 (Some 1) false (1, 0) 10 false)
    (Some 0%nat) (Some origin) (Some origin).

(** The same task with the height band of [z_constrain], the base nine
    tenths of a unit high. *)
Definition banded : GoalTask :=
  with_state
    (__init__ true 0 0 0 (1 / 100) 10 (3 / 10) (1 / 10) 0 (Some 1) false (1, 0) 10 false)
    (Some 0%nat) (Some origin) (Some origin).

Definition high_store : Store := standing_store (mkVec3 0 0 (9 / 10)).

(** A task that checks contacts, the robot half a unit high, touching
    body 7 with link 2 while it rises at one unit per second. *)
Definition contact_checker : GoalTask :=
  with_state
    (__init__ false 0 0 0 (1 / 100) 10 (3 / 10) (1 / 10) 0 (Some 1) true (1, 0) 10 false)
    (Some 0%nat) (Some origin) (Some (mkVec3 0 0 (1 / 10))).

Definition touching_store : Store :=
  λ _, standing_env (mkVec3 0 0 (1 / 2)) [] [mkContact 7 2].

(** An episode of one step: the task is constructed with a target speed
    of one, reset with the robot at the origin, updated after a step of a
    twentieth of a unit, and the reward is asked for while the robot
    stands half a unit high with torques 1 and 2. *)
Definition trainee : GoalTask :=
  __init__ false 0 0 0 (1 / 100) 10 (3 / 10) (1 / 10) 0 (Some 1) false (1, 0) 10 false.

Definition step_store : Store := standing_store (mkVec3 (1 / 20) 0 0).

Definition stride_store : Store :=
  λ _, standing_env (mkVec3 (1 / 20) 0 (1 / 2)) [1; 2] [].

Definition trainee_reset : GoalTask :=
  with_state trainee (Some 0%nat) (Some origin) (Some origin).

Definition trainee_updated : GoalTask :=
  with_state trainee (Some 0%nat) (Some origin) (Some (mkVec3 (1 / 20) 0 0)).

(** A course with two subgoals, the first at the origin and already
    achieved, the second far away. *)
Definition course_env : Env :=
  {| robot := mkRobot 1 origin upright [] [2; 5; 8; 11]%Z;
     _pybullet_client := still_client (mkVec3 0 0 (1 / 2)) [];
     _world_dict :=
       {| ground := Some 0%Z; terrain := None; goal_pos := Some (mkVec3 10 0 0);
          subgoals := Some [origin; mkVec3 5 0 0];
          subgoals_achieved := Some [true; false] |} |}.

Definition course_store : Store := λ _, course_env.

Definition course_task : GoalTask :=
  with_state
    (__init__ false 0 0 0 (1 / 100) 10 (3 / 10) (1 / 10) 0 (Some 1) false (1, 0) 10 true)
    (Some 0%nat) (Some origin) (Some origin).

(** The runner with motors at torque 1, tilted so that the orientation
    term is not zero. *)
Definition tilted_store : Store :=
  λ _, {| robot := mkRobot 1 origin (mkQuat 1 0 0 0) [1] [2; 5; 8; 11]%Z;
          _pybullet_client := still_client (mkVec3 0 0 (1 / 2)) [];
          _world_dict := flat_world (mkVec3 10 0 0) |}.

(** A task with subgoals and a penalty of 2 for falling, asked to run at
    one unit per second.  It is reset at the origin and takes a step of a
    twentieth of a unit; the reward is asked for when the base has
    dropped to a tenth of a unit, with torques 1 and 2, within reach of
    the first of two subgoals, none of them achieved yet. *)
Definition faller : GoalTask :=
  __init__ false 0 0 0 (1 / 100) 10 (3 / 10) (1 / 10) (-2) (Some 1) false (1, 0) 10 true.

Definition faller_reset : GoalTask :=
  with_state faller (Some 0%nat) (Some origin) (Some origin).

Definition faller_updated : GoalTask :=
  with_state faller (Some 0%nat) (Some origin) (Some (mkVec3 (1 / 20) 0 0)).

Definition fallen_store : Store :=
  λ _, {| robot := mkRobot 1 (mkVec3 (1 / 20) 0 (1 / 10)) upright [1; 2] [2; 5; 8; 11]%Z;
          _pybullet_client := still_client (mkVec3 (1 / 20) 0 (1 / 10)) [];
          _world_dict :=
            {| ground := Some 0%Z; terrain := None; goal_pos := Some (mkVec3 10 0 0);
               subgoals := Some [origin; mkVec3 (-5) 0 0];
               subgoals_achieved := Some [false; false] |} |}.

(** The task of the default constructor, reset at the origin and updated
    after a step of a twentieth of a unit. *)
Definition default_updated : GoalTask :=
  with_state default_task (Some 0%nat) (Some origin) (Some (mkVec3 (1 / 20) 0 0)).

End goal_task_spec.

(** * Further notions for goal_task.py *)

Module goal_task_notions.
Import goal_task goal_task_spec.
Local Open Scope R_scope.

(** The number of subgoals achieved so far. *)
Definition count_achieved (flags : list bool) : nat :=
  length (filter (λ b : bool, b = true) flags).

(** Store [σ'] is store [σ] but for the achieved flags of environment [id]. *)
Definition same_but_flags (σ σ' : Store) (id : EnvId) : Prop :=
  (∀ j, j ≠ id → σ' j = σ j)
  ∧ robot (σ' id) = robot (σ id)
  ∧ _pybullet_client (σ' id) = _pybullet_client (σ id)
  ∧ ground (_world_dict (σ' id)) = ground (_world_dict (σ id))
  ∧ terrain (_world_dict (σ' id)) = terrain (_world_dict (σ id))
  ∧ goal_pos (_world_dict (σ' id)) = goal_pos (_world_dict (σ id))
  ∧ subgoals (_world_dict (σ' id)) = subgoals (_world_dict (σ id)).

(** A computation that writes nothing but achieved flags of [id]. *)
Definition writes_flags_only {A : Type} (id : EnvId) (m : M A) : Prop :=
  ∀ σ, same_but_flags σ (m σ).2 id.

(** A computation that writes nothing. *)
Definition writes_nothing {A : Type} (m : M A) : Prop :=
  ∀ σ, (m σ).2 = σ.

(** A task as the constructor leaves it, whatever the arguments. *)
Definition constructed (self : GoalTask) : Prop :=
  ∃ z_constrain other_direction_penalty z_penalty orientation_penalty time_step_s
    num_action_repeat height_fall_coeff alive_reward fall_reward target_vel
    check_contact target_vel_dir goal_coeff subgoal,
    self = __init__ z_constrain other_direction_penalty z_penalty orientation_penalty
             time_step_s num_action_repeat height_fall_coeff alive_reward fall_reward
             target_vel check_contact target_vel_dir goal_coeff subgoal.

(** Every contact is a foot on the ground [g]. *)
Definition feet_on_ground (env : Env) (g : Z) : Prop :=
  ∀ c, c ∈ contacts_of env →
       contact_2 c = g ∧ contact_3 c ∈ _foot_link_ids (robot env).

(** The conditions of [done] that do not involve contacts. *)
Definition fallen (self : GoalTask) (env : Env) : Prop :=
  base_height env < height_fall_coeff self
  ∨ (z_constrain self = true ∧ 8 / 10 < base_height env)
  ∨ up_component env < 6 / 10.

(** ** Worlds for the examples *)

(** The runner standing on a terrain, body 3, with a foot, link 2. *)
Definition terrain_store : Store :=
  λ _, {| robot := mkRobot 1 origin upright [] [2; 5; 8; 11]%Z;
          _pybullet_client := still_client (mkVec3 0 0 (1 / 2)) [mkContact 3 2];
          _world_dict :=
            {| ground := Some 0%Z; terrain := Some 3%Z;
               goal_pos := Some (mkVec3 10 0 0);
               subgoals := None; subgoals_achieved := None |} |}.

(** The same robot with its four feet on the ground, body 0. *)
Definition grounded_store : Store :=
  λ _, standing_env (mkVec3 0 0 (1 / 2)) []
         [mkContact 0 2; mkContact 0 5; mkContact 0 8; mkContact 0 11].

(** A world without a ground entry, the robot touching body 0. *)
Definition groundless_store : Store :=
  λ _, {| robot := mkRobot 1 origin upright [] [2; 5; 8; 11]%Z;
          _pybullet_client := still_client (mkVec3 0 0 (1 / 2)) [mkContact 0 2];
          _world_dict :=
            {| ground := None; terrain := None; goal_pos := Some (mkVec3 10 0 0);
               subgoals := None; subgoals_achieved := None |} |}.

(** A task that checks contacts, standing still. *)
Definition still_checker : GoalTask :=
  with_state
    (__init__ false 0 0 0 (1 / 100) 10 (3 / 10) (1 / 10) 0 (Some 1) true (1, 0) 10 false)
    (Some 0%nat) (Some origin) (Some origin).

(** A course with two subgoals at the origin and one flag only. *)
Definition short_flags_store : Store :=
  λ _, {| robot := mkRobot 1 origin upright [] [2; 5; 8; 11]%Z;
          _pybullet_client := still_client (mkVec3 0 0 (1 / 2)) [];
          _world_dict :=
            {| ground := Some 0%Z; terrain := None; goal_pos := Some (mkVec3 10 0 0);
               subgoals := Some [origin; origin];
               subgoals_achieved := Some [false] |} |}.

(** A task asked to run backwards, at minus one unit per second. *)
Definition reverser : GoalTask :=
  with_state
    (__init__ false 0 0 0 (1 / 100) 10 (3 / 10) (1 / 10) 0 (Some (-1)) false (1, 0) 10 false)
    (Some 0%nat) (Some origin) (Some (mkVec3 (1 / 20) 0 0)).

(** A course with two subgoals, at the origin and five units ahead, none
    of them achieved yet. *)
Definition untouched_course_store : Store :=
  λ _, {| robot := mkRobot 1 origin upright [] [2; 5; 8; 11]%Z;
          _pybullet_client := still_client (mkVec3 0 0 (1 / 2)) [];
          _world_dict :=
            {| ground := Some 0%Z; terrain := None; goal_pos := Some (mkVec3 10 0 0);
               subgoals := Some [origin; mkVec3 5 0 0];
               subgoals_achieved := Some [false; false] |} |}.

End goal_task_notions.

(** * The specification's view of environment_sensors.py *)

Module environment_sensors_spec.
Import environment_sensors.

(** The force sensor after [__init__] and one [on_reset]. *)
Definition bound_force_sensor (super_init : BoxArgs → Attrs → Attrs)
    (env : Env) : Attrs :=
  ForceSensor.on_reset (ForceSensor.__init__ super_init 24 "Force" float64) env.

(** The shape mismatch in words: whatever environment the sensor is bound
    to, the accessor returns twelve components while the declared shape
    is [(24,)]. *)
Definition force_shape_mismatch_in_words
    (super_init : BoxArgs → Attrs → Attrs) : Prop :=
  ∀ env, ∃ out,
    ForceSensor._get_observation (bound_force_sensor super_init env) = Ok out
    ∧ length out = 12%nat
    ∧ box_shape (ForceSensor.super_args 24 "Force" float64) = [24%Z].

(** A sequence of [on_reset] calls, one per episode. *)
Definition force_resets (self : Attrs) (envs : list Env) : Attrs :=
  foldl ForceSensor.on_reset self envs.

(** ** Simulators to run the sensors on *)

(** A simulator whose joint states carry [n] force components each, one
    state per requested joint. *)
Definition client_with (n : nat) : PybulletClient :=
  {| getJointStates := λ _ ids, (λ _, mkJointState 0 0 (replicate n 0%R) 0) <$> ids |}.

Definition env_with (n : nat) : Env :=
  {| last_action := [];
     _robot := mkRobot 1 [0%R; 0%R; 0%R];
     _pybullet_client := client_with n;
     world_dict := {[ "goal_pos" := [1%R; 0%R; 0%R] ]} |}.

(** The bound force sensor with a robot attached from outside. *)
Definition attached_force_sensor (n : nat) : Attrs :=
  <["_robot" := VRobot (_robot (env_with n))]>
    (bound_force_sensor BoxSpaceSensor__init__ (env_with n)).

End environment_sensors_spec.

(** * Further notions for environment_sensors.py *)

Module environment_sensors_notions.
Import environment_sensors environment_sensors_spec.

(** Sequences of [on_reset] calls, one per episode. *)
Definition last_action_resets (self : Attrs) (envs : list Env) : Attrs :=
  foldl LastActionSensor.on_reset self envs.

Definition goal_pos_resets (self : Attrs) (envs : list Env) : Attrs :=
  foldl GoalPosSensor.on_reset self envs.

(** A simulator that answers with [n] joint states whatever is asked. *)
Definition client_answering (n : nat) : PybulletClient :=
  {| getJointStates := λ _ _, replicate n (mkJointState 0 0 [0%R; 0%R; 0%R] 0) |}.

Definition env_answering (n : nat) : Env :=
  {| last_action := [];
     _robot := mkRobot 1 [0%R; 0%R; 0%R];
     _pybullet_client := client_answering n;
     world_dict := ∅ |}.

(** A force sensor bound to [env_answering n], a robot attached. *)
Definition force_sensor_on (n : nat) : Attrs :=
  <["_robot" := VRobot (_robot (env_answering n))]>
    (bound_force_sensor BoxSpaceSensor__init__ (env_answering n)).

End environment_sensors_notions.

(** * The specification's view of ppo_nature_cnn_sim2sim.py *)

Module ppo_nature_cnn_sim2sim_spec.
Import ppo_nature_cnn_sim2sim.

(** The frame settings of evaluation, on the dictionary itself. *)
Definition eval_frames (d : gmap string Val) : gmap string Val :=
  match d !! "get_image_interval" with
  | Some v =>
      match py_gt v 1 with
      | Ok true => <["get_image_interval" := VInt 1]> (<["frame_extract" := v]> d)
      | _ =>
          if py_eq v 1
             && match d !! "frame_extract" with
                | Some w => py_eq w 1
                | None => false
                end
          then <["frame_extract" := VInt 4]> d
          else d
      end
  | None => d
  end.

(** A switch that is turned off when the configuration has it. *)
Definition disabled (k : string) (d : gmap string Val) : gmap string Val :=
  if bool_decide (is_Some (d !! k)) then <[k := VBool false]> d else d.

(** What evaluation makes of the [env_build] dictionary. *)
Definition eval_env_build (d : gmap string Val) : gmap string Val :=
  disabled "fixed_delay_observation"
    (disabled "interpolation"
       (disabled "curriculum"
          (eval_frames (<["reset_frame_idx_each_step" := VBool true]> d)))).

(** A configuration as [get_params] loads it from a file: a tree, the
    dictionary [p] with the name of the environment and, under ["env"],
    the dictionary [le], which has the dictionary [lb] under
    ["env_build"]; an image interval, if there is one, is a number, and
    comes with a frame count when it is 1. *)
Record config_tree (h : gmap nat (gmap string Val)) (p le lb : nat)
    (name : Val) (dp de db : gmap string Val) : Prop := {
  tree_params : h !! p = Some dp;
  tree_name : dp !! "env_name" = Some name;
  tree_env : dp !! "env" = Some (VRef le);
  tree_env_dict : h !! le = Some de;
  tree_build : de !! "env_build" = Some (VRef lb);
  tree_build_dict : h !! lb = Some db;
  tree_p_le : p ≠ le;
  tree_p_lb : p ≠ lb;
  tree_le_lb : le ≠ lb;
  tree_frames :
    ∀ v, db !! "get_image_interval" = Some v →
         (∃ b, py_gt v 1 = Ok b)
         ∧ (py_eq v 1 = true → is_Some (db !! "frame_extract")) }.

(** The heap [h0] with [D] for the dictionary at [lb] and [E] for the
    dictionary at [le]. *)
Definition with_dicts (h0 : gmap nat (gmap string Val)) (le lb : nat)
    (D E : gmap string Val) : gmap nat (gmap string Val) :=
  <[lb := D]> (<[le := E]> h0).

(** [params["env"][k]] and [params["env"]["env_build"][k]] *)
Definition read_env (params : Val) (k : string) : H Val :=
  env ← subscript params "env";
  subscript env k.

Definition read_env_build (params : Val) (k : string) : H Val :=
  b ← env_build params;
  subscript b k.

(** ** A small configuration *)

Definition a1_config : gmap nat (gmap string Val) :=
  {[ 0%nat := {[ "env_name" := VStr "A1"; "env" := VRef 1 ]};
     1%nat := {[ "horizon" := VInt 1000; "env_build" := VRef 2 ]};
     2%nat := {[ "curriculum" := VBool true; "get_image_interval" := VInt 4 ]} ]}.

Definition one_worker : Args :=
  {| vec_env_nums := 1; proc_nums := 1; seed := 0; cuda := false |}.

End ppo_nature_cnn_sim2sim_spec.

(** * Further notions for ppo_nature_cnn_sim2sim.py *)

Module ppo_nature_cnn_sim2sim_notions.
Import ppo_nature_cnn_sim2sim ppo_nature_cnn_sim2sim_spec.

(** The keys of [env_build] that the evaluation set-up may write. *)
Definition eval_keys : list string :=
  ["reset_frame_idx_each_step"; "get_image_interval"; "frame_extract";
   "curriculum"; "interpolation"; "fixed_delay_observation"].

(** The frame settings on the two entries they read and write: the image
    interval and the frame count, before and after. *)
Definition frames_of (interval frame_extract : option Val) : option Val * option Val :=
  match interval with
  | Some v =>
      match py_gt v 1 with
      | Ok true => (Some (VInt 1), Some v)
      | _ =>
          if py_eq v 1
             && match frame_extract with
                | Some w => py_eq w 1
                | None => false
                end
          then (interval, Some (VInt 4))
          else (interval, frame_extract)
      end
  | None => (interval, frame_extract)
  end.

(** A configuration whose image interval is 1 and which has no frame
    count. *)
Definition interval_only_config : gmap nat (gmap string Val) :=
  {[ 0%nat := {[ "env_name" := VStr "A1"; "env" := VRef 1 ]};
     1%nat := {[ "horizon" := VInt 1000; "env_build" := VRef 2 ]};
     2%nat := {[ "get_image_interval" := VInt 1 ]} ]}.

(** A configuration without an [env_build] dictionary. *)
Definition flat_config : gmap nat (gmap string Val) :=
  {[ 0%nat := {[ "env_name" := VStr "A1"; "env" := VRef 1 ]};
     1%nat := {[ "horizon" := VInt 1000 ]} ]}.

End ppo_nature_cnn_sim2sim_notions.
(** * Properties of goal_task.py *)

Lemma Rltb_true x y : Rltb x y = true ↔ (x < y)%R.
Proof. unfold Rltb. destruct (Rlt_dec x y); split; (done || lra). Qed.

Lemma Rltb_false x y : Rltb x y = false ↔ (y <= x)%R.
Proof. unfold Rltb. destruct (Rlt_dec x y); split; (done || lra). Qed.

Lemma Rleb_true x y : Rleb x y = true ↔ (x <= y)%R.
Proof. unfold Rleb. destruct (Rle_dec x y); split; (done || lra). Qed.

Lemma Rgtb_true x y : Rgtb x y = true ↔ (y < x)%R.
Proof. apply Rltb_true. Qed.

Lemma norm2_axis x : (0 <= x)%R → norm2 x 0 = x.
Proof.
  intros Hx. unfold norm2.
  replace (x ^ 2 + 0 ^ 2)%R with (x ^ 2)%R by ring.
  by apply sqrt_pow2.
Qed.

Lemma norm3_axis_x x : (0 <= x)%R → norm3 (mkVec3 x 0 0) = x.
Proof.
  intros Hx. unfold norm3; cbn [vx vy vz].
  replace (x ^ 2 + 0 ^ 2 + 0 ^ 2)%R with (x ^ 2)%R by ring.
  by apply sqrt_pow2.
Qed.

Lemma norm3_axis_z z : (0 <= z)%R → norm3 (mkVec3 0 0 z) = z.
Proof.
  intros Hz. unfold norm3; cbn [vx vy vz].
  replace (0 ^ 2 + 0 ^ 2 + z ^ 2)%R with (z ^ 2)%R by ring.
  by apply sqrt_pow2.
Qed.

Module goal_task_props.
Import goal_task goal_task_spec.
Local Open Scope R_scope.

(** Unfolding of the monadic plumbing. *)
Ltac munfold :=
  unfold self_env in *;
  unfold mbind, StateExn_bind, mret, StateExn_ret, lift, read_env, modify_env,
    getattr, getitem, float_div in *.

Lemma reset_bound self env σ :
  ∃ self', reset self env σ = (Ok self', σ)
    ∧ bound self' env (GetBasePosition (robot (σ env))) (GetBasePosition (robot (σ env))).
Proof. eexists. split; [reflexivity|]. by repeat split. Qed.

Lemma update_bound self id last cur env σ :
  bound self id last cur →
  ∃ self', update self env σ = (Ok self', σ)
    ∧ bound self' id cur (GetBasePosition (robot (σ env))).
Proof.
  intros (He & Hl & Hc). eexists. split.
  - unfold update. munfold. rewrite Hc. reflexivity.
  - by repeat split.
Qed.

Lemma self_env_bound self id last cur σ :
  bound self id last cur → self_env self σ = (Ok (σ id), σ).
Proof. intros (He & _). munfold. by rewrite He. Qed.

(** ** The forward-velocity reward *)

Lemma moved_bound self id last cur :
  _env self = Some id → bound (moved self last cur) id last cur.
Proof. intros He. by repeat split. Qed.

(** The value [_calc_reward_root_velocity] returns, in closed form. *)
Lemma root_velocity_value self σ id last cur tv :
  bound self id last cur → target_vel self = Some tv → elapsed self ≠ 0 →
  _calc_reward_root_velocity self σ =
    (Ok (tv ^ 2 - (Rmin (horizontal_speed self last cur) tv - tv) ^ 2
         - z_penalty self * vertical_speed self last cur ^ 2), σ).
Proof.
  intros (He & Hl & Hc) Htv Hdt.
  unfold _calc_reward_root_velocity. munfold. rewrite He. cbn beta iota.
  destruct (getBaseVelocity (_pybullet_client (σ id)) (quadruped (robot (σ id))))
    as [v w].
  rewrite Hc, Hl.
  destruct (Req_dec_T (elapsed self) 0) as [|_]; [done|].
  by rewrite Htv.
Qed.

Lemma forward_reward_value self σ id last cur tv :
  _env self = Some id → target_vel self = Some tv → elapsed self ≠ 0 →
  forward_reward self σ last cur =
    Ok (tv ^ 2 - (Rmin (horizontal_speed self last cur) tv - tv) ^ 2
        - z_penalty self * vertical_speed self last cur ^ 2).
Proof.
  intros He Htv Hdt. unfold forward_reward.
  by rewrite (root_velocity_value (moved self last cur) σ id last cur tv)
    by (done || by apply moved_bound).
Qed.

(** Without a target velocity there is no forward reward at all. *)
Lemma root_velocity_needs_target self σ id last cur :
  bound self id last cur → target_vel self = None → elapsed self ≠ 0 →
  _calc_reward_root_velocity self σ = (Raise ValueError, σ).
Proof.
  intros (He & Hl & Hc) Htv Hdt.
  unfold _calc_reward_root_velocity. munfold. rewrite He. cbn beta iota.
  destruct (getBaseVelocity (_pybullet_client (σ id)) (quadruped (robot (σ id))))
    as [v w].
  rewrite Hc, Hl.
  destruct (Req_dec_T (elapsed self) 0) as [|_]; [done|].
  by rewrite Htv.
Qed.

Lemma elapsed_runner : elapsed runner = 1 / 10.
Proof. unfold elapsed; simpl. lra. Qed.

Lemma horizontal_speed_runner x :
  0 <= x → horizontal_speed runner origin (mkVec3 x 0 0) = 10 * x.
Proof.
  intros Hx. unfold horizontal_speed. rewrite elapsed_runner. simpl.
  replace ((x - 0) / (1 / 10)) with (10 * x) by lra.
  replace ((0 - 0) / (1 / 10)) with 0 by lra.
  apply norm2_axis. lra.
Qed.

(** C1, the specification's wording fails: the clip makes the reward at
    one and a half times the target speed equal to the reward at the
    target speed, not smaller. *)
Lemma forward_reward_no_strict_peak :
  ¬ strict_peak_at_target_vel runner (standing_store origin) (1 / 2).
Proof.
  intros H.
  destruct (H 1 origin (mkVec3 (1 / 10) 0 0) origin (mkVec3 (1 / 20) 0 0)
              origin (mkVec3 (3 / 20) 0 0) 1 (3 / 4) 1) as [_ Hhi];
    try done; try lra.
  - rewrite horizontal_speed_runner; lra.
  - rewrite horizontal_speed_runner; lra.
  - rewrite horizontal_speed_runner; lra.
  - rewrite (forward_reward_value _ _ 0%nat _ _ 1); try done.
    + rewrite horizontal_speed_runner by lra. f_equal. simpl.
      rewrite Rmin_left by lra. lra.
    + rewrite elapsed_runner. lra.
  - rewrite (forward_reward_value _ _ 0%nat _ _ 1); try done.
    + rewrite horizontal_speed_runner by lra. f_equal. simpl.
      rewrite Rmin_left by lra. lra.
    + rewrite elapsed_runner. lra.
  - rewrite (forward_reward_value _ _ 0%nat _ _ 1); try done.
    + rewrite horizontal_speed_runner by lra. f_equal. simpl.
      rewrite Rmin_right by lra. lra.
    + rewrite elapsed_runner. lra.
Qed.

(** C1, as the code has it: for a task with a positive target velocity
    and no vertical penalty, the forward reward never exceeds
    [target_vel²]; it is [target_vel² - δ²], strictly below the reward at
    the target speed, when the horizontal speed is [δ] under the target,
    and it stays at [target_vel²], the reward at the target speed, for
    every speed at or above the target. *)
Theorem forward_reward_peak_then_plateau self σ id tv δ last cur :
  _env self = Some id → target_vel self = Some tv → 0 < tv →
  z_penalty self = 0 → elapsed self ≠ 0 → 0 < δ →
  (∃ r, forward_reward self σ last cur = Ok r ∧ r <= tv ^ 2)
  ∧ (horizontal_speed self last cur = tv →
       forward_reward self σ last cur = Ok (tv ^ 2))
  ∧ (horizontal_speed self last cur = tv - δ →
       forward_reward self σ last cur = Ok (tv ^ 2 - δ ^ 2)
       ∧ tv ^ 2 - δ ^ 2 < tv ^ 2)
  ∧ (horizontal_speed self last cur = tv + δ →
       forward_reward self σ last cur = Ok (tv ^ 2)).
Proof.
  intros He Htv Hpos Hz Hdt Hδ.
  rewrite (forward_reward_value self σ id last cur tv) by done.
  rewrite Hz. repeat split.
  - eexists; split; [reflexivity|].
    pose proof (pow2_ge_0 (Rmin (horizontal_speed self last cur) tv - tv)). lra.
  - intros ->. f_equal. rewrite Rmin_left by lra. ring.
  - f_equal. rewrite H, Rmin_left by lra. ring.
  - pose proof (pow_lt δ 2 Hδ). lra.
  - intros ->. f_equal. rewrite Rmin_right by lra. ring.
Qed.

Lemma forward_reward_peak_then_plateau_witness :
  (∃ r, forward_reward runner (standing_store origin) origin (mkVec3 (1 / 20) 0 0) = Ok r
        ∧ r <= 1 ^ 2)
  ∧ (horizontal_speed runner origin (mkVec3 (1 / 20) 0 0) = 1 →
       forward_reward runner (standing_store origin) origin (mkVec3 (1 / 20) 0 0)
       = Ok (1 ^ 2))
  ∧ (horizontal_speed runner origin (mkVec3 (1 / 20) 0 0) = 1 - 1 / 2 →
       forward_reward runner (standing_store origin) origin (mkVec3 (1 / 20) 0 0)
       = Ok (1 ^ 2 - (1 / 2) ^ 2)
       ∧ 1 ^ 2 - (1 / 2) ^ 2 < 1 ^ 2)
  ∧ (horizontal_speed runner origin (mkVec3 (1 / 20) 0 0) = 1 + 1 / 2 →
       forward_reward runner (standing_store origin) origin (mkVec3 (1 / 20) 0 0)
       = Ok (1 ^ 2)).
Proof.
  apply (forward_reward_peak_then_plateau runner (standing_store origin) 0%nat 1 (1 / 2));
    try reflexivity; try lra.
  rewrite elapsed_runner. lra.
Defined.

(** ** Termination *)

Lemma body_contact_loop_value env g cs b :
  ground (_world_dict env) = Some g →
  body_contact_loop env cs b = Ok (existsb (body_contact env g) cs || b).
Proof.
  intros Hg. induction cs as [|c cs IH]; [done|].
  cbn [body_contact_loop existsb]. rewrite Hg. cbn.
  unfold body_contact at 1.
  destruct ((contact_2 c =? g)%Z
            || match terrain (_world_dict env) with
               | Some t => (contact_2 c =? t)%Z
               | None => false
               end); cbn; [|exact IH].
  destruct (is_foot_link env (contact_3 c)); cbn; [exact IH|done].
Qed.

Lemma non_ground_loop_value env g cs b :
  ground (_world_dict env) = Some g →
  non_ground_loop env cs b = Ok (existsb (λ c, negb (Z.eqb (contact_2 c) g)) cs || b).
Proof.
  intros Hg. induction cs as [|c cs IH]; [done|].
  cbn [non_ground_loop existsb]. rewrite Hg. cbn.
  destruct (contact_2 c =? g)%Z; cbn; [exact IH|done].
Qed.

Lemma body_contact_true env g c :
  body_contact env g c = true ↔
  (contact_2 c = g ∨ terrain (_world_dict env) = Some (contact_2 c))
  ∧ contact_3 c ∉ _foot_link_ids (robot env).
Proof.
  unfold body_contact, is_foot_link.
  rewrite andb_true_iff, orb_true_iff, negb_true_iff, bool_decide_eq_false, Z.eqb_eq.
  destruct (terrain (_world_dict env)) as [t|].
  - rewrite Z.eqb_eq. split; intros [[?|?] ?]; split; (done || (left; congruence) || (right; congruence)).
  - split; intros [[?|?] ?]; split; (done || by left).
Qed.

(** The two loops together find exactly the illegal contacts. *)
Lemma contact_loops_illegal env g :
  ground (_world_dict env) = Some g →
  existsb (λ c, negb (Z.eqb (contact_2 c) g)) (contacts_of env)
  || (existsb (body_contact env g) (contacts_of env) || false) = true
  ↔ illegal_contact env.
Proof.
  intros Hg. rewrite orb_false_r, orb_true_iff, !existsb_exists. split.
  - intros [(c & Hin & Hc)|(c & Hin & Hc)]; exists g, c;
      (split; [done|]); (split; [by apply list_elem_of_In|]).
    + right. by apply negb_true_iff, Z.eqb_neq in Hc.
    + left. by apply body_contact_true.
  - intros (g' & c & Hg' & Hin & Hc).
    assert (g' = g) as -> by congruence.
    apply list_elem_of_In in Hin.
    destruct Hc as [Hc|Hc]; [right|left]; exists c; (split; [done|]).
    + by apply body_contact_true.
    + by apply negb_true_iff, Z.eqb_neq.
Qed.

Lemma speed_norm_le_true self last cur :
  speed_norm_le cur last (elapsed self) (5 / 100) = true
  ↔ elapsed self ≠ 0 ∧ speed_3d self last cur <= 5 / 100.
Proof.
  unfold speed_norm_le, speed_3d.
  destruct (Req_dec_T (elapsed self) 0) as [E|E].
  - split; [done|]. by intros [? _].
  - rewrite Rleb_true. split; [done|]. by intros [_ ?].
Qed.

(** [done] reads the store and leaves it as it is. *)
Lemma done_pure self env σ : (done self env σ).2 = σ.
Proof.
  unfold done. munfold.
  destruct (_env self) as [id|]; [|done]. cbn beta iota.
  destruct (getBasePositionAndOrientation _ _) as [p q].
  destruct (check_contact self); [|done].
  destruct (body_contact_loop _ _ _) as [b1|]; [|done]. cbn beta iota.
  destruct (non_ground_loop _ _ _) as [b2|]; [|done]. cbn beta iota.
  destruct (current_base_pos self); [|done].
  by destruct (last_base_pos self).
Qed.

Lemma no_contact_not_illegal env : contacts_of env = [] → ¬ illegal_contact env.
Proof. intros Hnil (g & c & _ & Hin & _). rewrite Hnil in Hin. by apply elem_of_nil in Hin. Qed.

(** What [done] returns. *)
Lemma done_value self env σ id last cur :
  bound self id last cur →
  (check_contact self = true →
     contacts_of (σ id) = [] ∨ is_Some (ground (_world_dict (σ id)))) →
  ∃ d, done self env σ = (Ok d, σ)
       ∧ (d = true ↔ done_condition self (σ id) last cur).
Proof.
  intros (He & Hl & Hc) Hwf. unfold done. munfold. rewrite He. cbn beta iota.
  unfold done_condition, base_height, up_component.
  destruct (getBasePositionAndOrientation (_pybullet_client (σ id))
              (quadruped (robot (σ id)))) as [p q].
  cbn [fst].
  destruct (check_contact self) eqn:Hcc.
  - destruct Hwf as [Hnil|[g Hg]]; [done|..].
    + pose proof (no_contact_not_illegal _ Hnil) as Hno.
      unfold contacts_of in Hnil. rewrite Hnil. cbn. rewrite Hc, Hl.
      eexists; split; [reflexivity|].
      destruct (z_constrain self);
        rewrite !orb_true_iff, ?Rgtb_true, !Rltb_true; intuition (done || congruence).
    + rewrite (body_contact_loop_value _ g), (non_ground_loop_value _ g) by done.
      cbn beta iota. rewrite Hc, Hl.
      eexists; split; [reflexivity|].
      pose proof (contact_loops_illegal _ g Hg) as Hill.
      pose proof (speed_norm_le_true self last cur) as Hsp.
      unfold contacts_of in Hill.
      destruct (z_constrain self);
        rewrite !orb_true_iff, andb_true_iff, ?Rgtb_true, !Rltb_true, Hill, Hsp;
        intuition (done || congruence).
  - eexists; split; [reflexivity|].
    destruct (z_constrain self);
      rewrite !orb_true_iff, ?Rgtb_true, !Rltb_true; intuition (done || congruence).
Qed.

(** C3, as the code has it: for a task bound to an environment whose
    world dictionary names the ground whenever contacts are to be
    checked and there are any, [done] returns the same answer whatever
    environment it is passed, leaves the store as it is, and is true
    exactly when the base is below [height_fall_coeff],
    or [z_constrain] is set and the base is above 0.8, or the up
    component of the rotation matrix is below 0.6, or contacts are
    checked, one of them is illegal and the norm of the three-dimensional
    velocity is at most 0.05; it is false otherwise. *)
Theorem done_exactly self σ id last cur :
  bound self id last cur →
  (check_contact self = true →
     contacts_of (σ id) = [] ∨ is_Some (ground (_world_dict (σ id)))) →
  ∃ d, (∀ env', done self env' σ = (Ok d, σ))
       ∧ (d = true ↔ done_condition self (σ id) last cur)
       ∧ (d = false ↔ ¬ done_condition self (σ id) last cur).
Proof.
  intros Hb Hwf.
  destruct (done_value self id σ id last cur Hb Hwf) as (d & Hrun & Hd).
  exists d. split; [|split; [exact Hd|]].
  - intros env'.
    destruct (done_value self env' σ id last cur Hb Hwf) as (d' & Hrun' & Hd').
    rewrite Hrun'. do 2 f_equal.
    destruct d, d'; try done.
    + by apply Hd', Hd.
    + symmetry. by apply Hd, Hd'.
  - rewrite <- Hd. by destruct d.
Qed.

Lemma done_exactly_witness :
  ∃ d, (∀ env', done contact_checker env' touching_store = (Ok d, touching_store))
       ∧ (d = true ↔
          done_condition contact_checker (touching_store 0%nat) origin
            (mkVec3 0 0 (1 / 10)))
       ∧ (d = false ↔
          ¬ done_condition contact_checker (touching_store 0%nat) origin
              (mkVec3 0 0 (1 / 10))).
Proof.
  apply (done_exactly contact_checker touching_store 0%nat origin
           (mkVec3 0 0 (1 / 10))).
  - repeat split.
  - intros _. right. by exists 0%Z.
Defined.

Lemma elapsed_contact_checker : elapsed contact_checker = 1 / 10.
Proof. unfold elapsed; simpl. lra. Qed.

Lemma speed_3d_rising : speed_3d contact_checker origin (mkVec3 0 0 (1 / 10)) = 1.
Proof.
  unfold speed_3d. rewrite elapsed_contact_checker.
  unfold vdiv, vsub, origin; cbn [vx vy vz].
  replace (mkVec3 ((0 - 0) / (1 / 10)) ((0 - 0) / (1 / 10)) ((1 / 10 - 0) / (1 / 10)))
    with (mkVec3 0 0 1) by (f_equal; lra).
  apply norm3_axis_z. lra.
Qed.

Lemma horizontal_speed_rising :
  horizontal_speed contact_checker origin (mkVec3 0 0 (1 / 10)) = 0.
Proof.
  unfold horizontal_speed. rewrite elapsed_contact_checker. cbn [vx vy vz origin].
  replace ((0 - 0) / (1 / 10)) with 0 by lra.
  apply norm2_axis. lra.
Qed.

Lemma touching_illegal : illegal_contact (touching_store 0%nat).
Proof.
  exists 0%Z, (mkContact 7 2). split; [done|]. split.
  - apply list_elem_of_singleton. reflexivity.
  - right. done.
Qed.

(** C3, the specification's three conditions are not what [done] tests:
    with [z_constrain] a base above 0.8 ends the episode although none of
    the three holds, and an illegal contact at zero horizontal speed does
    not end it while the base moves vertically. *)
Lemma done_not_three_conditions :
  ((done banded 0%nat high_store).1 = Ok true
   ∧ ¬ done_condition_in_words banded (high_store 0%nat) origin origin)
  ∧ ((done contact_checker 0%nat touching_store).1 = Ok false
     ∧ done_condition_in_words contact_checker (touching_store 0%nat) origin
         (mkVec3 0 0 (1 / 10))).
Proof.
  split; split.
  - destruct (done_value banded 0%nat high_store 0%nat origin origin)
      as (d & -> & Hd); [by repeat split|done|].
    cbn [fst]. f_equal. apply Hd. right; left. split; [done|].
    unfold base_height; simpl. lra.
  - unfold done_condition_in_words, base_height, up_component; simpl.
    intros [H|[H|[H _]]]; (lra || done).
  - destruct (done_value contact_checker 0%nat touching_store 0%nat origin
                (mkVec3 0 0 (1 / 10))) as (d & -> & Hd);
      [by repeat split|intros _; right; by exists 0%Z|].
    cbn [fst]. f_equal. destruct d; [|done]. exfalso.
    destruct Hd as [Hd _]. specialize (Hd eq_refl).
    unfold done_condition, base_height, up_component in Hd.
    rewrite speed_3d_rising in Hd. simpl in Hd.
    destruct Hd as [H|[[H _]|[H|(_ & _ & _ & H)]]]; (lra || done).
  - right; right. split; [done|]. split; [apply touching_illegal|].
    rewrite horizontal_speed_rising. lra.
Qed.

(** ** The reward terms *)

Lemma dot_self l : dot l l = sum_squares l.
Proof.
  unfold dot, sum_squares. induction l as [|x l IH]; [done|].
  cbn [zip_with foldr]. rewrite IH. ring.
Qed.

Lemma rotation_value self σ id last cur ref :
  bound self id last cur → init_orientation self = Some ref →
  _calc_reward_rotation self σ =
    (Ok (orientation_deviation ref (GetBaseOrientation (robot (σ id)))), σ).
Proof.
  intros (He & _) Href. unfold _calc_reward_rotation. munfold.
  by rewrite He, Href.
Qed.

Lemma goal_dist_value self σ id last cur goal :
  bound self id last cur → goal_pos (_world_dict (σ id)) = Some goal →
  elapsed self ≠ 0 →
  _calc_reward_goal_dist self σ = (Ok (goal_progress self goal last cur), σ).
Proof.
  intros (He & Hl & Hc) Hg Hdt. unfold _calc_reward_goal_dist. munfold.
  rewrite He. cbn beta iota. by rewrite Hg, Hl, Hc.
Qed.

Lemma flags_replaced_refl σ id flags :
  subgoals_achieved (_world_dict (σ id)) = Some flags →
  flags_replaced σ σ id flags.
Proof. intros H. by repeat split. Qed.

Lemma flags_replaced_insert σ id flags :
  flags_replaced σ (<[id := set_subgoals_achieved flags (σ id)]> σ) id flags.
Proof.
  unfold flags_replaced. rewrite fn_lookup_insert. repeat split.
  intros j Hj. by rewrite fn_lookup_insert_ne.
Qed.

Lemma flags_replaced_trans σ1 σ2 σ3 id f2 f3 :
  flags_replaced σ1 σ2 id f2 → flags_replaced σ2 σ3 id f3 →
  flags_replaced σ1 σ3 id f3.
Proof.
  intros (A1 & A2 & A3 & A4 & A5 & A6 & A7 & A8)
         (B1 & B2 & B3 & B4 & B5 & B6 & B7 & B8).
  repeat split; try congruence.
  intros j Hj. rewrite B1, A1; done.
Qed.

(** Marking index [i] leaves the contributions from [S i] on as they are. *)
Lemma subgoal_bonus_insert_before cur subs : ∀ i j flags b,
  (j < i)%nat →
  subgoal_bonus cur i subs (<[j := b]> flags) = subgoal_bonus cur i subs flags.
Proof.
  induction subs as [|pos rest IH]; intros i j flags b Hji; [done|].
  cbn [subgoal_bonus]. rewrite list_lookup_insert_ne by lia.
  rewrite IH by lia. done.
Qed.

(** The loop of [_calc_reward_subgoal]: what it returns and what it
    writes. *)
Lemma subgoal_loop_value self id last cur subs : ∀ i acc σ flags,
  bound self id last cur →
  subgoals_achieved (world_dict (σ id)) = Some flags →
  (i + length subs ≤ length flags)%nat →
  ∃ σ', subgoal_loop self i subs acc σ = (Ok (acc + subgoal_bonus cur i subs flags), σ')
        ∧ flags_replaced σ σ' id (mark_reached cur i subs flags).
Proof.
  induction subs as [|pos rest IH]; intros i acc σ flags Hb Hfl Hlen.
  - exists σ. split.
    + cbn. unfold mret, StateExn_ret. do 2 f_equal. lra.
    + by apply flags_replaced_refl.
  - pose proof Hb as (He & Hl & Hc).
    cbn [subgoal_loop subgoal_bonus mark_reached length] in *.
    unfold subgoal_contribution, within_radius.
    munfold. rewrite Hc. cbn beta iota.
    destruct (Rltb (norm3 (vsub cur pos)) 1) eqn:Hin.
    + rewrite He. cbn beta iota. unfold world_dict in Hfl |- *. rewrite Hfl.
      unfold list_getitem.
      destruct (lookup_lt_is_Some_2 flags i) as [a Ha]; [lia|].
      rewrite Ha. cbn beta iota. destruct a; cbn [negb andb].
      * destruct (IH (S i) acc σ flags Hb Hfl) as (σ' & Hrun & Hfr); [lia|].
        exists σ'. rewrite (list_insert_id flags i true Ha). split; [|done].
        rewrite Hrun. do 2 f_equal. lra.
      * set (σ1 := <[id := set_subgoals_achieved (<[i := true]> flags) (σ id)]> σ).
        destruct (IH (S i) (acc + 5) σ1 (<[i := true]> flags) Hb) as (σ' & Hrun & Hfr).
        { unfold σ1. by rewrite fn_lookup_insert. }
        { rewrite length_insert. lia. }
        exists σ'. split.
        -- rewrite Hrun. do 2 f_equal.
           rewrite subgoal_bonus_insert_before by lia. lra.
        -- eapply flags_replaced_trans; [apply flags_replaced_insert|exact Hfr].
    + destruct (IH (S i) acc σ flags Hb Hfl) as (σ' & Hrun & Hfr); [lia|].
      exists σ'. split; [|done].
      rewrite Hrun. do 2 f_equal.
      destruct (flags !! i); cbn [andb]; lra.
Qed.

Lemma subgoal_value self σ id last cur subs flags :
  bound self id last cur → subgoals_well_formed (σ id) subs flags →
  ∃ σ', _calc_reward_subgoal self σ = (Ok (subgoal_bonus cur 0 subs flags), σ')
        ∧ flags_replaced σ σ' id (mark_reached cur 0 subs flags).
Proof.
  intros Hb (Hs & Hf & Hlen).
  destruct (subgoal_loop_value self id last cur subs 0%nat 0 σ flags Hb Hf)
    as (σ' & Hrun & Hfr); [lia|].
  exists σ'. split; [|done].
  unfold _calc_reward_subgoal. munfold. destruct Hb as (He & _). rewrite He.
  cbn beta iota. rewrite Hs, Hrun. do 2 f_equal. lra.
Qed.

(** ** The reward *)

Lemma body_contact_loop_frame e e' cs b :
  robot e' = robot e → ground (_world_dict e') = ground (_world_dict e) →
  terrain (_world_dict e') = terrain (_world_dict e) →
  body_contact_loop e' cs b = body_contact_loop e cs b.
Proof.
  intros Hr Hg Ht. induction cs as [|c cs IH]; [done|].
  cbn [body_contact_loop]. unfold is_foot_link. by rewrite Hr, Hg, Ht, IH.
Qed.

Lemma non_ground_loop_frame e e' cs b :
  ground (_world_dict e') = ground (_world_dict e) →
  non_ground_loop e' cs b = non_ground_loop e cs b.
Proof.
  intros Hg. induction cs as [|c cs IH]; [done|].
  cbn [non_ground_loop]. by rewrite Hg, IH.
Qed.

(** [done] does not look at the achieved flags. *)
Lemma done_frame self env σ σ' id flags :
  _env self = Some id → flags_replaced σ σ' id flags →
  done self env σ' = ((done self env σ).1, σ').
Proof.
  intros He (_ & Hr & Hp & Hg & Ht & _).
  unfold done. munfold. rewrite He. cbn beta iota.
  unfold pybullet_client. rewrite Hr, Hp.
  destruct (getBasePositionAndOrientation (_pybullet_client (σ id))
              (quadruped (robot (σ id)))) as [p q].
  destruct (check_contact self); [|done].
  rewrite (body_contact_loop_frame (σ id) (σ' id)) by done.
  destruct (body_contact_loop (σ id) _ false) as [b1|]; [|done]. cbn beta iota.
  rewrite (non_ground_loop_frame (σ id) (σ' id)) by done.
  destruct (non_ground_loop (σ id) _ b1) as [b2|]; [|done]. cbn beta iota.
  destruct (current_base_pos self); [|done].
  by destruct (last_base_pos self).
Qed.

(** What [reward] returns and the store it leaves. *)
Lemma reward_value self env σ id last cur tv ref goal subs flags d :
  bound self id last cur →
  target_vel self = Some tv → init_orientation self = Some ref →
  elapsed self ≠ 0 →
  goal_pos (_world_dict (σ id)) = Some goal →
  (subgoal self = true → subgoals_well_formed (σ id) subs flags) →
  (done self env σ).1 = Ok d →
  ∃ σ', reward self env σ =
          (Ok (reward_in_words self (σ id) tv ref goal last cur
                 (subgoal_bonus cur 0 subs flags) d), σ')
        ∧ if subgoal self
          then flags_replaced σ σ' id (mark_reached cur 0 subs flags)
          else σ' = σ.
Proof.
  intros Hb Htv Href Hdt Hgoal Hsub Hdone.
  unfold reward. unfold mbind, StateExn_bind.
  rewrite (self_env_bound self id last cur σ Hb).
  rewrite (root_velocity_value self σ id last cur tv) by done.
  rewrite (rotation_value self σ id last cur ref) by done.
  rewrite (goal_dist_value self σ id last cur goal) by done.
  unfold reward_in_words, energy_term, forward_velocity_term, energy_reward.
  rewrite dot_self.
  destruct (subgoal self) eqn:Hsg.
  - destruct (subgoal_value self σ id last cur subs flags Hb (Hsub eq_refl))
      as (σ' & Hrun & Hfr).
    exists σ'. split; [|done]. rewrite Hrun.
    destruct Hb as (He & _).
    rewrite (done_frame self env σ σ' id _ He Hfr), Hdone.
    unfold mret, StateExn_ret. do 2 f_equal. destruct d; ring.
  - exists σ. split; [|done].
    unfold mret at 1, StateExn_ret at 1.
    pose proof (done_pure self env σ) as Hp.
    destruct (done self env σ) as [r σd]. cbn [fst snd] in *. subst.
    unfold mret, StateExn_ret. do 2 f_equal. destruct d; ring.
Qed.

(** C2, as the code has it: for a task bound to an environment by [reset]
    and [update], with a target velocity and a reference orientation,
    whose world has a goal (and a flag for every subgoal when subgoals
    are enabled), [reward] returns the weighted sum of goal progress
    times [goal_coeff], the forward-velocity term times
    [move_forward_coeff], the squared-torque energy term times
    [energy_weight], the orientation deviation times minus
    [orientation_penalty] and [_alive_reward], plus the subgoal bonus
    when [subgoal] is set, plus [fall_reward] exactly when [done] is true
    at this step. *)
Theorem reward_weighted_sum self0 self1 self env σ0 σ1 σ tv ref goal subs flags d :
  (reset self0 env σ0).1 = Ok self1 →
  (update self1 env σ1).1 = Ok self →
  target_vel self = Some tv → init_orientation self = Some ref →
  elapsed self ≠ 0 →
  goal_pos (_world_dict (σ env)) = Some goal →
  (subgoal self = true → subgoals_well_formed (σ env) subs flags) →
  (done self env σ).1 = Ok d →
  (reward self env σ).1 =
    Ok (reward_in_words self (σ env) tv ref goal
          (GetBasePosition (robot (σ0 env))) (GetBasePosition (robot (σ1 env)))
          (subgoal_bonus (GetBasePosition (robot (σ1 env))) 0 subs flags) d).
Proof.
  intros Hreset Hupdate Htv Href Hdt Hgoal Hsub Hdone.
  destruct (reset_bound self0 env σ0) as (s1 & Hr & Hb1).
  rewrite Hr in Hreset. cbn [fst] in Hreset. injection Hreset as ->.
  destruct (update_bound self1 env _ _ env σ1 Hb1) as (s2 & Hu & Hb2).
  rewrite Hu in Hupdate. cbn [fst] in Hupdate. injection Hupdate as ->.
  destruct (reward_value self env σ env _ _ tv ref goal subs flags d
              Hb2 Htv Href Hdt Hgoal Hsub Hdone) as (σ' & -> & _).
  reflexivity.
Qed.

(** With the default [target_vel=None] the forward-velocity term, and
    with it the reward, raises. *)
Lemma reward_needs_target self env σ id last cur :
  bound self id last cur → target_vel self = None → elapsed self ≠ 0 →
  reward self env σ = (Raise ValueError, σ).
Proof.
  intros Hb Htv Hdt. unfold reward. unfold mbind, StateExn_bind.
  rewrite (self_env_bound self id last cur σ Hb).
  by rewrite (root_velocity_needs_target self σ id last cur).
Qed.

Example default_task_has_no_reward :
  reward (with_state default_task (Some 0%nat) (Some origin) (Some origin)) 0%nat
    (standing_store origin)
  = (Raise ValueError, standing_store origin).
Proof.
  apply (reward_needs_target _ _ _ 0%nat origin origin); [by repeat split|done|].
  unfold elapsed; simpl. lra.
Qed.

(** C2, the specification's wording fails: it speaks of every task bound
    by [reset] and updated by [update], and the task of the default
    constructor, whose [target_vel] is [None], is one of them: reset,
    updated, with a goal ahead and [done] returning, its [reward] raises
    in the forward-velocity term and returns no weighted sum. *)
Lemma reward_not_for_every_task : ¬ weighted_sum_for_every_task.
Proof.
  intros H.
  destruct (done_value default_updated 0%nat stride_store 0%nat origin
              (mkVec3 (1 / 20) 0 0)) as (d & Hd & _); [by repeat split|done|].
  destruct (H default_task
              (with_state default_task (Some 0%nat) (Some origin) (Some origin))
              default_updated 0%nat (standing_store origin) step_store stride_store
              upright (mkVec3 10 0 0) [] [] d) as [tv Hr]; try done.
  - unfold elapsed; simpl. lra.
  - by rewrite Hd.
  - rewrite (reward_needs_target default_updated 0%nat stride_store 0%nat origin
               (mkVec3 (1 / 20) 0 0)) in Hr; [done|by repeat split|done|].
    unfold elapsed; simpl. lra.
Qed.

Lemma trainee_not_done : (done trainee_updated 0%nat stride_store).1 = Ok false.
Proof.
  destruct (done_value trainee_updated 0%nat stride_store 0%nat origin
              (mkVec3 (1 / 20) 0 0)) as (d & -> & Hd); [by repeat split|done|].
  cbn [fst]. f_equal. destruct d; [|done]. exfalso.
  destruct Hd as [Hd _]. specialize (Hd eq_refl).
  unfold done_condition, base_height, up_component in Hd. simpl in Hd.
  destruct Hd as [H|[[H _]|[H|(H & _)]]]; (lra || done).
Qed.

Lemma faller_done : (done faller_updated 0%nat fallen_store).1 = Ok true.
Proof.
  destruct (done_value faller_updated 0%nat fallen_store 0%nat origin
              (mkVec3 (1 / 20) 0 0)) as (d & -> & Hd); [by repeat split|done|].
  cbn [fst]. f_equal. apply Hd. left. unfold base_height; simpl. lra.
Qed.

Lemma reward_weighted_sum_witness :
  (reward faller_updated 0%nat fallen_store).1 =
    Ok (reward_in_words faller_updated (fallen_store 0%nat) 1 upright
          (mkVec3 10 0 0)
          (GetBasePosition (robot (standing_store origin 0%nat)))
          (GetBasePosition (robot (step_store 0%nat)))
          (subgoal_bonus (GetBasePosition (robot (step_store 0%nat))) 0
             [origin; mkVec3 (-5) 0 0] [false; false]) true).
Proof.
  apply (reward_weighted_sum faller faller_reset faller_updated 0%nat
           (standing_store origin) step_store fallen_store).
  - reflexivity.
  - reflexivity.
  - reflexivity.
  - reflexivity.
  - unfold elapsed; simpl. lra.
  - reflexivity.
  - intros _. repeat split. simpl. lia.
  - exact faller_done.
Defined.

(** The subgoal bonus of the step of the faller: the first subgoal is
    within the radius, the second is not. *)
Lemma faller_bonus :
  subgoal_bonus (mkVec3 (1 / 20) 0 0) 0 [origin; mkVec3 (-5) 0 0] [false; false] = 5.
Proof.
  cbn [subgoal_bonus lookup list_lookup]. unfold subgoal_contribution, within_radius.
  replace (vsub (mkVec3 (1 / 20) 0 0) origin) with (mkVec3 (1 / 20) 0 0)
    by (unfold vsub, origin; cbn; f_equal; lra).
  replace (vsub (mkVec3 (1 / 20) 0 0) (mkVec3 (-5) 0 0)) with (mkVec3 (101 / 20) 0 0)
    by (unfold vsub; cbn; f_equal; lra).
  rewrite !norm3_axis_x by lra.
  rewrite (proj2 (Rltb_true (1 / 20) 1)) by lra.
  rewrite (proj2 (Rltb_false (101 / 20) 1)) by lra. cbn [andb negb]. lra.
Qed.

(** The reward of that step: the reward of the trainee, the bonus of 5
    for the subgoal reached and the penalty of 2 for the fall. *)
Example faller_reward :
  (reward faller_updated 0%nat fallen_store).1 = Ok (884975 / 100000).
Proof.
  destruct (reward_value faller_updated 0%nat fallen_store 0%nat origin
              (mkVec3 (1 / 20) 0 0) 1 upright (mkVec3 10 0 0)
              [origin; mkVec3 (-5) 0 0] [false; false] true)
    as (σ' & -> & _); try done.
  { unfold elapsed; simpl. lra. }
  { exact faller_done. }
  cbn [fst]. f_equal.
  unfold reward_in_words. rewrite faller_bonus.
  unfold goal_progress, forward_velocity_term, energy_term,
    orientation_deviation, horizontal_speed, vertical_speed, elapsed.
  cbn -[norm3 norm2 Rmin pow Rdiv Rmult Rplus Rminus Ropp IZR].
  replace (vsub (mkVec3 10 0 0) origin) with (mkVec3 10 0 0)
    by (unfold vsub, origin; cbn; f_equal; lra).
  replace (vsub (mkVec3 10 0 0) (mkVec3 (1 / 20) 0 0)) with (mkVec3 (199 / 20) 0 0)
    by (unfold vsub; cbn; f_equal; lra).
  rewrite !norm3_axis_x by lra.
  replace ((1 / 20 - 0) / (1 / 100 * 10)) with (1 / 2) by lra.
  replace ((0 - 0) / (1 / 100 * 10)) with 0 by lra.
  rewrite norm2_axis by lra. rewrite Rmin_left by lra. lra.
Qed.

(** The reward of the step of the trainee: half a unit per second
    towards the goal, at half the target speed, torques 1 and 2. *)
Example trainee_reward :
  (reward trainee_updated 0%nat stride_store).1 = Ok (584975 / 100000).
Proof.
  destruct (reward_value trainee_updated 0%nat stride_store 0%nat origin
              (mkVec3 (1 / 20) 0 0) 1 upright (mkVec3 10 0 0) [] [] false)
    as (σ' & -> & _); try done.
  { unfold elapsed; simpl. lra. }
  { exact trainee_not_done. }
  cbn [fst]. f_equal.
  unfold reward_in_words, goal_progress, forward_velocity_term, energy_term,
    orientation_deviation, horizontal_speed, vertical_speed, elapsed.
  cbn -[norm3 norm2 Rmin pow Rdiv Rmult Rplus Rminus Ropp IZR].
  replace (vsub (mkVec3 10 0 0) origin) with (mkVec3 10 0 0)
    by (unfold vsub, origin; cbn; f_equal; lra).
  replace (vsub (mkVec3 10 0 0) (mkVec3 (1 / 20) 0 0)) with (mkVec3 (199 / 20) 0 0)
    by (unfold vsub; cbn; f_equal; lra).
  rewrite !norm3_axis_x by lra.
  replace ((1 / 20 - 0) / (1 / 100 * 10)) with (1 / 2) by lra.
  replace ((0 - 0) / (1 / 100 * 10)) with 0 by lra.
  rewrite norm2_axis by lra. rewrite Rmin_left by lra. lra.
Qed.

(** ** Subgoals are awarded once *)

Lemma keeps_ret {A : Type} (a : A) : keeps_achieved (mret a).
Proof. by intros σ j i H. Qed.

Lemma keeps_lift {A : Type} (r : Result A) : keeps_achieved (lift r).
Proof. by intros σ j i H. Qed.

Lemma keeps_read_env id : keeps_achieved (read_env id).
Proof. by intros σ j i H. Qed.

Lemma keeps_bind {A B : Type} (m : M A) (f : A → M B) :
  keeps_achieved m → (∀ a, keeps_achieved (f a)) → keeps_achieved (m ≫= f).
Proof.
  intros Hm Hf σ j i H. unfold mbind, StateExn_bind.
  specialize (Hm σ j i H). destruct (m σ) as [[a|e] σ']; cbn [snd] in *.
  - by apply Hf.
  - done.
Qed.

Lemma keeps_self_env self : keeps_achieved (self_env self).
Proof. apply keeps_bind; [apply keeps_lift|intros; apply keeps_read_env]. Qed.

Lemma keeps_pure {A : Type} (m : M A) : (∀ σ, (m σ).2 = σ) → keeps_achieved m.
Proof. intros Hp σ j i H. by rewrite Hp. Qed.

Lemma achieved_mark σ id flags k j i :
  subgoals_achieved (world_dict (σ id)) = Some flags →
  is_Some (flags !! k) →
  achieved σ j i →
  achieved (<[id := set_subgoals_achieved (<[k := true]> flags) (σ id)]> σ) j i.
Proof.
  intros Hfl Hk (fl & Hj & Hi). unfold achieved.
  destruct (decide (id = j)) as [->|Hne].
  - rewrite fn_lookup_insert. exists (<[k := true]> flags). split; [done|].
    assert (fl = flags) as -> by congruence.
    destruct (decide (k = i)) as [->|Hki].
    + apply list_lookup_insert_eq. by apply lookup_lt_is_Some_1.
    + by rewrite list_lookup_insert_ne.
  - rewrite fn_lookup_insert_ne by done. by exists fl.
Qed.

Lemma keeps_subgoal_loop self subs : ∀ i acc,
  keeps_achieved (subgoal_loop self i subs acc).
Proof.
  induction subs as [|pos rest IH]; intros i acc σ j k H; [done|].
  cbn [subgoal_loop]. munfold.
  destruct (current_base_pos self) as [cur|]; [|done]. cbn beta iota.
  destruct (Rltb (norm3 (vsub cur pos)) 1); [|by apply IH].
  destruct (_env self) as [id|]; [|done]. cbn beta iota.
  destruct (subgoals_achieved (world_dict (σ id))) as [flags|] eqn:Hfl; [|done].
  unfold list_getitem.
  destruct (flags !! i) as [a|] eqn:Ha; [|done]. cbn beta iota.
  destruct a; cbn [negb]; [by apply IH|].
  apply IH. apply achieved_mark; [done|by exists false|done].
Qed.

Lemma keeps_subgoal self : keeps_achieved (_calc_reward_subgoal self).
Proof.
  apply keeps_bind; [apply keeps_self_env|intros env].
  apply keeps_bind; [apply keeps_lift|intros subs]. apply keeps_subgoal_loop.
Qed.

Lemma keeps_done self env : keeps_achieved (done self env).
Proof. apply keeps_pure, done_pure. Qed.

Lemma keeps_root_velocity self : keeps_achieved (_calc_reward_root_velocity self).
Proof.
  apply keeps_bind; [apply keeps_self_env|intros env]. cbn beta zeta.
  destruct (getBaseVelocity (_pybullet_client env) (quadruped (robot env))).
  do 5 (apply keeps_bind; [apply keeps_lift|intros ?]).
  destruct (target_vel self); [apply keeps_ret|apply keeps_lift].
Qed.

Lemma keeps_rotation self : keeps_achieved (_calc_reward_rotation self).
Proof.
  apply keeps_bind; [apply keeps_self_env|intros env].
  destruct (init_orientation self); apply keeps_ret.
Qed.

Lemma keeps_goal_dist self : keeps_achieved (_calc_reward_goal_dist self).
Proof.
  apply keeps_bind; [apply keeps_self_env|intros env].
  do 3 (apply keeps_bind; [apply keeps_lift|intros ?]).
  apply keeps_ret.
Qed.

Lemma keeps_reward self env : keeps_achieved (reward self env).
Proof.
  apply keeps_bind; [apply keeps_self_env|intros e].
  apply keeps_bind; [apply keeps_root_velocity|intros mf].
  apply keeps_bind; [apply keeps_rotation|intros orr].
  apply keeps_bind; [apply keeps_goal_dist|intros gr].
  apply keeps_bind.
  { destruct (subgoal self); [apply keeps_subgoal|apply keeps_ret]. }
  intros sg. apply keeps_bind; [apply keeps_done|intros d]. apply keeps_ret.
Qed.

Lemma keeps_reset self env : keeps_achieved (reset self env).
Proof. apply keeps_bind; [apply keeps_read_env|intros; apply keeps_ret]. Qed.

Lemma keeps_update self env : keeps_achieved (update self env).
Proof.
  apply keeps_bind; [apply keeps_lift|intros cur].
  apply keeps_bind; [apply keeps_read_env|intros; apply keeps_ret].
Qed.

(** No operation of the task clears an achieved flag. *)
Lemma run_op_keeps op self σ j i :
  achieved σ j i → achieved (run_op op self σ).2 j i.
Proof.
  intros H. destruct op; cbn [run_op snd].
  - pose proof (keeps_reset self env σ j i H) as K.
    by destruct (reset self env σ) as [[?|?] ?].
  - pose proof (keeps_update self env σ j i H) as K.
    by destruct (update self env σ) as [[?|?] ?].
  - by apply keeps_done.
  - by apply keeps_reward.
  - by apply keeps_reward.
  - by apply keeps_goal_dist.
  - by apply keeps_subgoal.
  - by apply keeps_root_velocity.
  - by apply keeps_rotation.
Qed.

Lemma run_ops_keeps ops : ∀ self σ j i,
  achieved σ j i → achieved (run_ops ops self σ).2 j i.
Proof.
  induction ops as [|op rest IH]; intros self σ j i H; [done|].
  cbn [run_ops]. pose proof (run_op_keeps op self σ j i H) as K.
  destruct (run_op op self σ) as [self' σ']. by apply IH.
Qed.

Lemma contribution_achieved cur pos : subgoal_contribution cur pos true = 0.
Proof. unfold subgoal_contribution. by rewrite andb_false_r. Qed.

(** An achieved subgoal adds nothing to the bonus. *)
Lemma subgoal_bonus_skip skip cur subs flags : ∀ i,
  flags !! skip = Some true →
  subgoal_bonus cur i subs flags = subgoal_bonus_except skip cur i subs flags.
Proof.
  induction subs as [|pos rest IH]; intros i Hs; [done|].
  cbn [subgoal_bonus subgoal_bonus_except]. rewrite (IH (S i) Hs).
  destruct (decide (i = skip)) as [->|_]; [|done].
  by rewrite Hs, contribution_achieved.
Qed.

Lemma mark_reached_before cur subs : ∀ i k flags,
  (k < i)%nat → mark_reached cur i subs flags !! k = flags !! k.
Proof.
  induction subs as [|pos rest IH]; intros i k flags Hk; [done|].
  cbn [mark_reached]. rewrite IH by lia.
  destruct (within_radius cur pos); [|done]. by rewrite list_lookup_insert_ne by lia.
Qed.

Lemma mark_reached_keeps cur subs : ∀ i k flags,
  flags !! k = Some true → mark_reached cur i subs flags !! k = Some true.
Proof.
  induction subs as [|pos rest IH]; intros i k flags Hk; [done|].
  cbn [mark_reached]. apply IH.
  destruct (within_radius cur pos); [|done].
  destruct (decide (i = k)) as [->|Hne].
  - apply list_lookup_insert_eq. by eapply lookup_lt_Some.
  - by rewrite list_lookup_insert_ne.
Qed.

(** A subgoal within the radius is marked. *)
Lemma mark_reached_sets cur subs : ∀ i n flags pos,
  subs !! n = Some pos → within_radius cur pos = true →
  (i + n < length flags)%nat →
  mark_reached cur i subs flags !! (i + n)%nat = Some true.
Proof.
  induction subs as [|p rest IH]; intros i n flags pos Hn Hin Hlen; [done|].
  cbn [mark_reached]. destruct n as [|n].
  - injection Hn as ->. rewrite Hin, Nat.add_0_r in *.
    rewrite mark_reached_before by lia. by apply list_lookup_insert_eq.
  - replace (i + S n)%nat with (S i + n)%nat by lia.
    apply (IH (S i) n _ pos); [done|done|].
    destruct (within_radius cur p); rewrite ?length_insert; lia.
Qed.

(** Once the subgoals within the radius are marked, the bonus at the same
    position is zero. *)
Lemma subgoal_bonus_after_mark cur subs : ∀ i flags,
  (i + length subs ≤ length flags)%nat →
  subgoal_bonus cur i subs (mark_reached cur i subs flags) = 0.
Proof.
  induction subs as [|pos rest IH]; intros i flags Hlen; [done|].
  cbn [subgoal_bonus mark_reached length] in *.
  rewrite mark_reached_before by lia.
  rewrite IH by (destruct (within_radius cur pos); rewrite ?length_insert; lia).
  unfold subgoal_contribution.
  destruct (within_radius cur pos) eqn:Hin.
  - rewrite list_lookup_insert_eq by lia. cbn. lra.
  - destruct (flags !! i); cbn; lra.
Qed.

Lemma length_mark_reached cur subs : ∀ i flags,
  length (mark_reached cur i subs flags) = length flags.
Proof.
  induction subs as [|pos rest IH]; intros i flags; [done|].
  cbn [mark_reached]. rewrite IH.
  destruct (within_radius cur pos); by rewrite ?length_insert.
Qed.

(** C4: a call of [_calc_reward_subgoal] marks every subgoal within
    radius 1 as achieved and a call repeated at the same position returns
    0; an achieved flag stays set through every sequence of operations of
    the task, and afterwards every call of [_calc_reward_subgoal],
    wherever the base is, returns the bonus of the other subgoals only
    and leaves the flag set. *)
Theorem subgoal_bonus_at_most_once ops self σ id i :
  achieved σ id i →
  achieved (run_ops ops self σ).2 id i
  ∧ (∀ tsk last cur subs flags,
       bound tsk id last cur →
       subgoals_well_formed ((run_ops ops self σ).2 id) subs flags →
       ∃ σ', _calc_reward_subgoal tsk (run_ops ops self σ).2 =
               (Ok (subgoal_bonus_except i cur 0 subs flags), σ')
             ∧ achieved σ' id i
             ∧ (∀ k pos, subs !! k = Some pos → within_radius cur pos = true →
                  achieved σ' id k)
             ∧ ∃ σ'', _calc_reward_subgoal tsk σ' = (Ok 0, σ'')).
Proof.
  intros Hach. pose proof (run_ops_keeps ops self σ id i Hach) as Hach'.
  split; [done|].
  set (σ1 := (run_ops ops self σ).2) in *.
  intros tsk last cur subs flags Hb Hwf.
  destruct (subgoal_value tsk σ1 id last cur subs flags Hb Hwf) as (σ' & Hrun & Hfr).
  destruct Hach' as (fl & Hfl & Hi). destruct Hwf as (Hs & Hf & Hlen).
  assert (fl = flags) as -> by congruence.
  pose proof Hfr as (_ & _ & _ & _ & _ & _ & Hsubs & Hflags).
  exists σ'. repeat split.
  - by rewrite Hrun, (subgoal_bonus_skip i).
  - exists (mark_reached cur 0 subs flags). split; [done|].
    by apply mark_reached_keeps.
  - intros k pos Hk Hin. exists (mark_reached cur 0 subs flags). split; [done|].
    apply (mark_reached_sets cur subs 0 k flags pos Hk Hin).
    apply lookup_lt_Some in Hk. lia.
  - destruct (subgoal_value tsk σ' id last cur subs (mark_reached cur 0 subs flags) Hb)
      as (σ'' & Hrun' & _).
    { unfold subgoals_well_formed, world_dict in *.
      split; [by rewrite Hsubs|]. split; [done|by rewrite length_mark_reached]. }
    exists σ''. rewrite Hrun'. by rewrite subgoal_bonus_after_mark by (cbn; lia).
Qed.

Lemma course_achieved : achieved course_store 0%nat 0%nat.
Proof. by exists [true; false]. Qed.

Lemma subgoal_bonus_at_most_once_witness :
  achieved (run_ops [OpSubgoal; OpReward 0%nat; OpReset 0%nat] course_task course_store).2
    0%nat 0%nat
  ∧ (∀ tsk last cur subs flags,
       bound tsk 0%nat last cur →
       subgoals_well_formed
         ((run_ops [OpSubgoal; OpReward 0%nat; OpReset 0%nat] course_task course_store).2
            0%nat) subs flags →
       ∃ σ', _calc_reward_subgoal tsk
               (run_ops [OpSubgoal; OpReward 0%nat; OpReset 0%nat] course_task
                  course_store).2 =
               (Ok (subgoal_bonus_except 0 cur 0 subs flags), σ')
             ∧ achieved σ' 0%nat 0%nat
             ∧ (∀ k pos, subs !! k = Some pos → within_radius cur pos = true →
                  achieved σ' 0%nat k)
             ∧ ∃ σ'', _calc_reward_subgoal tsk σ' = (Ok 0, σ'')).
Proof.
  apply (subgoal_bonus_at_most_once [OpSubgoal; OpReward 0%nat; OpReset 0%nat]
           course_task course_store 0%nat 0%nat).
  exact course_achieved.
Defined.

(** ** Time scaling of the reward terms *)

Lemma energy_reward_term_value self σ id :
  _env self = Some id →
  energy_reward_term self σ =
    Ok (sum_squares (GetMotorTorques (robot (σ id))) * _time_step self).
Proof.
  intros He. unfold energy_reward_term, energy_reward. munfold.
  rewrite He. cbn. by rewrite dot_self.
Qed.

Lemma rotation_term_retimed self σ ts nar last cur :
  rotation_term (retimed self ts nar last cur) σ = rotation_term self σ.
Proof. reflexivity. Qed.

Lemma goal_dist_divided : divided_by_elapsed goal_dist_term.
Proof.
  intros self σ ts nar r Hdt Hdt' H.
  unfold goal_dist_term, _calc_reward_goal_dist in *. munfold.
  change (elapsed (retimed self ts nar (last_base_pos self) (current_base_pos self)))
    with (ts * IZR nar).
  cbn [retimed _env last_base_pos current_base_pos] in *.
  destruct (_env self) as [id|]; [|done]. cbn beta iota in *.
  destruct (goal_pos (_world_dict (σ id))) as [goal|]; [|done].
  destruct (last_base_pos self) as [last|]; [|done].
  destruct (current_base_pos self) as [cur|]; [|done].
  cbn [fst] in *. injection H as <-. f_equal. field.
  repeat split; [done|intros E|intros E]; apply Hdt'; rewrite E; ring.
Qed.

Lemma root_velocity_independent : independent_of_control_frequency root_velocity_term.
Proof.
  intros self σ ts nar last cur last' cur' Hl Hc Hdt Hdt' Hv.
  unfold vdiv, vsub in Hv. cbn [vx vy vz] in Hv. injection Hv as Hx Hy Hz.
  unfold root_velocity_term, _calc_reward_root_velocity. munfold.
  change (elapsed (retimed self ts nar (Some last') (Some cur'))) with (ts * IZR nar).
  cbn [retimed _env last_base_pos current_base_pos target_vel z_penalty].
  rewrite Hl, Hc.
  destruct (_env self) as [id|]; [|done]. cbn beta iota.
  destruct (getBaseVelocity (_pybullet_client (σ id)) (quadruped (robot (σ id)))).
  destruct (Req_dec_T (elapsed self) 0) as [|_]; [done|].
  destruct (Req_dec_T (ts * IZR nar) 0) as [|_]; [done|].
  by rewrite Hx, Hy, Hz.
Qed.

(** C5, the specification's wording fails: the energy term is neither
    divided by the elapsed time nor independent of the control frequency,
    and the orientation term is not divided by the elapsed time. *)
Lemma terms_not_all_scaled :
  ¬ terms_scaled_in_words
  ∧ ¬ divided_by_elapsed energy_reward_term
  ∧ ¬ independent_of_control_frequency energy_reward_term
  ∧ ¬ divided_by_elapsed rotation_term.
Proof.
  assert (¬ divided_by_elapsed energy_reward_term) as Hen.
  { intros H.
    specialize (H runner tilted_store (1 / 100) 20%Z (1 / 100)).
    rewrite elapsed_runner in H.
    rewrite !(energy_reward_term_value _ _ 0%nat) in H by done.
    cbn in H. assert (Ok (A:=R) ((1 * (1 * 1) + 0) * (1 / 100))
      = Ok ((1 / 100) * (1 / 10) / (1 / 100 * 20))) as E.
    { apply H; [lra|lra|f_equal; lra]. }
    injection E as E. lra. }
  assert (¬ independent_of_control_frequency energy_reward_term) as Hin.
  { intros H.
    specialize (H runner tilted_store (2 / 100) 10%Z origin origin origin origin
                  eq_refl eq_refl).
    rewrite elapsed_runner in H.
    rewrite !(energy_reward_term_value _ _ 0%nat) in H by done.
    cbn in H. assert (Ok (A:=R) ((1 * (1 * 1) + 0) * (2 / 100))
      = Ok ((1 * (1 * 1) + 0) * (1 / 100))) as E.
    { apply H; [lra|lra|]. unfold vdiv, vsub; cbn. f_equal; lra. }
    injection E as E. lra. }
  assert (¬ divided_by_elapsed rotation_term) as Hrot.
  { intros H.
    specialize (H runner tilted_store (1 / 100) 20%Z 2).
    rewrite elapsed_runner, rotation_term_retimed in H.
    assert (rotation_term runner tilted_store = Ok 2) as E0.
    { unfold rotation_term.
      rewrite (rotation_value runner tilted_store 0%nat origin origin upright)
        by (done || by repeat split).
      cbn [fst]. f_equal. unfold orientation_deviation; simpl. lra. }
    rewrite E0 in H.
    assert (Ok (A:=R) 2 = Ok (2 * (1 / 10) / (1 / 100 * 20))) as E.
    { apply H; [lra|lra|done]. }
    injection E as E. lra. }
  repeat split; try done. by intros [[H _] _].
Qed.

(** C5, as the code has it: the goal-distance term is the change of the
    distance to the goal divided by [_time_step * num_action_repeat]; the
    velocity term is a function of the position delta divided by
    [_time_step * num_action_repeat] and is the same at every control
    frequency for the same velocity; the energy term is the squared motor
    torque times [_time_step], whatever the positions and the action
    repeat; the orientation term is the squared distance of the base
    quaternion from the reference orientation and depends on neither the
    positions nor the timing. *)
Theorem reward_terms_time_scaling :
  (divided_by_elapsed goal_dist_term
   ∧ ∀ self σ id last cur goal,
       bound self id last cur → goal_pos (_world_dict (σ id)) = Some goal →
       elapsed self ≠ 0 →
       _calc_reward_goal_dist self σ =
         (Ok ((norm3 (vsub goal last) - norm3 (vsub goal cur))
              / (_time_step self * IZR (num_action_repeat self))), σ))
  ∧ (independent_of_control_frequency root_velocity_term
     ∧ ∀ self σ id last cur tv,
         bound self id last cur → target_vel self = Some tv → elapsed self ≠ 0 →
         _calc_reward_root_velocity self σ =
           (Ok (forward_velocity_term self tv last cur), σ))
  ∧ (∀ self σ id ts nar last cur,
       _env self = Some id →
       energy_reward_term (retimed self ts nar last cur) σ =
         Ok (sum_squares (GetMotorTorques (robot (σ id))) * ts))
  ∧ (∀ self σ ts nar last cur,
       rotation_term (retimed self ts nar last cur) σ = rotation_term self σ)
  ∧ (∀ self σ id last cur ref,
       bound self id last cur → init_orientation self = Some ref →
       _calc_reward_rotation self σ =
         (Ok (orientation_deviation ref (GetBaseOrientation (robot (σ id)))), σ)).
Proof.
  repeat split.
  - exact goal_dist_divided.
  - intros self σ id last cur goal Hb Hg Hdt.
    by rewrite (goal_dist_value self σ id last cur goal).
  - exact root_velocity_independent.
  - intros self σ id last cur tv Hb Htv Hdt.
    by rewrite (root_velocity_value self σ id last cur tv).
  - intros self σ id ts nar last cur He.
    by rewrite (energy_reward_term_value _ σ id).
  - intros self σ id last cur ref Hb Href.
    by apply (rotation_value self σ id last cur ref).
Qed.

End goal_task_props.

(** * Further properties of goal_task.py *)

Module goal_task_more_props.
Import goal_task goal_task_more goal_task_spec goal_task_notions goal_task_props.
Local Open Scope R_scope.

(** ** Before [reset] *)

(** X1: a task that has been constructed and not yet reset has no
    environment and no position: [update], [done], [reward], [__call__],
    [_get_pybullet_client] and the four reward helpers all raise
    AttributeError and leave every environment as it is. *)
Theorem unbound_task_raises self env σ :
  constructed self →
  update self env σ = (Raise AttributeError, σ)
  ∧ done self env σ = (Raise AttributeError, σ)
  ∧ reward self env σ = (Raise AttributeError, σ)
  ∧ __call__ self env σ = (Raise AttributeError, σ)
  ∧ _get_pybullet_client self σ = (Raise AttributeError, σ)
  ∧ _calc_reward_goal_dist self σ = (Raise AttributeError, σ)
  ∧ _calc_reward_subgoal self σ = (Raise AttributeError, σ)
  ∧ _calc_reward_root_velocity self σ = (Raise AttributeError, σ)
  ∧ _calc_reward_rotation self σ = (Raise AttributeError, σ).
Proof.
  intros (a1 & a2 & a3 & a4 & a5 & a6 & a7 & a8 & a9 & a10 & a11 & a12 & a13 & a14 & ->).
  repeat split.
Qed.

Lemma default_task_constructed : constructed default_task.
Proof. unfold constructed, default_task. by repeat eexists. Qed.

Lemma unbound_task_raises_witness :
  update default_task 0%nat (standing_store origin)
    = (Raise AttributeError, standing_store origin)
  ∧ done default_task 0%nat (standing_store origin)
    = (Raise AttributeError, standing_store origin)
  ∧ reward default_task 0%nat (standing_store origin)
    = (Raise AttributeError, standing_store origin)
  ∧ __call__ default_task 0%nat (standing_store origin)
    = (Raise AttributeError, standing_store origin)
  ∧ _get_pybullet_client default_task (standing_store origin)
    = (Raise AttributeError, standing_store origin)
  ∧ _calc_reward_goal_dist default_task (standing_store origin)
    = (Raise AttributeError, standing_store origin)
  ∧ _calc_reward_subgoal default_task (standing_store origin)
    = (Raise AttributeError, standing_store origin)
  ∧ _calc_reward_root_velocity default_task (standing_store origin)
    = (Raise AttributeError, standing_store origin)
  ∧ _calc_reward_rotation default_task (standing_store origin)
    = (Raise AttributeError, standing_store origin).
Proof.
  apply (unbound_task_raises default_task 0%nat (standing_store origin)).
  exact default_task_constructed.
Defined.

(** ** [reset] and [update] *)

(** X2: [reset] always returns and binds the environment it is given;
    [update] then returns, shifts the current position to the last one,
    reads the new position from the environment it is passed, and keeps
    the binding of [reset] even when that is another environment: the
    task goes on reading the environment of [reset].  Neither writes to
    an environment nor changes the configuration of the task. *)
Theorem update_keeps_binding self0 e e' σ0 σ1 :
  ∃ self1 self2,
    reset self0 e σ0 = (Ok self1, σ0)
    ∧ update self1 e' σ1 = (Ok self2, σ1)
    ∧ bound self2 e (GetBasePosition (robot (σ0 e))) (GetBasePosition (robot (σ1 e')))
    ∧ (∀ σ, self_env self2 σ = (Ok (σ e), σ))
    ∧ (∀ σ, _get_pybullet_client self2 σ = (Ok (_pybullet_client (σ e)), σ))
    ∧ with_state self2 None None None = with_state self0 None None None.
Proof.
  do 2 eexists. split; [reflexivity|]. split; [reflexivity|].
  repeat split.
Qed.

(** ** A base that does not move *)

Lemma norm2_origin : norm2 0 0 = 0.
Proof. apply norm2_axis. lra. Qed.

(** X3: right after [reset], and whenever the base has not moved between
    two updates, the goal-distance reward is 0 and, for a target velocity
    that is not negative, so is the forward-velocity reward. *)
Theorem no_reward_without_motion self0 self env σ0 σ goal :
  (reset self0 env σ0).1 = Ok self →
  elapsed self ≠ 0 →
  goal_pos (_world_dict (σ env)) = Some goal →
  _calc_reward_goal_dist self σ = (Ok 0, σ)
  ∧ (∀ tv, target_vel self = Some tv → 0 <= tv →
           _calc_reward_root_velocity self σ = (Ok 0, σ))
  ∧ (∀ self' pos tv,
       bound self' env pos pos → elapsed self' ≠ 0 → target_vel self' = Some tv →
       0 <= tv →
       _calc_reward_goal_dist self' σ = (Ok 0, σ)
       ∧ _calc_reward_root_velocity self' σ = (Ok 0, σ)).
Proof.
  intros Hreset Hdt Hgoal.
  assert (∀ self' pos, bound self' env pos pos → elapsed self' ≠ 0 →
            _calc_reward_goal_dist self' σ = (Ok 0, σ)
            ∧ ∀ tv, target_vel self' = Some tv → 0 <= tv →
                    _calc_reward_root_velocity self' σ = (Ok 0, σ)) as Hrest.
  { intros self' pos Hb Hdt'. split.
    - rewrite (goal_dist_value self' σ env pos pos goal) by done.
      do 2 f_equal. unfold goal_progress. lra.
    - intros tv Htv Hpos.
      rewrite (root_velocity_value self' σ env pos pos tv) by done.
      do 2 f_equal. unfold horizontal_speed, vertical_speed.
      replace ((vx pos - vx pos) / elapsed self') with 0 by lra.
      replace ((vy pos - vy pos) / elapsed self') with 0 by lra.
      replace ((vz pos - vz pos) / elapsed self') with 0 by lra.
      rewrite norm2_origin, Rmin_left by lra. lra. }
  destruct (reset_bound self0 env σ0) as (s & Hr & Hb).
  rewrite Hr in Hreset. cbn [fst] in Hreset. injection Hreset as ->.
  destruct (Hrest self _ Hb Hdt) as [H1 H2].
  split; [done|]. split; [done|].
  intros self' pos tv Hb' Hdt' Htv Hpos.
  destruct (Hrest self' pos Hb' Hdt') as [H1' H2']. split; [done|by apply (H2' tv)].
Qed.

Lemma no_reward_without_motion_witness :
  _calc_reward_goal_dist trainee_reset (standing_store origin)
    = (Ok 0, standing_store origin)
  ∧ (∀ tv, target_vel trainee_reset = Some tv → 0 <= tv →
           _calc_reward_root_velocity trainee_reset (standing_store origin)
           = (Ok 0, standing_store origin))
  ∧ (∀ self' pos tv,
       bound self' 0%nat pos pos → elapsed self' ≠ 0 → target_vel self' = Some tv →
       0 <= tv →
       _calc_reward_goal_dist self' (standing_store origin)
         = (Ok 0, standing_store origin)
       ∧ _calc_reward_root_velocity self' (standing_store origin)
         = (Ok 0, standing_store origin)).
Proof.
  apply (no_reward_without_motion trainee trainee_reset 0%nat (standing_store origin)
           (standing_store origin) (mkVec3 10 0 0)).
  - reflexivity.
  - unfold elapsed; simpl. lra.
  - reflexivity.
Defined.

(** ** The range of the forward-velocity reward *)

Lemma horizontal_speed_nonneg self last cur : 0 <= horizontal_speed self last cur.
Proof. apply sqrt_pos. Qed.

Lemma along_monotone tv s s' :
  s <= s' → tv ^ 2 - (Rmin s' tv - tv) ^ 2 - (tv ^ 2 - (Rmin s tv - tv) ^ 2) >= 0.
Proof.
  intros Hs. unfold Rmin.
  destruct (Rle_dec s' tv), (Rle_dec s tv); nra.
Qed.

(** X4: with a target velocity and a vertical penalty that are not
    negative, the forward-velocity reward never exceeds [target_vel²];
    without a vertical penalty it is never negative and never decreases
    when the horizontal speed increases. *)
Theorem forward_reward_range self σ id tv last cur :
  _env self = Some id → target_vel self = Some tv → 0 <= tv →
  0 <= z_penalty self → elapsed self ≠ 0 →
  ∃ r, forward_reward self σ last cur = Ok r
       ∧ r <= tv ^ 2
       ∧ (z_penalty self = 0 →
          0 <= r
          ∧ ∀ last' cur',
              horizontal_speed self last cur <= horizontal_speed self last' cur' →
              ∃ r', forward_reward self σ last' cur' = Ok r' ∧ r <= r').
Proof.
  intros He Htv Hpos Hz Hdt.
  rewrite (forward_reward_value self σ id last cur tv) by done.
  eexists. split; [reflexivity|].
  pose proof (horizontal_speed_nonneg self last cur) as Hs.
  split.
  - pose proof (pow2_ge_0 (Rmin (horizontal_speed self last cur) tv - tv)).
    pose proof (pow2_ge_0 (vertical_speed self last cur)). nra.
  - intros Hz0. rewrite Hz0. split.
    + unfold Rmin. destruct (Rle_dec (horizontal_speed self last cur) tv); nra.
    + intros last' cur' Hle.
      rewrite (forward_reward_value self σ id last' cur' tv) by done.
      eexists. split; [reflexivity|]. rewrite Hz0.
      pose proof (along_monotone tv _ _ Hle). lra.
Qed.

Lemma forward_reward_range_witness :
  ∃ r, forward_reward runner (standing_store origin) origin (mkVec3 (1 / 20) 0 0) = Ok r
       ∧ r <= 1 ^ 2
       ∧ (z_penalty runner = 0 →
          0 <= r
          ∧ ∀ last' cur',
              horizontal_speed runner origin (mkVec3 (1 / 20) 0 0)
              <= horizontal_speed runner last' cur' →
              ∃ r', forward_reward runner (standing_store origin) last' cur' = Ok r'
                    ∧ r <= r').
Proof.
  apply (forward_reward_range runner (standing_store origin) 0%nat 1);
    try reflexivity; try lra.
  rewrite elapsed_runner. lra.
Defined.

(** X5: with a target velocity that is zero or negative and no vertical
    penalty the clip always applies, and the forward-velocity reward is
    [target_vel²] however the base moves. *)
Theorem forward_reward_constant_below_zero self σ id tv last cur :
  _env self = Some id → target_vel self = Some tv → tv <= 0 →
  z_penalty self = 0 → elapsed self ≠ 0 →
  forward_reward self σ last cur = Ok (tv ^ 2).
Proof.
  intros He Htv Hneg Hz Hdt.
  rewrite (forward_reward_value self σ id last cur tv) by done.
  pose proof (horizontal_speed_nonneg self last cur) as Hs.
  rewrite Hz, Rmin_right by lra. f_equal. ring.
Qed.

Lemma forward_reward_constant_below_zero_witness :
  forward_reward reverser (standing_store origin) origin (mkVec3 (1 / 20) 0 0)
  = Ok ((-1) ^ 2).
Proof.
  apply (forward_reward_constant_below_zero reverser (standing_store origin) 0%nat (-1));
    try reflexivity; try lra.
  unfold elapsed; simpl. lra.
Defined.

(** ** The goal-distance reward *)

Lemma cauchy_schwarz_3 a1 a2 a3 b1 b2 b3 :
  (a1 * b1 + a2 * b2 + a3 * b3) ^ 2
  <= (a1 ^ 2 + a2 ^ 2 + a3 ^ 2) * (b1 ^ 2 + b2 ^ 2 + b3 ^ 2).
Proof.
  pose proof (pow2_ge_0 (a1 * b2 - a2 * b1)).
  pose proof (pow2_ge_0 (a1 * b3 - a3 * b1)).
  pose proof (pow2_ge_0 (a2 * b3 - a3 * b2)).
  nra.
Qed.

Lemma norm3_nonneg a : 0 <= norm3 a.
Proof. apply sqrt_pos. Qed.

Lemma norm3_sq a : norm3 a ^ 2 = vx a ^ 2 + vy a ^ 2 + vz a ^ 2.
Proof.
  unfold norm3. apply pow2_sqrt.
  pose proof (pow2_ge_0 (vx a)). pose proof (pow2_ge_0 (vy a)).
  pose proof (pow2_ge_0 (vz a)). lra.
Qed.

(** The triangle inequality of [np.linalg.norm]. *)
Lemma norm3_triangle a b : norm3 a <= norm3 b + norm3 (vsub a b).
Proof.
  pose proof (norm3_nonneg a) as HA. pose proof (norm3_nonneg b) as HB.
  pose proof (norm3_nonneg (vsub a b)) as HC.
  pose proof (norm3_sq a) as SA. pose proof (norm3_sq b) as SB.
  pose proof (norm3_sq (vsub a b)) as SC.
  pose proof (cauchy_schwarz_3 (vx b) (vy b) (vz b)
                (vx (vsub a b)) (vy (vsub a b)) (vz (vsub a b))) as CS.
  cbn [vsub vx vy vz] in *.
  set (A := norm3 a) in *. set (B := norm3 b) in *.
  set (C := norm3 (vsub a b)) in *.
  set (x := vx b * (vx a - vx b) + vy b * (vy a - vy b) + vz b * (vz a - vz b)) in *.
  assert (x <= B * C) as Hx.
  { rewrite <- SB, <- SC in CS.
    destruct (Rle_dec x (B * C)) as [|Hn]; [done|]. exfalso.
    assert (0 <= B * C) by nra. nra. }
  assert (A ^ 2 = B ^ 2 + 2 * x + C ^ 2) as HA2 by (unfold x; nra).
  nra.
Qed.

Lemma norm3_vdiv a d : 0 < d → norm3 (vdiv a d) = norm3 a / d.
Proof.
  intros Hd. unfold norm3, vdiv. cbn [vx vy vz].
  replace ((vx a / d) ^ 2 + (vy a / d) ^ 2 + (vz a / d) ^ 2)
    with ((vx a ^ 2 + vy a ^ 2 + vz a ^ 2) / d ^ 2) by (field; lra).
  pose proof (pow2_ge_0 (vx a)). pose proof (pow2_ge_0 (vy a)).
  pose proof (pow2_ge_0 (vz a)).
  rewrite sqrt_div_alt by nra. rewrite (sqrt_pow2 d) by lra. done.
Qed.

Lemma vsub_vsub goal last cur : vsub (vsub goal last) (vsub goal cur) = vsub cur last.
Proof. unfold vsub; cbn. f_equal; ring. Qed.

Lemma norm3_vsub_sym a b : norm3 (vsub a b) = norm3 (vsub b a).
Proof. unfold norm3, vsub; cbn [vx vy vz]. f_equal. ring. Qed.

(** X6: the goal-distance reward is bounded by the speed of the base: the
    distance to the goal cannot change faster than the base moves. *)
Theorem goal_reward_bounded_by_speed self σ id last cur goal :
  bound self id last cur →
  goal_pos (_world_dict (σ id)) = Some goal →
  0 < elapsed self →
  ∃ r, _calc_reward_goal_dist self σ = (Ok r, σ)
       ∧ - speed_3d self last cur <= r <= speed_3d self last cur.
Proof.
  intros Hb Hg Hdt.
  rewrite (goal_dist_value self σ id last cur goal) by (done || lra).
  eexists. split; [reflexivity|].
  unfold goal_progress, speed_3d. rewrite norm3_vdiv by done.
  pose proof (norm3_triangle (vsub goal last) (vsub goal cur)) as H1.
  pose proof (norm3_triangle (vsub goal cur) (vsub goal last)) as H2.
  rewrite vsub_vsub in H1, H2. rewrite (norm3_vsub_sym last cur) in H2.
  assert (0 < / elapsed self) as Hinv by (by apply Rinv_0_lt_compat).
  unfold Rdiv. split; nra.
Qed.

Lemma goal_reward_bounded_by_speed_witness :
  ∃ r, _calc_reward_goal_dist trainee_updated stride_store = (Ok r, stride_store)
       ∧ - speed_3d trainee_updated origin (mkVec3 (1 / 20) 0 0) <= r
         <= speed_3d trainee_updated origin (mkVec3 (1 / 20) 0 0).
Proof.
  apply (goal_reward_bounded_by_speed trainee_updated stride_store 0%nat origin
           (mkVec3 (1 / 20) 0 0) (mkVec3 10 0 0)).
  - repeat split.
  - reflexivity.
  - unfold elapsed; simpl. lra.
Defined.

(** X7: the goal-distance rewards of two consecutive steps add up to the
    progress over both: times the elapsed time, their sum is the distance
    to the goal two updates ago minus the distance now. *)
Theorem goal_reward_telescopes self env' σ σu σ' id p0 p1 goal :
  bound self id p0 p1 →
  elapsed self ≠ 0 →
  goal_pos (_world_dict (σ id)) = Some goal →
  goal_pos (_world_dict (σ' id)) = Some goal →
  ∃ self' r1 r2,
    update self env' σu = (Ok self', σu)
    ∧ _calc_reward_goal_dist self σ = (Ok r1, σ)
    ∧ _calc_reward_goal_dist self' σ' = (Ok r2, σ')
    ∧ (r1 + r2) * elapsed self
      = norm3 (vsub goal p0)
        - norm3 (vsub goal (GetBasePosition (robot (σu env')))).
Proof.
  intros Hb Hdt Hg Hg'.
  destruct (update_bound self id p0 p1 env' σu Hb) as (self' & Hu & Hb').
  assert (elapsed self' = elapsed self) as He.
  { unfold update in Hu. destruct Hb as (_ & _ & Hc).
    unfold mbind, StateExn_bind, lift, getattr, read_env, mret, StateExn_ret in Hu.
    rewrite Hc in Hu. by injection Hu as <-. }
  exists self'. do 2 eexists. split; [done|].
  split; [by apply (goal_dist_value self σ id p0 p1 goal)|].
  split; [apply (goal_dist_value self' σ' id p1 (GetBasePosition (robot (σu env'))) goal);
            (done || by rewrite He)|].
  unfold goal_progress. rewrite He. field. done.
Qed.

Lemma goal_reward_telescopes_witness :
  ∃ self' r1 r2,
    update trainee_updated 0%nat stride_store = (Ok self', stride_store)
    ∧ _calc_reward_goal_dist trainee_updated stride_store = (Ok r1, stride_store)
    ∧ _calc_reward_goal_dist self' stride_store = (Ok r2, stride_store)
    ∧ (r1 + r2) * elapsed trainee_updated
      = norm3 (vsub (mkVec3 10 0 0) origin)
        - norm3 (vsub (mkVec3 10 0 0) (GetBasePosition (robot (stride_store 0%nat)))).
Proof.
  apply (goal_reward_telescopes trainee_updated 0%nat stride_store stride_store
           stride_store 0%nat origin (mkVec3 (1 / 20) 0 0) (mkVec3 10 0 0)).
  - repeat split.
  - unfold elapsed; simpl. lra.
  - reflexivity.
  - reflexivity.
Defined.

(** ** The energy and orientation terms *)

Lemma sum_squares_cons x l : sum_squares (x :: l) = x ^ 2 + sum_squares l.
Proof. reflexivity. Qed.

Lemma sum_squares_nonneg l : 0 <= sum_squares l.
Proof.
  induction l as [|x l IH]; [unfold sum_squares; cbn; lra|].
  rewrite sum_squares_cons. pose proof (pow2_ge_0 x). lra.
Qed.

Lemma sum_squares_zero l : sum_squares l = 0 ↔ Forall (λ x, x = 0) l.
Proof.
  induction l as [|x l IH]; [split; [by constructor|done]|].
  rewrite sum_squares_cons.
  pose proof (pow2_ge_0 x). pose proof (sum_squares_nonneg l).
  rewrite Forall_cons, <- IH. split.
  - intros Hs. split; [nra|lra].
  - intros [-> ->]. lra.
Qed.

(** X8: with the energy weight of the constructor, -0.005, and a time
    step that is not negative, the energy term never adds to the reward;
    with a positive time step it takes nothing away exactly when every
    motor torque is zero. *)
Theorem energy_never_rewards self env :
  energy_weight self = - (5 / 1000) → 0 <= _time_step self →
  energy_reward self env * energy_weight self <= 0
  ∧ (0 < _time_step self →
     (energy_reward self env * energy_weight self = 0
      ↔ Forall (λ τ, τ = 0) (GetMotorTorques (robot env)))).
Proof.
  intros Hw Hts. unfold energy_reward. rewrite dot_self, Hw.
  pose proof (sum_squares_nonneg (GetMotorTorques (robot env))) as Hs.
  split; [nra|].
  intros Hpos. rewrite <- sum_squares_zero. split; intros H; nra.
Qed.

Lemma energy_never_rewards_witness :
  energy_reward trainee_updated (stride_store 0%nat) * energy_weight trainee_updated <= 0
  ∧ (0 < _time_step trainee_updated →
     (energy_reward trainee_updated (stride_store 0%nat) * energy_weight trainee_updated
      = 0
      ↔ Forall (λ τ, τ = 0) (GetMotorTorques (robot (stride_store 0%nat))))).
Proof.
  apply (energy_never_rewards trainee_updated (stride_store 0%nat)).
  - reflexivity.
  - simpl. lra.
Defined.

(** X9: the orientation term is never negative, and it is zero exactly
    when the base orientation is the reference orientation, which the
    constructor sets to (0, 0, 0, 1). *)
Theorem orientation_term_zero_at_reference self σ id last cur ref :
  bound self id last cur → init_orientation self = Some ref →
  ∃ r, _calc_reward_rotation self σ = (Ok r, σ)
       ∧ 0 <= r
       ∧ (r = 0 ↔ GetBaseOrientation (robot (σ id)) = ref)
       ∧ (constructed (with_state self None None None) → ref = mkQuat 0 0 0 1).
Proof.
  intros Hb Href.
  rewrite (rotation_value self σ id last cur ref) by done.
  eexists. split; [reflexivity|].
  unfold orientation_deviation.
  destruct ref as [a b c d].
  destruct (GetBaseOrientation (robot (σ id))) as [x y z w]. cbn [qx qy qz qw].
  pose proof (pow2_ge_0 (a - x)). pose proof (pow2_ge_0 (b - y)).
  pose proof (pow2_ge_0 (c - z)). pose proof (pow2_ge_0 (d - w)).
  split; [lra|]. split.
  - split.
    + intros Hz. f_equal; nra.
    + intros E. injection E as -> -> -> ->. lra.
  - intros (a1 & a2 & a3 & a4 & a5 & a6 & a7 & a8 & a9 & a10 & a11 & a12 & a13 & a14 & E).
    apply (f_equal init_orientation) in E. cbn in E. congruence.
Qed.

Lemma orientation_term_zero_at_reference_witness :
  ∃ r, _calc_reward_rotation runner tilted_store = (Ok r, tilted_store)
       ∧ 0 <= r
       ∧ (r = 0 ↔ GetBaseOrientation (robot (tilted_store 0%nat)) = upright)
       ∧ (constructed (with_state runner None None None) → upright = mkQuat 0 0 0 1).
Proof.
  apply (orientation_term_zero_at_reference runner tilted_store 0%nat origin origin).
  - repeat split.
  - reflexivity.
Defined.

(** ** Contacts *)

Lemma feet_on_ground_legal env g :
  ground (_world_dict env) = Some g → feet_on_ground env g → ¬ illegal_contact env.
Proof.
  intros Hg Hfeet (g' & c & Hg' & Hin & Hc).
  assert (g' = g) as -> by congruence.
  destruct (Hfeet c Hin) as [Hbody Hfoot].
  destruct Hc as [[_ Hnot]|Hne]; done.
Qed.

(** X10: when contacts are checked and every contact is a foot on the
    ground, contacts never end the episode, however slowly the base
    moves: [done] is true exactly when the base has fallen, by height or
    by tilt. *)
Theorem feet_on_ground_never_done self env σ id last cur g :
  bound self id last cur → check_contact self = true →
  ground (_world_dict (σ id)) = Some g → feet_on_ground (σ id) g →
  ∃ d, done self env σ = (Ok d, σ) ∧ (d = true ↔ fallen self (σ id)).
Proof.
  intros Hb Hcc Hg Hfeet.
  destruct (done_value self env σ id last cur Hb) as (d & Hrun & Hd).
  { intros _. right. by exists g. }
  exists d. split; [done|]. rewrite Hd.
  pose proof (feet_on_ground_legal _ g Hg Hfeet) as Hlegal.
  unfold done_condition, fallen. intuition.
Qed.

Lemma feet_on_ground_never_done_witness :
  ∃ d, done still_checker 0%nat grounded_store = (Ok d, grounded_store)
       ∧ (d = true ↔ fallen still_checker (grounded_store 0%nat)).
Proof.
  apply (feet_on_ground_never_done still_checker 0%nat grounded_store 0%nat
           origin origin 0%Z).
  - repeat split.
  - reflexivity.
  - reflexivity.
  - intros c Hc. unfold contacts_of in Hc. cbn in Hc.
    repeat (apply elem_of_cons in Hc as [->|Hc]; [split; [done|cbn; set_solver]|]).
    by apply elem_of_nil in Hc.
Defined.

(** X11: when contacts are checked, any contact with a body that is not
    the ground, a foot on the terrain included, ends the episode as soon
    as the base moves at 0.05 units per second or less. *)
Theorem foreign_contact_at_rest_done self env σ id last cur g c :
  bound self id last cur → check_contact self = true →
  ground (_world_dict (σ id)) = Some g →
  c ∈ contacts_of (σ id) → contact_2 c ≠ g →
  elapsed self ≠ 0 → speed_3d self last cur <= 5 / 100 →
  done self env σ = (Ok true, σ).
Proof.
  intros Hb Hcc Hg Hin Hne Hdt Hspeed.
  destruct (done_value self env σ id last cur Hb) as (d & Hrun & Hd).
  { intros _. right. by exists g. }
  rewrite Hrun. do 2 f_equal. apply Hd.
  right; right; right. split; [done|]. split; [|done].
  exists g, c. split; [done|]. split; [done|]. by right.
Qed.

Lemma speed_3d_still : speed_3d still_checker origin origin = 0.
Proof.
  unfold speed_3d, vdiv, vsub, origin; cbn [vx vy vz].
  replace (mkVec3 ((0 - 0) / elapsed still_checker) ((0 - 0) / elapsed still_checker)
             ((0 - 0) / elapsed still_checker))
    with (mkVec3 0 0 0) by (f_equal; lra).
  apply norm3_axis_z. lra.
Qed.

Lemma foreign_contact_at_rest_done_witness :
  done still_checker 0%nat terrain_store = (Ok true, terrain_store).
Proof.
  apply (foreign_contact_at_rest_done still_checker 0%nat terrain_store 0%nat
           origin origin 0%Z (mkContact 3 2)).
  - repeat split.
  - reflexivity.
  - reflexivity.
  - apply list_elem_of_singleton. reflexivity.
  - done.
  - unfold elapsed; simpl. lra.
  - rewrite speed_3d_still. lra.
Defined.

(** X12: when contacts are checked and there is a contact, [done] looks
    the ground up in the world dictionary and raises KeyError if it is
    not there; without contacts it does not need the entry. *)
Theorem done_needs_ground self env σ id last cur :
  bound self id last cur → check_contact self = true →
  ground (_world_dict (σ id)) = None →
  (contacts_of (σ id) ≠ [] → done self env σ = (Raise KeyError, σ))
  ∧ (contacts_of (σ id) = [] →
     ∃ d, done self env σ = (Ok d, σ) ∧ (d = true ↔ fallen self (σ id))).
Proof.
  intros Hb Hcc Hg. split.
  - intros Hne. destruct Hb as (He & Hl & Hc).
    unfold done. munfold. rewrite He. cbn beta iota.
    destruct (getBasePositionAndOrientation (_pybullet_client (σ id))
                (quadruped (robot (σ id)))) as [p q].
    rewrite Hcc. unfold contacts_of in Hne.
    destruct (getContactPoints (_pybullet_client (σ id)) (quadruped (robot (σ id))))
      as [|c cs]; [done|].
    cbn [body_contact_loop]. by rewrite Hg.
  - intros Hnil.
    destruct (done_value self env σ id last cur Hb) as (d & Hrun & Hd).
    { intros _. by left. }
    exists d. split; [done|]. rewrite Hd.
    pose proof (no_contact_not_illegal _ Hnil).
    unfold done_condition, fallen. intuition.
Qed.

Lemma done_needs_ground_witness :
  (contacts_of (groundless_store 0%nat) ≠ [] →
   done still_checker 0%nat groundless_store = (Raise KeyError, groundless_store))
  ∧ (contacts_of (groundless_store 0%nat) = [] →
     ∃ d, done still_checker 0%nat groundless_store = (Ok d, groundless_store)
          ∧ (d = true ↔ fallen still_checker (groundless_store 0%nat))).
Proof.
  apply (done_needs_ground still_checker 0%nat groundless_store 0%nat origin origin).
  - repeat split.
  - reflexivity.
  - reflexivity.
Defined.

(** ** The subgoal bonus *)

Lemma count_achieved_cons b flags :
  count_achieved (b :: flags) = ((if b then 1 else 0) + count_achieved flags)%nat.
Proof.
  unfold count_achieved. rewrite filter_cons.
  destruct b; case_decide; done.
Qed.

Lemma count_achieved_insert flags : ∀ i,
  count_achieved (<[i := true]> flags)
  = (count_achieved flags
     + match flags !! i with Some false => 1 | _ => 0 end)%nat.
Proof.
  induction flags as [|b flags IH]; intros i; [done|].
  destruct i as [|i].
  - cbn [insert list_insert lookup list_lookup]. rewrite !count_achieved_cons.
    destruct b; lia.
  - change (<[S i := true]> (b :: flags)) with (b :: <[i := true]> flags).
    change ((b :: flags) !! S i) with (flags !! i).
    rewrite !count_achieved_cons, IH. lia.
Qed.

(** The bonus of a call is five times the number of flags it sets. *)
Lemma subgoal_bonus_counts cur subs : ∀ i flags,
  (i + length subs ≤ length flags)%nat →
  subgoal_bonus cur i subs flags
  = 5 * (INR (count_achieved (mark_reached cur i subs flags))
         - INR (count_achieved flags)).
Proof.
  induction subs as [|pos rest IH]; intros i flags Hlen.
  - cbn [subgoal_bonus mark_reached]. lra.
  - cbn [subgoal_bonus mark_reached length] in *.
    destruct (lookup_lt_is_Some_2 flags i) as [a Ha]; [lia|].
    rewrite Ha. unfold subgoal_contribution.
    destruct (within_radius cur pos) eqn:Hin; cbn [andb].
    + rewrite <- (subgoal_bonus_insert_before cur rest (S i) i flags true) by lia.
      rewrite IH by (rewrite length_insert; lia).
      rewrite count_achieved_insert, Ha, plus_INR.
      destruct a; cbn [negb INR]; lra.
    + rewrite IH by lia. lra.
Qed.

Lemma subgoal_bonus_range cur subs : ∀ i flags,
  0 <= subgoal_bonus cur i subs flags <= 5 * INR (length subs).
Proof.
  induction subs as [|pos rest IH]; intros i flags.
  - cbn [subgoal_bonus length INR]. lra.
  - cbn [subgoal_bonus length]. rewrite S_INR.
    specialize (IH (S i) flags).
    assert (0 <= match flags !! i with
                 | Some achieved => subgoal_contribution cur pos achieved
                 | None => 0
                 end <= 5) as Hc.
    { destruct (flags !! i) as [a|]; [|lra].
      unfold subgoal_contribution. destruct (_ && _); lra. }
    lra.
Qed.

(** X13: in a world with a flag for every subgoal, a call of
    [_calc_reward_subgoal] returns five times the number of flags it
    sets, between 0 and five times the number of subgoals; it changes
    nothing but the flags and never their number. *)
Theorem subgoal_reward_counts_new_flags self σ id last cur subs flags :
  bound self id last cur → subgoals_well_formed (σ id) subs flags →
  ∃ r σ' flags',
    _calc_reward_subgoal self σ = (Ok r, σ')
    ∧ flags_replaced σ σ' id flags'
    ∧ length flags' = length flags
    ∧ r = 5 * (INR (count_achieved flags') - INR (count_achieved flags))
    ∧ 0 <= r <= 5 * INR (length subs).
Proof.
  intros Hb Hwf.
  destruct (subgoal_value self σ id last cur subs flags Hb Hwf) as (σ' & Hrun & Hfr).
  destruct Hwf as (_ & _ & Hlen).
  exists (subgoal_bonus cur 0 subs flags), σ', (mark_reached cur 0 subs flags).
  split; [done|]. split; [done|].
  split; [apply length_mark_reached|].
  split; [by apply subgoal_bonus_counts|apply subgoal_bonus_range].
Qed.

Lemma course_well_formed :
  subgoals_well_formed (course_store 0%nat) [origin; mkVec3 5 0 0] [true; false].
Proof. repeat split. cbn. lia. Qed.

Lemma subgoal_reward_counts_new_flags_witness :
  ∃ r σ' flags',
    _calc_reward_subgoal course_task course_store = (Ok r, σ')
    ∧ flags_replaced course_store σ' 0%nat flags'
    ∧ length flags' = length [true; false]
    ∧ r = 5 * (INR (count_achieved flags') - INR (count_achieved [true; false]))
    ∧ 0 <= r <= 5 * INR (length [origin; mkVec3 5 0 0]).
Proof.
  apply (subgoal_reward_counts_new_flags course_task course_store 0%nat origin origin).
  - repeat split.
  - exact course_well_formed.
Defined.

(** The loop over subgoals none of which is within the radius. *)
Lemma subgoal_loop_far self id last cur subs : ∀ i acc σ,
  bound self id last cur →
  Forall (λ pos, within_radius cur pos = false) subs →
  subgoal_loop self i subs acc σ = (Ok acc, σ).
Proof.
  induction subs as [|pos rest IH]; intros i acc σ Hb Hfar; [done|].
  apply Forall_cons in Hfar as [Hpos Hrest].
  pose proof Hb as (He & Hl & Hc).
  cbn [subgoal_loop]. munfold. rewrite Hc. cbn beta iota.
  unfold within_radius in Hpos. rewrite Hpos. by apply IH.
Qed.

(** X14: [_calc_reward_subgoal] raises KeyError in a world without
    subgoals; the achieved flags are looked up only for a subgoal within
    radius 1, so that far from every subgoal the call returns 0 and
    writes nothing, whether the world has flags or not. *)
Theorem subgoal_lookups self σ id last cur :
  bound self id last cur →
  (subgoals (world_dict (σ id)) = None →
   _calc_reward_subgoal self σ = (Raise KeyError, σ))
  ∧ (∀ subs, subgoals (world_dict (σ id)) = Some subs →
       Forall (λ pos, within_radius cur pos = false) subs →
       _calc_reward_subgoal self σ = (Ok 0, σ))
  ∧ (∀ subs pos, subgoals (world_dict (σ id)) = Some (pos :: subs) →
       within_radius cur pos = true →
       subgoals_achieved (world_dict (σ id)) = None →
       _calc_reward_subgoal self σ = (Raise KeyError, σ)).
Proof.
  intros Hb. pose proof Hb as (He & Hl & Hc).
  split; [|split].
  - intros Hs. unfold _calc_reward_subgoal. munfold. rewrite He. cbn beta iota.
    by rewrite Hs.
  - intros subs Hs Hfar. unfold _calc_reward_subgoal. munfold. rewrite He.
    cbn beta iota. rewrite Hs.
    by apply (subgoal_loop_far self id last cur).
  - intros subs pos Hs Hin Hfl. unfold _calc_reward_subgoal. munfold. rewrite He.
    cbn beta iota. rewrite Hs. cbn [subgoal_loop]. munfold. rewrite Hc.
    cbn beta iota. unfold within_radius in Hin. rewrite Hin, He. cbn beta iota.
    by rewrite Hfl.
Qed.

Lemma subgoal_lookups_witness :
  (subgoals (world_dict (standing_store origin 0%nat)) = None →
   _calc_reward_subgoal runner (standing_store origin)
   = (Raise KeyError, standing_store origin))
  ∧ (∀ subs, subgoals (world_dict (standing_store origin 0%nat)) = Some subs →
       Forall (λ pos, within_radius origin pos = false) subs →
       _calc_reward_subgoal runner (standing_store origin)
       = (Ok 0, standing_store origin))
  ∧ (∀ subs pos,
       subgoals (world_dict (standing_store origin 0%nat)) = Some (pos :: subs) →
       within_radius origin pos = true →
       subgoals_achieved (world_dict (standing_store origin 0%nat)) = None →
       _calc_reward_subgoal runner (standing_store origin)
       = (Raise KeyError, standing_store origin)).
Proof.
  apply (subgoal_lookups runner (standing_store origin) 0%nat origin origin).
  repeat split.
Defined.

Lemma subgoal_loop_app self s1 : ∀ s2 i acc σ,
  subgoal_loop self i (s1 ++ s2) acc σ
  = (subgoal_loop self i s1 acc
     ≫= λ acc', subgoal_loop self (i + length s1) s2 acc') σ.
Proof.
  induction s1 as [|pos rest IH]; intros s2 i acc σ.
  - cbn [app subgoal_loop length]. rewrite Nat.add_0_r.
    unfold mbind, StateExn_bind, mret, StateExn_ret. done.
  - assert (∀ i acc σ,
              subgoal_loop self (S i) (rest ++ s2) acc σ
              = match subgoal_loop self (S i) rest acc σ with
                | (Ok a, σ') => subgoal_loop self (i + S (length rest)) s2 a σ'
                | (Raise e, σ') => (Raise e, σ')
                end) as IH'.
    { intros j a τ. rewrite IH. unfold mbind, StateExn_bind.
      by replace (S j + length rest)%nat with (j + S (length rest))%nat by lia. }
    cbn [app subgoal_loop length].
    unfold mbind, StateExn_bind, lift, read_env, modify_env.
    destruct (getattr (current_base_pos self)) as [cur|]; [|done].
    destruct (Rltb (norm3 (vsub cur pos)) 1); [|apply IH'].
    destruct (getattr (_env self)) as [id|]; [|done].
    destruct (getitem (subgoals_achieved (world_dict (σ id)))) as [flags|]; [|done].
    destruct (list_getitem flags i) as [a|]; [|done].
    destruct a; cbn [negb]; apply IH'.
Qed.

Lemma within_radius_self pos : within_radius pos pos = true.
Proof.
  unfold within_radius.
  replace (vsub pos pos) with (mkVec3 0 0 0) by (unfold vsub; f_equal; ring).
  rewrite norm3_axis_z by lra. apply Rltb_true. lra.
Qed.

(** X15: in a world with fewer flags than subgoals, a call within
    radius 1 of the first subgoal that has no flag raises IndexError;
    the flags of the subgoals before it that the call has reached stay
    set, although their bonus is not returned. *)
Theorem subgoal_short_flags self σ id last cur subs flags pos :
  bound self id last cur →
  subgoals (world_dict (σ id)) = Some subs →
  subgoals_achieved (world_dict (σ id)) = Some flags →
  subs !! length flags = Some pos → within_radius cur pos = true →
  ∃ σ', _calc_reward_subgoal self σ = (Raise IndexError, σ')
        ∧ flags_replaced σ σ' id (mark_reached cur 0 (take (length flags) subs) flags)
        ∧ ∀ k p, (k < length flags)%nat → subs !! k = Some p →
                 within_radius cur p = true → achieved σ' id k.
Proof.
  intros Hb Hs Hf Hpos Hin. pose proof Hb as (He & Hl & Hc).
  pose proof (lookup_lt_Some _ _ _ Hpos) as Hlt.
  set (n := length flags) in *.
  destruct (subgoal_loop_value self id last cur (take n subs) 0%nat 0 σ flags Hb Hf)
    as (σ1 & Hrun & Hfr).
  { rewrite length_take. lia. }
  exists σ1.
  assert (_calc_reward_subgoal self σ = (Raise IndexError, σ1)) as Hcall.
  { unfold _calc_reward_subgoal. munfold. rewrite He. cbn beta iota. rewrite Hs.
    rewrite <- (take_drop_middle subs n pos Hpos).
    rewrite subgoal_loop_app.
    unfold mbind at 1, StateExn_bind at 1.
    rewrite Hrun. rewrite length_take, Nat.min_l by lia.
    cbn [subgoal_loop]. munfold. rewrite Hc. cbn beta iota.
    unfold within_radius in Hin. rewrite Hin, He. cbn beta iota.
    destruct Hfr as (_ & _ & _ & _ & _ & _ & _ & Hfl1).
    unfold world_dict. rewrite Hfl1. unfold list_getitem.
    rewrite lookup_ge_None_2; [done|].
    rewrite length_mark_reached. cbn. lia. }
  split; [done|]. split; [done|].
  intros k p Hk Hkp Hkin.
  exists (mark_reached cur 0 (take n subs) flags).
  destruct Hfr as (_ & _ & _ & _ & _ & _ & _ & Hfl1). split; [done|].
  apply (mark_reached_sets cur (take n subs) 0 k flags p); [|done|cbn; lia].
  by rewrite lookup_take_lt.
Qed.

Lemma subgoal_short_flags_witness :
  ∃ σ', _calc_reward_subgoal course_task short_flags_store = (Raise IndexError, σ')
        ∧ flags_replaced short_flags_store σ' 0%nat
            (mark_reached origin 0 (take (length [false]) [origin; origin]) [false])
        ∧ ∀ k p, (k < length [false])%nat → [origin; origin] !! k = Some p →
                 within_radius origin p = true → achieved σ' 0%nat k.
Proof.
  apply (subgoal_short_flags course_task short_flags_store 0%nat origin origin
           [origin; origin] [false] origin).
  - repeat split.
  - reflexivity.
  - reflexivity.
  - reflexivity.
  - apply within_radius_self.
Defined.

(** ** What the task writes *)

Lemma writes_nothing_ret {A : Type} (a : A) : writes_nothing (mret a).
Proof. by intros σ. Qed.

Lemma writes_nothing_lift {A : Type} (r : Result A) : writes_nothing (lift r).
Proof. by intros σ. Qed.

Lemma writes_nothing_read_env id : writes_nothing (read_env id).
Proof. by intros σ. Qed.

Lemma writes_nothing_bind {A B : Type} (m : M A) (f : A → M B) :
  writes_nothing m → (∀ a, writes_nothing (f a)) → writes_nothing (m ≫= f).
Proof.
  intros Hm Hf σ. unfold mbind, StateExn_bind.
  specialize (Hm σ). destruct (m σ) as [[a|e] σ']; cbn [snd] in *; subst; [|done].
  apply Hf.
Qed.

Lemma writes_nothing_self_env self : writes_nothing (self_env self).
Proof.
  apply writes_nothing_bind; [apply writes_nothing_lift|].
  intros; apply writes_nothing_read_env.
Qed.

Lemma writes_nothing_root_velocity self : writes_nothing (_calc_reward_root_velocity self).
Proof.
  apply writes_nothing_bind; [apply writes_nothing_self_env|intros env].
  cbn beta zeta.
  destruct (getBaseVelocity (_pybullet_client env) (quadruped (robot env))).
  do 5 (apply writes_nothing_bind; [apply writes_nothing_lift|intros ?]).
  destruct (target_vel self); [apply writes_nothing_ret|apply writes_nothing_lift].
Qed.

Lemma writes_nothing_rotation self : writes_nothing (_calc_reward_rotation self).
Proof.
  apply writes_nothing_bind; [apply writes_nothing_self_env|intros env].
  destruct (init_orientation self); apply writes_nothing_ret.
Qed.

Lemma writes_nothing_goal_dist self : writes_nothing (_calc_reward_goal_dist self).
Proof.
  apply writes_nothing_bind; [apply writes_nothing_self_env|intros env].
  do 3 (apply writes_nothing_bind; [apply writes_nothing_lift|intros ?]).
  apply writes_nothing_ret.
Qed.

Lemma writes_nothing_done self env : writes_nothing (done self env).
Proof. intros σ. apply done_pure. Qed.

Lemma same_but_flags_refl σ id : same_but_flags σ σ id.
Proof. by repeat split. Qed.

Lemma same_but_flags_trans σ1 σ2 σ3 id :
  same_but_flags σ1 σ2 id → same_but_flags σ2 σ3 id → same_but_flags σ1 σ3 id.
Proof.
  intros (A1 & A2 & A3 & A4 & A5 & A6 & A7) (B1 & B2 & B3 & B4 & B5 & B6 & B7).
  repeat split; try congruence.
  intros j Hj. rewrite B1, A1; done.
Qed.

Lemma same_but_flags_insert σ id flags :
  same_but_flags σ (<[id := set_subgoals_achieved flags (σ id)]> σ) id.
Proof.
  unfold same_but_flags. rewrite fn_lookup_insert. repeat split.
  intros j Hj. by rewrite fn_lookup_insert_ne.
Qed.

Lemma writes_flags_only_pure {A : Type} id (m : M A) :
  writes_nothing m → writes_flags_only id m.
Proof. intros Hm σ. rewrite Hm. apply same_but_flags_refl. Qed.

Lemma writes_flags_only_bind {A B : Type} id (m : M A) (f : A → M B) :
  writes_flags_only id m → (∀ a, writes_flags_only id (f a)) →
  writes_flags_only id (m ≫= f).
Proof.
  intros Hm Hf σ. unfold mbind, StateExn_bind.
  specialize (Hm σ). destruct (m σ) as [[a|e] σ']; cbn [snd] in *; [|done].
  eapply same_but_flags_trans; [exact Hm|apply Hf].
Qed.

Lemma writes_flags_only_subgoal_loop self id subs : ∀ i acc,
  _env self = Some id → writes_flags_only id (subgoal_loop self i subs acc).
Proof.
  induction subs as [|pos rest IH]; intros i acc He σ;
    [apply same_but_flags_refl|].
  cbn [subgoal_loop]. munfold.
  destruct (current_base_pos self) as [cur|]; [|apply same_but_flags_refl].
  cbn beta iota.
  destruct (Rltb (norm3 (vsub cur pos)) 1); [|by apply IH].
  rewrite He. cbn beta iota.
  destruct (subgoals_achieved (world_dict (σ id))) as [flags|];
    [|apply same_but_flags_refl].
  destruct (list_getitem flags i) as [a|]; [|apply same_but_flags_refl].
  cbn beta iota. destruct a; cbn [negb]; [by apply IH|].
  eapply same_but_flags_trans; [apply same_but_flags_insert|by apply IH].
Qed.

Lemma writes_flags_only_subgoal self id :
  _env self = Some id → writes_flags_only id (_calc_reward_subgoal self).
Proof.
  intros He.
  apply writes_flags_only_bind;
    [apply writes_flags_only_pure, writes_nothing_self_env|intros env].
  apply writes_flags_only_bind;
    [apply writes_flags_only_pure, writes_nothing_lift|intros subs].
  by apply writes_flags_only_subgoal_loop.
Qed.

(** X16: [reward], whose docstring promises no side effects, writes
    nothing when subgoals are disabled, whether it returns or raises;
    with subgoals enabled it writes achieved flags of the bound
    environment and nothing else: the robot, the physics client, the
    other entries of the world dictionary and every other environment
    are as before.  [done] and the other three reward helpers never
    write. *)
Theorem reward_side_effects self env id :
  _env self = Some id →
  (subgoal self = false → writes_nothing (reward self env))
  ∧ writes_flags_only id (reward self env)
  ∧ writes_nothing (done self env)
  ∧ writes_nothing (_calc_reward_goal_dist self)
  ∧ writes_nothing (_calc_reward_root_velocity self)
  ∧ writes_nothing (_calc_reward_rotation self).
Proof.
  intros He. split; [|split].
  - intros Hsg. unfold reward. rewrite Hsg.
    apply writes_nothing_bind; [apply writes_nothing_self_env|intros e].
    apply writes_nothing_bind; [apply writes_nothing_root_velocity|intros mf].
    apply writes_nothing_bind; [apply writes_nothing_rotation|intros orr].
    apply writes_nothing_bind; [apply writes_nothing_goal_dist|intros gr].
    apply writes_nothing_bind; [apply writes_nothing_ret|intros sg].
    apply writes_nothing_bind; [apply writes_nothing_done|intros d].
    apply writes_nothing_ret.
  - unfold reward.
    apply writes_flags_only_bind;
      [apply writes_flags_only_pure, writes_nothing_self_env|intros e].
    apply writes_flags_only_bind;
      [apply writes_flags_only_pure, writes_nothing_root_velocity|intros mf].
    apply writes_flags_only_bind;
      [apply writes_flags_only_pure, writes_nothing_rotation|intros orr].
    apply writes_flags_only_bind;
      [apply writes_flags_only_pure, writes_nothing_goal_dist|intros gr].
    apply writes_flags_only_bind.
    { destruct (subgoal self);
        [by apply writes_flags_only_subgoal
        |apply writes_flags_only_pure, writes_nothing_ret]. }
    intros sg.
    apply writes_flags_only_bind;
      [apply writes_flags_only_pure, writes_nothing_done|intros d].
    apply writes_flags_only_pure, writes_nothing_ret.
  - split; [apply writes_nothing_done|]. split; [apply writes_nothing_goal_dist|].
    split; [apply writes_nothing_root_velocity|apply writes_nothing_rotation].
Qed.

Lemma reward_side_effects_witness :
  (subgoal course_task = false → writes_nothing (reward course_task 0%nat))
  ∧ writes_flags_only 0%nat (reward course_task 0%nat)
  ∧ writes_nothing (done course_task 0%nat)
  ∧ writes_nothing (_calc_reward_goal_dist course_task)
  ∧ writes_nothing (_calc_reward_root_velocity course_task)
  ∧ writes_nothing (_calc_reward_rotation course_task).
Proof.
  apply (reward_side_effects course_task 0%nat 0%nat). reflexivity.
Defined.

(** ** Calling [reward] twice *)

(** Marking changes nothing where every subgoal within the radius is
    marked already. *)
Lemma mark_reached_fixed cur subs : ∀ i flags,
  (∀ n pos, subs !! n = Some pos → within_radius cur pos = true →
            flags !! (i + n)%nat = Some true) →
  mark_reached cur i subs flags = flags.
Proof.
  induction subs as [|p rest IH]; intros i flags Hall; [done|].
  cbn [mark_reached].
  assert ((if within_radius cur p then <[i := true]> flags else flags) = flags) as ->.
  { destruct (within_radius cur p) eqn:Hin; [|done].
    apply list_insert_id. specialize (Hall 0%nat p eq_refl Hin).
    by rewrite Nat.add_0_r in Hall. }
  apply IH. intros n pos Hn Hin.
  replace (S i + n)%nat with (i + S n)%nat by lia. by apply (Hall (S n) pos).
Qed.

Lemma mark_reached_idempotent cur subs flags :
  (length subs ≤ length flags)%nat →
  mark_reached cur 0 subs (mark_reached cur 0 subs flags)
  = mark_reached cur 0 subs flags.
Proof.
  intros Hlen. apply mark_reached_fixed. intros n pos Hn Hin.
  apply (mark_reached_sets cur subs 0%nat n flags pos Hn Hin).
  apply lookup_lt_Some in Hn. lia.
Qed.

(** X17: [reward] is not repeatable within a step: called a second time
    in the store the first call left, with subgoals enabled it returns
    the first reward less the subgoal bonus, since the first call has
    marked the subgoals it paid for; the second call sets no further
    flag.  With subgoals disabled both calls return the same. *)
Theorem reward_twice self env σ id last cur tv ref goal subs flags d :
  bound self id last cur →
  target_vel self = Some tv → init_orientation self = Some ref →
  elapsed self ≠ 0 →
  goal_pos (_world_dict (σ id)) = Some goal →
  (subgoal self = true → subgoals_well_formed (σ id) subs flags) →
  (done self env σ).1 = Ok d →
  ∃ r1 σ1 r2 σ2,
    reward self env σ = (Ok r1, σ1)
    ∧ reward self env σ1 = (Ok r2, σ2)
    ∧ r1 - r2 = (if subgoal self then subgoal_bonus cur 0 subs flags else 0)
    ∧ subgoals_achieved (_world_dict (σ2 id)) = subgoals_achieved (_world_dict (σ1 id)).
Proof.
  intros Hb Htv Href Hdt Hgoal Hsub Hdone.
  destruct (reward_value self env σ id last cur tv ref goal subs flags d)
    as (σ1 & H1 & Hfr); try done.
  destruct (subgoal self) eqn:Hsg.
  - destruct (Hsub eq_refl) as (Hs & Hf & Hlen).
    pose proof Hfr as (_ & Hrobot & _ & _ & _ & Hgoal1 & Hsubs1 & Hflags1).
    destruct (reward_value self env σ1 id last cur tv ref goal subs
                (mark_reached cur 0 subs flags) d) as (σ2 & H2 & Hfr2); try done.
    { congruence. }
    { intros _. repeat split; [by rewrite <- Hs|done|by rewrite length_mark_reached]. }
    { destruct Hb as (He & _).
      by rewrite (done_frame self env σ σ1 id _ He Hfr). }
    rewrite Hsg in Hfr2. destruct Hfr2 as (_ & _ & _ & _ & _ & _ & _ & Hflags2).
    do 4 eexists. split; [exact H1|]. split; [exact H2|]. split.
    + unfold reward_in_words. rewrite Hrobot, Hsg.
      rewrite subgoal_bonus_after_mark by (cbn; lia). lra.
    + rewrite Hflags2, Hflags1. f_equal. by apply mark_reached_idempotent.
  - subst σ1.
    do 4 eexists. split; [exact H1|]. split; [exact H1|]. split; [lra|done].
Qed.

Lemma course_not_done : (done course_task 0%nat untouched_course_store).1 = Ok false.
Proof.
  destruct (done_value course_task 0%nat untouched_course_store 0%nat origin origin)
    as (d & -> & Hd); [by repeat split|done|].
  cbn [fst]. f_equal. destruct d; [|done]. exfalso.
  destruct Hd as [Hd _]. specialize (Hd eq_refl).
  unfold done_condition, base_height, up_component in Hd. simpl in Hd.
  destruct Hd as [H|[[H _]|[H|(H & _)]]]; (lra || done).
Qed.

Lemma reward_twice_witness :
  ∃ r1 σ1 r2 σ2,
    reward course_task 0%nat untouched_course_store = (Ok r1, σ1)
    ∧ reward course_task 0%nat σ1 = (Ok r2, σ2)
    ∧ r1 - r2 = (if subgoal course_task
                 then subgoal_bonus origin 0 [origin; mkVec3 5 0 0] [false; false]
                 else 0)
    ∧ subgoals_achieved (_world_dict (σ2 0%nat))
      = subgoals_achieved (_world_dict (σ1 0%nat)).
Proof.
  apply (reward_twice course_task 0%nat untouched_course_store 0%nat origin origin
           1 upright (mkVec3 10 0 0) [origin; mkVec3 5 0 0] [false; false] false).
  - by repeat split.
  - reflexivity.
  - reflexivity.
  - unfold elapsed; simpl. lra.
  - reflexivity.
  - intros _. repeat split. simpl. lia.
  - exact course_not_done.
Defined.

End goal_task_more_props.

(** * Properties of environment_sensors.py *)

Module environment_sensors_props.
Import environment_sensors environment_sensors_spec.

Lemma feet_id_value : ForceSensor.feet_id = [2; 5; 8; 11]%Z.
Proof. reflexivity. Qed.

(** What the accessor of the force sensor returns once every attribute it
    reads is there. *)
Lemma force_observation_value (self : gmap string Value) env robot ids f1 f2 f3 f4 :
  self !! "_env" = Some (VEnv env) →
  self !! "_robot" = Some (VRobot robot) →
  self !! "feet_id" = Some (VIntList ids) →
  getJointStates (_pybullet_client env) (quadruped robot) ids = [f1; f2; f3; f4] →
  ForceSensor._get_observation self = Ok (js_2 f1 ++ js_2 f2 ++ js_2 f3 ++ js_2 f4).
Proof.
  intros He Hr Hi Hs. unfold ForceSensor._get_observation, self_attr.
  rewrite He, Hr, Hi. cbn. by rewrite Hs.
Qed.

Section base_class.
Variable super_init : BoxArgs → gmap string Value → gmap string Value.

(** The base constructor leaves the environment binding alone. *)
Hypothesis super_keeps_env :
  ∀ args (self : gmap string Value), super_init args self !! "_env" = self !! "_env".

(** The base constructor attaches no robot. *)
Hypothesis super_attaches_no_robot :
  ∀ args (self : gmap string Value) robot,
    self !! "_robot" = None → super_init args self !! "_robot" ≠ Some (VRobot robot).

Lemma force_resets_robot (self : gmap string Value) envs :
  force_resets self envs !! "_robot" = self !! "_robot".
Proof.
  revert self. induction envs as [|env envs IH]; intros self; [done|].
  cbn [force_resets foldl]. fold (force_resets (ForceSensor.on_reset self env) envs).
  rewrite IH. unfold ForceSensor.on_reset. by rewrite lookup_insert_ne.
Qed.

Lemma force_resets_env (self : gmap string Value) env envs :
  ∃ env', force_resets (ForceSensor.on_reset self env) envs !! "_env" = Some (VEnv env').
Proof.
  revert self env. induction envs as [|e envs IH]; intros self env.
  - exists env. cbn. unfold ForceSensor.on_reset. by rewrite lookup_insert_eq.
  - cbn [force_resets foldl]. apply IH.
Qed.

Lemma force_no_robot goal_dim name dtype robot :
  ForceSensor.__init__ super_init goal_dim name dtype !! "_robot" ≠ Some (VRobot robot).
Proof. unfold ForceSensor.__init__. by apply super_attaches_no_robot. Qed.

(** The accessor of a force sensor that has been reset. *)
Lemma force_reset_raises goal_dim name dtype env envs :
  ForceSensor._get_observation
    (force_resets
       (ForceSensor.on_reset (ForceSensor.__init__ super_init goal_dim name dtype) env)
       envs)
  = Raise AttributeError.
Proof.
  unfold ForceSensor._get_observation, self_attr.
  destruct (force_resets_env (ForceSensor.__init__ super_init goal_dim name dtype)
              env envs) as [env' ->].
  cbn. rewrite force_resets_robot.
  assert (ForceSensor.on_reset (ForceSensor.__init__ super_init goal_dim name dtype) env
            !! "_robot"
          = ForceSensor.__init__ super_init goal_dim name dtype !! "_robot") as ->.
  { unfold ForceSensor.on_reset. by rewrite lookup_insert_ne. }
  pose proof (force_no_robot goal_dim name dtype) as Hno.
  destruct (ForceSensor.__init__ super_init goal_dim name dtype !! "_robot")
    as [v|]; [|done].
  destruct v; try done. by destruct (Hno robot).
Qed.

(** C7: a force sensor that has been constructed and reset, once or
    for any number of episodes, raises AttributeError at every call of
    its accessor, the base constructor attaching no robot: no method of
    the class assigns [_robot]. *)
Theorem force_sensor_never_observes goal_dim name dtype env envs :
  ForceSensor._get_observation
    (force_resets
       (ForceSensor.on_reset (ForceSensor.__init__ super_init goal_dim name dtype) env)
       envs)
  = Raise AttributeError
  ∧ force_resets
      (ForceSensor.on_reset (ForceSensor.__init__ super_init goal_dim name dtype) env)
      envs !! "_robot"
    = ForceSensor.__init__ super_init goal_dim name dtype !! "_robot".
Proof.
  split; [apply force_reset_raises|].
  rewrite force_resets_robot. unfold ForceSensor.on_reset.
  by rewrite lookup_insert_ne.
Qed.

(** C8: each of the three sensors is constructed with its environment
    binding set to None, and its accessor called before [on_reset]
    raises AttributeError on that None instead of returning an
    observation, the base constructor leaving the binding alone. *)
Theorem fresh_sensors_unbound num_actions lower_bound upper_bound goal_dim
    goal_dim' name name' name'' dtype dtype' dtype'' :
  (LastActionSensor.__init__ super_init num_actions lower_bound upper_bound name dtype
     !! "_env" = Some VNone
   ∧ LastActionSensor._get_observation
       (LastActionSensor.__init__ super_init num_actions lower_bound upper_bound
          name dtype)
     = Raise AttributeError)
  ∧ (GoalPosSensor.__init__ super_init goal_dim name' dtype' !! "_env" = Some VNone
     ∧ GoalPosSensor._get_observation
         (GoalPosSensor.__init__ super_init goal_dim name' dtype')
       = Raise AttributeError)
  ∧ (ForceSensor.__init__ super_init goal_dim' name'' dtype'' !! "_env" = Some VNone
     ∧ ForceSensor._get_observation
         (ForceSensor.__init__ super_init goal_dim' name'' dtype'')
       = Raise AttributeError).
Proof.
  assert (LastActionSensor.__init__ super_init num_actions lower_bound upper_bound
            name dtype !! "_env" = Some VNone) as H1.
  { unfold LastActionSensor.__init__. cbn zeta. rewrite super_keeps_env.
    by rewrite lookup_insert_eq. }
  assert (GoalPosSensor.__init__ super_init goal_dim name' dtype' !! "_env"
          = Some VNone) as H2.
  { unfold GoalPosSensor.__init__. cbn zeta. rewrite super_keeps_env.
    by rewrite lookup_insert_eq. }
  assert (ForceSensor.__init__ super_init goal_dim' name'' dtype'' !! "_env"
          = Some VNone) as H3.
  { unfold ForceSensor.__init__. cbn zeta. rewrite super_keeps_env.
    rewrite lookup_insert_ne by done. by rewrite lookup_insert_eq. }
  repeat split; try done.
  - unfold LastActionSensor._get_observation, self_attr. by rewrite H1.
  - unfold GoalPosSensor._get_observation, self_attr. by rewrite H2.
  - unfold ForceSensor._get_observation, self_attr. by rewrite H3.
Qed.

End base_class.

Lemma BoxSpaceSensor_keeps_env args (self : gmap string Value) :
  BoxSpaceSensor__init__ args self !! "_env" = self !! "_env".
Proof. unfold BoxSpaceSensor__init__. by rewrite !lookup_insert_ne. Qed.

Lemma BoxSpaceSensor_attaches_no_robot args (self : gmap string Value) robot :
  self !! "_robot" = None →
  BoxSpaceSensor__init__ args self !! "_robot" ≠ Some (VRobot robot).
Proof.
  intros H. unfold BoxSpaceSensor__init__. rewrite !lookup_insert_ne by done.
  by rewrite H.
Qed.

Lemma force_sensor_never_observes_witness :
  ForceSensor._get_observation
    (force_resets
       (ForceSensor.on_reset (ForceSensor.__init__ BoxSpaceSensor__init__ 24 "Force" float64)
          (env_with 3))
       [env_with 6])
  = Raise AttributeError
  ∧ force_resets
      (ForceSensor.on_reset (ForceSensor.__init__ BoxSpaceSensor__init__ 24 "Force" float64)
         (env_with 3))
      [env_with 6] !! "_robot"
    = ForceSensor.__init__ BoxSpaceSensor__init__ 24 "Force" float64 !! "_robot".
Proof.
  apply (force_sensor_never_observes BoxSpaceSensor__init__
           BoxSpaceSensor_attaches_no_robot).
Defined.

Lemma fresh_sensors_unbound_witness :
  (LastActionSensor.__init__ BoxSpaceSensor__init__ 12 (-1) 1 "LastAction" float64
     !! "_env" = Some VNone
   ∧ LastActionSensor._get_observation
       (LastActionSensor.__init__ BoxSpaceSensor__init__ 12 (-1) 1 "LastAction" float64)
     = Raise AttributeError)
  ∧ (GoalPosSensor.__init__ BoxSpaceSensor__init__ 3 "GoalPos" float64 !! "_env"
     = Some VNone
     ∧ GoalPosSensor._get_observation
         (GoalPosSensor.__init__ BoxSpaceSensor__init__ 3 "GoalPos" float64)
       = Raise AttributeError)
  ∧ (ForceSensor.__init__ BoxSpaceSensor__init__ 24 "Force" float64 !! "_env"
     = Some VNone
     ∧ ForceSensor._get_observation
         (ForceSensor.__init__ BoxSpaceSensor__init__ 24 "Force" float64)
       = Raise AttributeError).
Proof.
  apply (fresh_sensors_unbound BoxSpaceSensor__init__ BoxSpaceSensor_keeps_env).
Defined.

Lemma length_4_concat (a b c d : list R) :
  length (a ++ b ++ c ++ d) = (length a + length b + length c + length d)%nat.
Proof. rewrite !length_app. lia. Qed.

(** C6, as the code has it: the constructor passes the shape [(24,)] to
    the base class and the feet are joints 2, 5, 8 and 11; the accessor,
    once the sensor has an environment and a robot, returns entry 2 of
    the four joint states one after the other, as many components as the
    four entries have together: twelve, which is not the declared 24, if
    every entry has three, and the declared 24 if every entry has six. *)
Theorem force_observation_length (self : gmap string Value) env robot f1 f2 f3 f4 :
  self !! "_env" = Some (VEnv env) →
  self !! "_robot" = Some (VRobot robot) →
  self !! "feet_id" = Some (VIntList ForceSensor.feet_id) →
  getJointStates (_pybullet_client env) (quadruped robot) [2; 5; 8; 11]%Z
    = [f1; f2; f3; f4] →
  (∀ goal_dim name dtype,
     box_shape (ForceSensor.super_args goal_dim name dtype) = [24%Z])
  ∧ ∃ out,
      ForceSensor._get_observation self = Ok out
      ∧ out = js_2 f1 ++ js_2 f2 ++ js_2 f3 ++ js_2 f4
      ∧ length out
        = (length (js_2 f1) + length (js_2 f2) + length (js_2 f3)
           + length (js_2 f4))%nat
      ∧ (Forall (λ f, length (js_2 f) = 3%nat) [f1; f2; f3; f4] →
         length out = 12%nat)
      ∧ (Forall (λ f, length (js_2 f) = 6%nat) [f1; f2; f3; f4] →
         length out = 24%nat).
Proof.
  intros He Hr Hi Hs. split; [done|].
  eexists. split;
    [by apply (force_observation_value self env robot ForceSensor.feet_id f1 f2 f3 f4)|].
  split; [done|]. rewrite length_4_concat. split; [done|].
  split; intros H; by decompose_Forall_hyps; lia.
Qed.

Lemma attached_env n : attached_force_sensor n !! "_env" = Some (VEnv (env_with n)).
Proof.
  unfold attached_force_sensor, bound_force_sensor, ForceSensor.on_reset.
  rewrite lookup_insert_ne by done. by rewrite lookup_insert_eq.
Qed.

Lemma attached_robot n :
  attached_force_sensor n !! "_robot" = Some (VRobot (_robot (env_with n))).
Proof. unfold attached_force_sensor. by rewrite lookup_insert_eq. Qed.

Lemma attached_feet n :
  attached_force_sensor n !! "feet_id" = Some (VIntList ForceSensor.feet_id).
Proof.
  unfold attached_force_sensor, bound_force_sensor, ForceSensor.on_reset,
    ForceSensor.__init__, BoxSpaceSensor__init__.
  rewrite !lookup_insert_ne by done. by rewrite lookup_insert_eq.
Qed.

Lemma force_observation_length_witness :
  (∀ goal_dim name dtype,
     box_shape (ForceSensor.super_args goal_dim name dtype) = [24%Z])
  ∧ ∃ out,
      ForceSensor._get_observation (attached_force_sensor 3) = Ok out
      ∧ out = replicate 3 0%R ++ replicate 3 0%R ++ replicate 3 0%R ++ replicate 3 0%R
      ∧ length out = (3 + 3 + 3 + 3)%nat
      ∧ (Forall (λ f, length (js_2 f) = 3%nat)
           (replicate 4 (mkJointState 0 0 (replicate 3 0%R) 0)) →
         length out = 12%nat)
      ∧ (Forall (λ f, length (js_2 f) = 6%nat)
           (replicate 4 (mkJointState 0 0 (replicate 3 0%R) 0)) →
         length out = 24%nat).
Proof.
  apply (force_observation_length (attached_force_sensor 3) (env_with 3)
           (_robot (env_with 3))
           (mkJointState 0 0 (replicate 3 0%R) 0) (mkJointState 0 0 (replicate 3 0%R) 0)
           (mkJointState 0 0 (replicate 3 0%R) 0) (mkJointState 0 0 (replicate 3 0%R) 0)).
  - apply attached_env.
  - apply attached_robot.
  - apply attached_feet.
  - reflexivity.
Defined.

Example attached_observation :
  ForceSensor._get_observation (attached_force_sensor 3) = Ok (replicate 12 0%R).
Proof.
  by apply (force_observation_value (attached_force_sensor 3) (env_with 3)
              (_robot (env_with 3)) ForceSensor.feet_id
              (mkJointState 0 0 (replicate 3 0%R) 0) (mkJointState 0 0 (replicate 3 0%R) 0)
              (mkJointState 0 0 (replicate 3 0%R) 0) (mkJointState 0 0 (replicate 3 0%R) 0));
    [apply attached_env|apply attached_robot|apply attached_feet|].
Qed.

(** C6, the specification's wording fails: bound to an environment the
    sensor returns no array at all, and with a robot attached on a
    simulator whose entries have six components the accessor returns 24
    of them, the declared shape. *)
Lemma force_shape_not_mismatched :
  ¬ force_shape_mismatch_in_words BoxSpaceSensor__init__
  ∧ ∃ out, ForceSensor._get_observation (attached_force_sensor 6) = Ok out
           ∧ length out = 24%nat
           ∧ box_shape (ForceSensor.super_args 24 "Force" float64) = [24%Z].
Proof.
  split.
  - intros H. destruct (H (env_with 3)) as (out & Hout & _).
    unfold bound_force_sensor in Hout.
    pose proof (force_reset_raises BoxSpaceSensor__init__
                  BoxSpaceSensor_attaches_no_robot 24 "Force" float64 (env_with 3) [])
      as Hraise.
    cbn [force_resets foldl] in Hraise. congruence.
  - eexists. split.
    + apply (force_observation_value (attached_force_sensor 6) (env_with 6)
               (_robot (env_with 6)) ForceSensor.feet_id
               (mkJointState 0 0 (replicate 6 0%R) 0) (mkJointState 0 0 (replicate 6 0%R) 0)
               (mkJointState 0 0 (replicate 6 0%R) 0) (mkJointState 0 0 (replicate 6 0%R) 0));
        [apply attached_env|apply attached_robot|apply attached_feet|reflexivity].
    + done.
Qed.

End environment_sensors_props.

(** * Further properties of environment_sensors.py *)

Module environment_sensors_more_props.
Import environment_sensors environment_sensors_spec environment_sensors_notions
  environment_sensors_props.

Lemma last_action_resets_other (self : gmap string Value) envs k :
  k ≠ "_env" → last_action_resets self envs !! k = self !! k.
Proof.
  intros Hk. revert self. induction envs as [|env envs IH]; intros self; [done|].
  cbn [last_action_resets foldl].
  fold (last_action_resets (LastActionSensor.on_reset self env) envs).
  rewrite IH. unfold LastActionSensor.on_reset. by rewrite lookup_insert_ne.
Qed.

(** X18: whatever the state of a last-action sensor and however many
    episodes it has seen, after [on_reset(env)] its accessor returns the
    last action of [env], the environment of the latest reset, of
    whatever length; resets change no attribute but [_env]. *)
Theorem last_action_of_latest_reset (self : gmap string Value) envs env :
  LastActionSensor._get_observation
    (LastActionSensor.on_reset (last_action_resets self envs) env)
  = Ok (last_action env)
  ∧ ∀ k, k ≠ "_env" →
         LastActionSensor.on_reset (last_action_resets self envs) env !! k = self !! k.
Proof.
  split.
  - unfold LastActionSensor._get_observation, LastActionSensor.on_reset, self_attr.
    by rewrite lookup_insert_eq.
  - intros k Hk. unfold LastActionSensor.on_reset.
    rewrite lookup_insert_ne by done. by apply last_action_resets_other.
Qed.

Lemma goal_pos_resets_other (self : gmap string Value) envs k :
  k ≠ "_env" → goal_pos_resets self envs !! k = self !! k.
Proof.
  intros Hk. revert self. induction envs as [|env envs IH]; intros self; [done|].
  cbn [goal_pos_resets foldl].
  fold (goal_pos_resets (GoalPosSensor.on_reset self env) envs).
  rewrite IH. unfold GoalPosSensor.on_reset. by rewrite lookup_insert_ne.
Qed.

(** X19: after [on_reset(env)] the accessor of a goal-position sensor
    returns the base position of the robot of [env] followed by the goal
    of its world dictionary, and raises KeyError when the dictionary has
    no goal; the observation has the declared [goal_dim * 2] components
    when position and goal have [goal_dim] components each. *)
Theorem goal_pos_observation (self : gmap string Value) envs env :
  (∀ goal, world_dict env !! "goal_pos" = Some goal →
     GoalPosSensor._get_observation
       (GoalPosSensor.on_reset (goal_pos_resets self envs) env)
     = Ok (GetBasePosition (_robot env) ++ goal)
     ∧ ∀ goal_dim name dtype,
         Z.of_nat (length (GetBasePosition (_robot env))) = goal_dim →
         Z.of_nat (length goal) = goal_dim →
         box_shape (GoalPosSensor.super_args goal_dim name dtype)
         = [Z.of_nat (length (GetBasePosition (_robot env) ++ goal))])
  ∧ (world_dict env !! "goal_pos" = None →
     GoalPosSensor._get_observation
       (GoalPosSensor.on_reset (goal_pos_resets self envs) env)
     = Raise KeyError).
Proof.
  split.
  - intros goal Hg. split.
    + unfold GoalPosSensor._get_observation, GoalPosSensor.on_reset, self_attr.
      rewrite lookup_insert_eq. cbn. by rewrite Hg.
    + intros goal_dim name dtype Hp Hgl. cbn. rewrite length_app. f_equal. lia.
  - intros Hg.
    unfold GoalPosSensor._get_observation, GoalPosSensor.on_reset, self_attr.
    rewrite lookup_insert_eq. cbn. by rewrite Hg.
Qed.

(** X20: a force sensor that has an environment and a robot returns an
    observation exactly when the simulator answers with four joint
    states; with any other number the unpacking raises ValueError. *)
Theorem force_needs_four_states (self : gmap string Value) env robot ids :
  self !! "_env" = Some (VEnv env) →
  self !! "_robot" = Some (VRobot robot) →
  self !! "feet_id" = Some (VIntList ids) →
  (length (getJointStates (_pybullet_client env) (quadruped robot) ids) = 4%nat →
   ∃ out, ForceSensor._get_observation self = Ok out)
  ∧ (length (getJointStates (_pybullet_client env) (quadruped robot) ids) ≠ 4%nat →
     ForceSensor._get_observation self = Raise ValueError).
Proof.
  intros He Hr Hi. unfold ForceSensor._get_observation, self_attr.
  rewrite He, Hr, Hi. cbn.
  destruct (getJointStates (_pybullet_client env) (quadruped robot) ids)
    as [|f1 [|f2 [|f3 [|f4 [|f5 l]]]]]; cbn; split; try done; try lia; eauto.
Qed.

Lemma force_needs_four_states_witness :
  (length (getJointStates (_pybullet_client (env_answering 3))
             (quadruped (_robot (env_answering 3))) ForceSensor.feet_id) = 4%nat →
   ∃ out, ForceSensor._get_observation (force_sensor_on 3) = Ok out)
  ∧ (length (getJointStates (_pybullet_client (env_answering 3))
               (quadruped (_robot (env_answering 3))) ForceSensor.feet_id) ≠ 4%nat →
     ForceSensor._get_observation (force_sensor_on 3) = Raise ValueError).
Proof.
  apply (force_needs_four_states (force_sensor_on 3) (env_answering 3)
           (_robot (env_answering 3)) ForceSensor.feet_id).
  - unfold force_sensor_on, bound_force_sensor, ForceSensor.on_reset.
    rewrite lookup_insert_ne by done. by rewrite lookup_insert_eq.
  - unfold force_sensor_on. by rewrite lookup_insert_eq.
  - unfold force_sensor_on, bound_force_sensor, ForceSensor.on_reset,
      ForceSensor.__init__, BoxSpaceSensor__init__.
    rewrite !lookup_insert_ne by done. by rewrite lookup_insert_eq.
Defined.

End environment_sensors_more_props.

(** * Properties of ppo_nature_cnn_sim2sim.py *)

Lemma bind_ok {S A B : Type} (m : StateExn S A) (f : A → StateExn S B) σ a σ' :
  m σ = (Ok a, σ') → (m ≫= f) σ = f a σ'.
Proof. intros H. unfold mbind, StateExn_bind. by rewrite H. Qed.

Module ppo_nature_cnn_sim2sim_props.
Import ppo_nature_cnn_sim2sim ppo_nature_cnn_sim2sim_spec.

Section evaluation_setup.
(** The heap after the copy: [p] and [ep] hold the same entries, the
    environment dictionary [le] and its [env_build] dictionary [lb]
    are shared. *)
Variables (h0 : gmap nat (gmap string Val)) (p ep le lb : nat).
Variables (name : Val) (dp : gmap string Val).
Hypothesis Hp : h0 !! p = Some dp.
Hypothesis Hep : h0 !! ep = Some dp.
Hypothesis Hname : dp !! "env_name" = Some name.
Hypothesis Henv : dp !! "env" = Some (VRef le).
Hypothesis Hp_le : p ≠ le.
Hypothesis Hp_lb : p ≠ lb.
Hypothesis Hep_le : ep ≠ le.
Hypothesis Hep_lb : ep ≠ lb.
Hypothesis Hle_lb : le ≠ lb.

Local Abbreviation heap_with := (with_dicts h0 le lb).

Lemma with_dicts_p D E : heap_with D E !! p = Some dp.
Proof. unfold with_dicts. by rewrite !lookup_insert_ne. Qed.

Lemma with_dicts_ep D E : heap_with D E !! ep = Some dp.
Proof. unfold with_dicts. by rewrite !lookup_insert_ne. Qed.

Lemma with_dicts_le D E : heap_with D E !! le = Some E.
Proof. unfold with_dicts. rewrite lookup_insert_ne by done. by rewrite lookup_insert_eq. Qed.

Lemma with_dicts_lb D E : heap_with D E !! lb = Some D.
Proof. unfold with_dicts. by rewrite lookup_insert_eq. Qed.

Lemma subscript_p D E k v :
  dp !! k = Some v → subscript (VRef p) k (heap_with D E) = (Ok v, heap_with D E).
Proof.
  intros Hk. unfold subscript, deref, mbind, StateExn_bind, lift.
  by rewrite with_dicts_p, Hk.
Qed.

Lemma subscript_ep D E k v :
  dp !! k = Some v → subscript (VRef ep) k (heap_with D E) = (Ok v, heap_with D E).
Proof.
  intros Hk. unfold subscript, deref, mbind, StateExn_bind, lift.
  by rewrite with_dicts_ep, Hk.
Qed.

Lemma subscript_le D E k v :
  E !! k = Some v → subscript (VRef le) k (heap_with D E) = (Ok v, heap_with D E).
Proof.
  intros Hk. unfold subscript, deref, mbind, StateExn_bind, lift.
  by rewrite with_dicts_le, Hk.
Qed.

Lemma subscript_lb D E k v :
  D !! k = Some v → subscript (VRef lb) k (heap_with D E) = (Ok v, heap_with D E).
Proof.
  intros Hk. unfold subscript, deref, mbind, StateExn_bind, lift.
  by rewrite with_dicts_lb, Hk.
Qed.

Lemma contains_lb D E k :
  contains k (VRef lb) (heap_with D E)
  = (Ok (bool_decide (is_Some (D !! k))), heap_with D E).
Proof.
  unfold contains, deref, mbind, StateExn_bind, mret, StateExn_ret.
  by rewrite with_dicts_lb.
Qed.

Lemma store_lb D E k x :
  store_subscript (VRef lb) k x (heap_with D E) = (Ok tt, heap_with (<[k := x]> D) E).
Proof.
  unfold store_subscript, deref, put_dict, mbind, StateExn_bind.
  rewrite with_dicts_lb. unfold with_dicts. by rewrite insert_insert_eq.
Qed.

Lemma store_le D E k x :
  store_subscript (VRef le) k x (heap_with D E) = (Ok tt, heap_with D (<[k := x]> E)).
Proof.
  unfold store_subscript, deref, put_dict, mbind, StateExn_bind.
  rewrite with_dicts_le. unfold with_dicts.
  rewrite (insert_insert_ne _ le lb) by done. by rewrite insert_insert_eq.
Qed.

Lemma env_build_p D E :
  E !! "env_build" = Some (VRef lb) →
  env_build (VRef p) (heap_with D E) = (Ok (VRef lb), heap_with D E).
Proof.
  intros HE. unfold env_build.
  rewrite (bind_ok _ _ _ _ _ (subscript_p D E "env" _ Henv)).
  by apply subscript_le.
Qed.

Lemma env_build_ep D E :
  E !! "env_build" = Some (VRef lb) →
  env_build (VRef ep) (heap_with D E) = (Ok (VRef lb), heap_with D E).
Proof.
  intros HE. unfold env_build.
  rewrite (bind_ok _ _ _ _ _ (subscript_ep D E "env" _ Henv)).
  by apply subscript_le.
Qed.

Lemma disable_if_present_value D E k :
  E !! "env_build" = Some (VRef lb) →
  disable_if_present (VRef ep) k (heap_with D E) = (Ok tt, heap_with (disabled k D) E).
Proof.
  intros HE. unfold disable_if_present, disabled.
  rewrite (bind_ok _ _ _ _ _ (env_build_ep D E HE)).
  rewrite (bind_ok _ _ _ _ _ (contains_lb D E k)).
  destruct (bool_decide (is_Some (D !! k))); [|done].
  rewrite (bind_ok _ _ _ _ _ (env_build_ep D E HE)).
  apply store_lb.
Qed.

Lemma frame_settings_value D E :
  E !! "env_build" = Some (VRef lb) →
  (∀ v, D !! "get_image_interval" = Some v →
        (∃ b, py_gt v 1 = Ok b)
        ∧ (py_eq v 1 = true → is_Some (D !! "frame_extract"))) →
  frame_settings (VRef ep) (heap_with D E) = (Ok tt, heap_with (eval_frames D) E).
Proof.
  intros HE Hwf. unfold frame_settings, eval_frames.
  rewrite (bind_ok _ _ _ _ _ (env_build_ep D E HE)).
  rewrite (bind_ok _ _ _ _ _ (contains_lb D E _)).
  destruct (D !! "get_image_interval") as [v|] eqn:Hv.
  - destruct (Hwf v eq_refl) as [[b Hb] Hfe].
    rewrite bool_decide_eq_true_2 by done.
    rewrite (bind_ok _ (λ cond1 : bool, if cond1 then _ else _) _ b (heap_with D E)).
    2:{ rewrite (bind_ok _ _ _ _ _ (env_build_ep D E HE)).
        rewrite (bind_ok _ _ _ _ _ (subscript_lb D E _ v Hv)).
        unfold lift. by rewrite Hb. }
    rewrite Hb. destruct b.
    + rewrite (bind_ok _ _ _ _ _ (env_build_ep D E HE)).
      rewrite (bind_ok _ _ _ _ _ (subscript_lb D E _ v Hv)).
      rewrite (bind_ok _ _ _ _ _ (env_build_ep D E HE)).
      rewrite (bind_ok _ _ _ _ _ (store_lb D E _ _)).
      rewrite (bind_ok _ _ _ _ _ (env_build_ep _ E HE)).
      apply store_lb.
    + rewrite (bind_ok _ _ _ _ _ (env_build_ep D E HE)).
      rewrite (bind_ok _ _ _ _ _ (contains_lb D E _)).
      rewrite Hv, bool_decide_eq_true_2 by done.
      destruct (py_eq v 1) eqn:Heq; cbn [andb].
      * destruct (Hfe eq_refl) as [w Hw]. rewrite Hw.
        rewrite (bind_ok _ (λ cond2 : bool, if cond2 then _ else _) _
                   (py_eq w 1) (heap_with D E)).
        2:{ rewrite (bind_ok _ _ _ _ _ (env_build_ep D E HE)).
            rewrite (bind_ok _ _ _ _ _ (subscript_lb D E _ v Hv)).
            rewrite Heq.
            rewrite (bind_ok _ _ _ _ _ (env_build_ep D E HE)).
            by rewrite (bind_ok _ _ _ _ _ (subscript_lb D E _ w Hw)). }
        destruct (py_eq w 1); [|done].
        rewrite (bind_ok _ _ _ _ _ (env_build_ep D E HE)).
        apply store_lb.
      * rewrite (bind_ok _ (λ cond2 : bool, if cond2 then _ else _) _
                   false (heap_with D E)); [done|].
        rewrite (bind_ok _ _ _ _ _ (env_build_ep D E HE)).
        rewrite (bind_ok _ _ _ _ _ (subscript_lb D E _ v Hv)).
        by rewrite Heq.
  - rewrite bool_decide_eq_false_2 by (by intros [? ?]).
    rewrite (bind_ok _ (λ cond1 : bool, if cond1 then _ else _) _ false (heap_with D E))
      by done.
    rewrite (bind_ok _ _ _ _ _ (env_build_ep D E HE)).
    rewrite (bind_ok _ _ _ _ _ (contains_lb D E _)).
    rewrite Hv, bool_decide_eq_false_2 by (by intros [? ?]).
    by rewrite (bind_ok _ (λ cond2 : bool, if cond2 then _ else _) _
                  false (heap_with D E)) by done.
Qed.

(** What [experiment] asks for and the heap it leaves. *)
Lemma experiment_value args de db :
  h0 !! le = Some de → h0 !! lb = Some db →
  de !! "env_build" = Some (VRef lb) →
  (∀ v, db !! "get_image_interval" = Some v →
        (∃ b, py_gt v 1 = Ok b)
        ∧ (py_eq v 1 = true → is_Some (db !! "frame_extract"))) →
  experiment (VRef p) (VRef ep) args h0
  = (Ok (mkEnvCall name (VRef le) (vec_env_nums args) (proc_nums args),
         mkEnvCall name (VRef le) (Z.max 2 (vec_env_nums args))
           (Z.max 2 (proc_nums args))),
     heap_with (eval_env_build db) (<["horizon" := VInt 2000]> de)).
Proof.
  intros Hle Hlb HE Hwf.
  assert (heap_with db de = h0) as Hh.
  { unfold with_dicts. rewrite (insert_id h0 le de Hle). by apply insert_id. }
  replace (experiment (VRef p) (VRef ep) args h0)
    with (experiment (VRef p) (VRef ep) args (heap_with db de)) by (by rewrite Hh).
  assert ((<["horizon" := VInt 2000]> de) !! "env_build" = Some (VRef lb)) as HE'.
  { by rewrite lookup_insert_ne. }
  assert (∀ v, <["reset_frame_idx_each_step" := VBool true]> db
                 !! "get_image_interval" = Some v →
               (∃ b, py_gt v 1 = Ok b)
               ∧ (py_eq v 1 = true →
                  is_Some (<["reset_frame_idx_each_step" := VBool true]> db
                             !! "frame_extract"))) as Hwf'.
  { intros v Hv. rewrite lookup_insert_ne in Hv by done.
    destruct (Hwf v Hv) as [Hb Hfe]. split; [done|].
    intros Heq. rewrite lookup_insert_ne by done. by apply Hfe. }
  unfold experiment, get_subprocvec_env.
  rewrite (bind_ok _ _ _ _ _ (subscript_p db de "env_name" _ Hname)).
  rewrite (bind_ok _ _ _ _ _ (subscript_p db de "env" _ Henv)).
  rewrite (bind_ok (mret _) _ _ _ _ eq_refl).
  rewrite (bind_ok _ _ _ _ _ (env_build_ep db de HE)).
  rewrite (bind_ok _ _ _ _ _ (store_lb db de _ _)).
  rewrite (bind_ok _ _ _ _ _ (subscript_ep _ de "env" _ Henv)).
  rewrite (bind_ok _ _ _ _ _ (store_le _ de _ _)).
  rewrite (bind_ok _ _ _ _ _ (frame_settings_value _ _ HE' Hwf')).
  rewrite (bind_ok _ _ _ _ _ (disable_if_present_value _ _ "curriculum" HE')).
  rewrite (bind_ok _ _ _ _ _ (disable_if_present_value _ _ "interpolation" HE')).
  rewrite (bind_ok _ _ _ _ _
             (disable_if_present_value _ _ "fixed_delay_observation" HE')).
  rewrite (bind_ok _ _ _ _ _ (subscript_ep _ _ "env_name" _ Hname)).
  rewrite (bind_ok _ _ _ _ _ (subscript_ep _ _ "env" _ Henv)).
  rewrite (bind_ok (mret _) _ _ _ _ eq_refl).
  reflexivity.
Qed.

End evaluation_setup.

Lemma disabled_lookup_ne k k' (d : gmap string Val) :
  k ≠ k' → disabled k d !! k' = d !! k'.
Proof.
  intros Hne. unfold disabled. case_bool_decide; [|done]. by rewrite lookup_insert_ne.
Qed.

Lemma disabled_lookup k (d : gmap string Val) :
  is_Some (d !! k) → disabled k d !! k = Some (VBool false).
Proof.
  intros Hk. unfold disabled. rewrite bool_decide_eq_true_2 by done.
  by rewrite lookup_insert_eq.
Qed.

Lemma eval_frames_lookup k (d : gmap string Val) :
  k ≠ "get_image_interval" → k ≠ "frame_extract" → eval_frames d !! k = d !! k.
Proof.
  intros H1 H2. unfold eval_frames.
  destruct (d !! "get_image_interval") as [v|]; [|done].
  destruct (py_gt v 1) as [[|]|].
  - by rewrite !lookup_insert_ne.
  - destruct (_ && _); [by rewrite lookup_insert_ne|done].
  - destruct (_ && _); [by rewrite lookup_insert_ne|done].
Qed.

Lemma eval_env_build_reset (d : gmap string Val) :
  eval_env_build d !! "reset_frame_idx_each_step" = Some (VBool true).
Proof.
  unfold eval_env_build. rewrite !disabled_lookup_ne by done.
  rewrite eval_frames_lookup by done. by rewrite lookup_insert_eq.
Qed.

Lemma eval_env_build_disabled k (d : gmap string Val) :
  k ∈ ["curriculum"; "interpolation"; "fixed_delay_observation"] →
  is_Some (d !! k) → eval_env_build d !! k = Some (VBool false).
Proof.
  intros Hk Hd. unfold eval_env_build.
  assert (is_Some (eval_frames (<["reset_frame_idx_each_step" := VBool true]> d) !! k))
    as Hd1.
  { assert (k ≠ "get_image_interval" ∧ k ≠ "frame_extract"
            ∧ "reset_frame_idx_each_step" ≠ k) as (? & ? & ?).
    { repeat (apply elem_of_cons in Hk as [->|Hk]; [done|]).
      by apply elem_of_nil in Hk. }
    rewrite eval_frames_lookup by done. by rewrite lookup_insert_ne. }
  apply elem_of_cons in Hk as [->|Hk].
  { rewrite !disabled_lookup_ne by done. by apply disabled_lookup. }
  apply elem_of_cons in Hk as [->|Hk].
  { rewrite disabled_lookup_ne by done. apply disabled_lookup.
    by rewrite disabled_lookup_ne. }
  apply list_elem_of_singleton in Hk as ->.
  apply disabled_lookup. by rewrite !disabled_lookup_ne.
Qed.

(** What the module asks for, from [params.copy()] on, and the heap it
    leaves: the copy is a new dictionary, the dictionaries below it are
    the old ones, rewritten. *)
Lemma main_value h p le lb name dp de db args :
  config_tree h p le lb name dp de db →
  main (VRef p) args h
  = (Ok (mkEnvCall name (VRef le) (vec_env_nums args) (proc_nums args),
         mkEnvCall name (VRef le) (Z.max 2 (vec_env_nums args))
           (Z.max 2 (proc_nums args))),
     with_dicts (<[fresh (dom h) := dp]> h) le lb (eval_env_build db)
       (<["horizon" := VInt 2000]> de)).
Proof.
  intros [Hp Hname Henv Hle HE Hlb Hple Hplb Hlelb Hwf].
  pose proof (is_fresh (dom h)) as Hfresh.
  assert (fresh (dom h) ≠ p) as Hfp by (intros E; apply Hfresh; rewrite E; by eapply elem_of_dom_2).
  assert (fresh (dom h) ≠ le) as Hfle by (intros E; apply Hfresh; rewrite E; by eapply elem_of_dom_2).
  assert (fresh (dom h) ≠ lb) as Hflb by (intros E; apply Hfresh; rewrite E; by eapply elem_of_dom_2).
  unfold main, eval_params, dict_copy.
  rewrite (bind_ok _ _ h (VRef (fresh (dom h))) (<[fresh (dom h) := dp]> h)).
  2:{ rewrite (bind_ok _ _ h dp h); [done|]. unfold deref. by rewrite Hp. }
  apply (experiment_value _ p (fresh (dom h)) le lb name dp); try done.
  - by rewrite lookup_insert_ne.
  - by rewrite lookup_insert_eq.
  - by rewrite lookup_insert_ne.
  - by rewrite lookup_insert_ne.
Qed.

(** The evaluation configuration of a small [env_build] dictionary. *)
Example eval_env_build_a1 :
  eval_env_build {[ "curriculum" := VBool true; "get_image_interval" := VInt 4 ]}
  = {[ "curriculum" := VBool false; "get_image_interval" := VInt 1;
       "frame_extract" := VInt 4; "reset_frame_idx_each_step" := VBool true ]}.
Proof. by vm_compute. Qed.

(** C9: whatever [vec_env_nums] and [proc_nums] are, the module, run on
    a configuration tree, reaches the construction of the evaluation
    environment and asks for [max(2, vec_env_nums)] instances and
    [max(2, proc_nums)] processes: at least two of each, and exactly two
    when fewer were requested. *)
Theorem eval_env_at_least_two h p le lb name dp de db args :
  config_tree h p le lb name dp de db →
  ∃ env eval_env h',
    main (VRef p) args h = (Ok (env, eval_env), h')
    ∧ call_env_nums eval_env = Z.max 2 (vec_env_nums args)
    ∧ call_proc_nums eval_env = Z.max 2 (proc_nums args)
    ∧ (2 ≤ call_env_nums eval_env)%Z ∧ (2 ≤ call_proc_nums eval_env)%Z
    ∧ ((vec_env_nums args < 2)%Z → call_env_nums eval_env = 2%Z)
    ∧ ((proc_nums args < 2)%Z → call_proc_nums eval_env = 2%Z)
    ∧ call_env_nums env = vec_env_nums args
    ∧ call_proc_nums env = proc_nums args.
Proof.
  intros Htree. do 3 eexists. split; [by apply main_value|].
  cbn [call_env_nums call_proc_nums]. repeat split; lia.
Qed.

Lemma a1_config_tree :
  config_tree a1_config 0 1 2 (VStr "A1")
    {[ "env_name" := VStr "A1"; "env" := VRef 1 ]}
    {[ "horizon" := VInt 1000; "env_build" := VRef 2 ]}
    {[ "curriculum" := VBool true; "get_image_interval" := VInt 4 ]}.
Proof.
  split; try done.
  intros v Hv. simplify_map_eq. split; [by exists true|done].
Qed.

Lemma eval_env_at_least_two_witness :
  ∃ env eval_env h',
    main (VRef 0) one_worker a1_config = (Ok (env, eval_env), h')
    ∧ call_env_nums eval_env = Z.max 2 (vec_env_nums one_worker)
    ∧ call_proc_nums eval_env = Z.max 2 (proc_nums one_worker)
    ∧ (2 ≤ call_env_nums eval_env)%Z ∧ (2 ≤ call_proc_nums eval_env)%Z
    ∧ ((vec_env_nums one_worker < 2)%Z → call_env_nums eval_env = 2%Z)
    ∧ ((proc_nums one_worker < 2)%Z → call_proc_nums eval_env = 2%Z)
    ∧ call_env_nums env = vec_env_nums one_worker
    ∧ call_proc_nums env = proc_nums one_worker.
Proof.
  apply (eval_env_at_least_two a1_config 0 1 2 (VStr "A1") _ _ _ one_worker
           a1_config_tree).
Defined.

(** C10: [eval_params] is a new dictionary whose ["env"] entry is the
    very dictionary of [params["env"]]; after the evaluation set-up the
    training configuration, read through [params], has horizon 2000,
    [reset_frame_idx_each_step] true, and [curriculum], [interpolation]
    and [fixed_delay_observation] false where the configuration had
    them: it is not the configuration that was loaded, and the training
    environment was given that same dictionary. *)
Theorem eval_setup_rewrites_training_config h p le lb name dp de db args :
  config_tree h p le lb name dp de db →
  ∃ env eval_env h',
    main (VRef p) args h = (Ok (env, eval_env), h')
    ∧ fresh (dom h) ≠ p
    ∧ subscript (VRef p) "env" h' = (Ok (VRef le), h')
    ∧ subscript (VRef (fresh (dom h))) "env" h' = (Ok (VRef le), h')
    ∧ call_env_cfg env = VRef le ∧ call_env_cfg eval_env = VRef le
    ∧ read_env (VRef p) "horizon" h' = (Ok (VInt 2000), h')
    ∧ read_env_build (VRef p) "reset_frame_idx_each_step" h' = (Ok (VBool true), h')
    ∧ (∀ k, k ∈ ["curriculum"; "interpolation"; "fixed_delay_observation"] →
            is_Some (db !! k) →
            read_env_build (VRef p) k h' = (Ok (VBool false), h'))
    ∧ (de !! "horizon" ≠ Some (VInt 2000) → h' !! le ≠ h !! le).
Proof.
  intros Htree. pose proof (main_value _ _ _ _ _ _ _ _ args Htree) as Hmain.
  destruct Htree as [Hp Hname Henv Hle HE Hlb Hple Hplb Hlelb Hwf].
  pose proof (is_fresh (dom h)) as Hfresh.
  assert (fresh (dom h) ≠ p) as Hfp
    by (intros E; apply Hfresh; rewrite E; by eapply elem_of_dom_2).
  assert (fresh (dom h) ≠ le) as Hfle
    by (intros E; apply Hfresh; rewrite E; by eapply elem_of_dom_2).
  assert (fresh (dom h) ≠ lb) as Hflb
    by (intros E; apply Hfresh; rewrite E; by eapply elem_of_dom_2).
  set (h0 := <[fresh (dom h) := dp]> h) in *.
  assert (h0 !! p = Some dp) as Hp0 by (unfold h0; by rewrite lookup_insert_ne).
  assert (h0 !! fresh (dom h) = Some dp) as Hep0 by (unfold h0; by rewrite lookup_insert_eq).
  assert ((<["horizon" := VInt 2000]> de) !! "env_build" = Some (VRef lb)) as HE'
    by (by rewrite lookup_insert_ne).
  do 3 eexists. split; [exact Hmain|].
  split; [done|].
  split; [by apply (subscript_p h0 p le lb dp)|].
  split; [by apply (subscript_p h0 (fresh (dom h)) le lb dp)|].
  split; [done|]. split; [done|].
  split.
  { unfold read_env.
    rewrite (bind_ok _ _ _ _ _ (subscript_p h0 p le lb dp Hp0 Hple Hplb _ _ "env" _ Henv)).
    apply subscript_le; [done|]. by rewrite lookup_insert_eq. }
  split.
  { unfold read_env_build.
    rewrite (bind_ok _ _ _ _ _ (env_build_p h0 p le lb dp Hp0 Henv Hple Hplb Hlelb _ _ HE')).
    apply subscript_lb. apply eval_env_build_reset. }
  split.
  { intros k Hk Hdb. unfold read_env_build.
    rewrite (bind_ok _ _ _ _ _ (env_build_p h0 p le lb dp Hp0 Henv Hple Hplb Hlelb _ _ HE')).
    apply subscript_lb. by apply eval_env_build_disabled. }
  intros Hhor. rewrite (with_dicts_le h0 le lb Hlelb), Hle.
  intros E. injection E as E. apply Hhor. rewrite <- E. by rewrite lookup_insert_eq.
Qed.

Lemma eval_setup_rewrites_training_config_witness :
  ∃ env eval_env h',
    main (VRef 0) one_worker a1_config = (Ok (env, eval_env), h')
    ∧ fresh (dom a1_config) ≠ 0%nat
    ∧ subscript (VRef 0) "env" h' = (Ok (VRef 1), h')
    ∧ subscript (VRef (fresh (dom a1_config))) "env" h' = (Ok (VRef 1), h')
    ∧ call_env_cfg env = VRef 1 ∧ call_env_cfg eval_env = VRef 1
    ∧ read_env (VRef 0) "horizon" h' = (Ok (VInt 2000), h')
    ∧ read_env_build (VRef 0) "reset_frame_idx_each_step" h' = (Ok (VBool true), h')
    ∧ (∀ k, k ∈ ["curriculum"; "interpolation"; "fixed_delay_observation"] →
            is_Some (({[ "curriculum" := VBool true; "get_image_interval" := VInt 4 ]}
                        : gmap string Val) !! k) →
            read_env_build (VRef 0) k h' = (Ok (VBool false), h'))
    ∧ (({[ "horizon" := VInt 1000; "env_build" := VRef 2 ]} : gmap string Val)
         !! "horizon" ≠ Some (VInt 2000) →
       h' !! 1%nat ≠ a1_config !! 1%nat).
Proof.
  apply (eval_setup_rewrites_training_config a1_config 0 1 2 (VStr "A1") _ _ _
           one_worker a1_config_tree).
Defined.

End ppo_nature_cnn_sim2sim_props.

(** * Further properties of ppo_nature_cnn_sim2sim.py *)

Lemma bind_raise {S A B : Type} (m : StateExn S A) (f : A → StateExn S B) σ e σ' :
  m σ = (Raise e, σ') → (m ≫= f) σ = (Raise e, σ').
Proof. intros H. unfold mbind, StateExn_bind. by rewrite H. Qed.

Module ppo_nature_cnn_sim2sim_more_props.
Import ppo_nature_cnn_sim2sim ppo_nature_cnn_sim2sim_spec
  ppo_nature_cnn_sim2sim_notions ppo_nature_cnn_sim2sim_props.

(** Reading and writing a dictionary of any heap. *)
Lemma subscript_heap (h : gmap nat (gmap string Val)) l d k :
  h !! l = Some d → subscript (VRef l) k h = (getitem (d !! k), h).
Proof.
  intros Hl. unfold subscript, deref, mbind, StateExn_bind, lift. by rewrite Hl.
Qed.

Lemma store_heap (h : gmap nat (gmap string Val)) l d k x :
  h !! l = Some d → store_subscript (VRef l) k x h = (Ok tt, <[l := <[k := x]> d]> h).
Proof.
  intros Hl. unfold store_subscript, deref, put_dict, mbind, StateExn_bind.
  by rewrite Hl.
Qed.

Lemma dict_copy_heap (h : gmap nat (gmap string Val)) l d :
  h !! l = Some d →
  dict_copy (VRef l) h = (Ok (VRef (fresh (dom h))), <[fresh (dom h) := d]> h).
Proof.
  intros Hl. unfold dict_copy, deref, new_dict, mbind, StateExn_bind. by rewrite Hl.
Qed.

Lemma fresh_not_allocated (h : gmap nat (gmap string Val)) l d :
  h !! l = Some d → fresh (dom h) ≠ l.
Proof.
  intros Hl E. apply (is_fresh (dom h)). rewrite E. by eapply elem_of_dom_2.
Qed.

(** X21: [params.copy()] makes a dictionary of its own: it has the
    entries of [params], and an assignment to one of its keys shows
    through [eval_params] and not through [params], unlike an assignment
    below ["env"]. *)
Theorem copy_is_independent_at_top (h : gmap nat (gmap string Val)) p dp k x :
  h !! p = Some dp →
  ∃ ep h1 h2,
    eval_params (VRef p) h = (Ok (VRef ep), h1)
    ∧ ep ≠ p
    ∧ (∀ k', subscript (VRef ep) k' h1 = (getitem (dp !! k'), h1))
    ∧ (∀ l, l ≠ ep → h1 !! l = h !! l)
    ∧ store_subscript (VRef ep) k x h1 = (Ok tt, h2)
    ∧ subscript (VRef ep) k h2 = (Ok x, h2)
    ∧ (∀ k', subscript (VRef p) k' h2 = (getitem (dp !! k'), h2)).
Proof.
  intros Hp. pose proof (fresh_not_allocated h p dp Hp) as Hne.
  set (ep := fresh (dom h)) in *.
  assert ((<[ep := dp]> h) !! ep = Some dp) as Hep by (by rewrite lookup_insert_eq).
  exists ep, (<[ep := dp]> h), (<[ep := <[k := x]> dp]> (<[ep := dp]> h)).
  split; [by apply dict_copy_heap|]. split; [done|].
  split; [intros k'; by apply subscript_heap|].
  split; [intros l Hl; by rewrite lookup_insert_ne|].
  split; [by apply store_heap|].
  split.
  - rewrite (subscript_heap _ ep (<[k := x]> dp)) by (by rewrite lookup_insert_eq).
    by rewrite lookup_insert_eq.
  - intros k'. apply subscript_heap. by rewrite !lookup_insert_ne.
Qed.

Lemma copy_is_independent_at_top_witness :
  ∃ ep h1 h2,
    eval_params (VRef 0) a1_config = (Ok (VRef ep), h1)
    ∧ ep ≠ 0%nat
    ∧ (∀ k', subscript (VRef ep) k' h1
             = (getitem (({[ "env_name" := VStr "A1"; "env" := VRef 1 ]}
                            : gmap string Val) !! k'), h1))
    ∧ (∀ l, l ≠ ep → h1 !! l = a1_config !! l)
    ∧ store_subscript (VRef ep) "env_name" (VStr "Go1") h1 = (Ok tt, h2)
    ∧ subscript (VRef ep) "env_name" h2 = (Ok (VStr "Go1"), h2)
    ∧ (∀ k', subscript (VRef 0) k' h2
             = (getitem (({[ "env_name" := VStr "A1"; "env" := VRef 1 ]}
                            : gmap string Val) !! k'), h2)).
Proof.
  apply (copy_is_independent_at_top a1_config 0%nat _ "env_name" (VStr "Go1")).
  reflexivity.
Defined.

(** X22: on a configuration tree, the module leaves the top-level
    dictionary of [params] as it was, makes [eval_params] a dictionary
    with the same entries, and touches no other dictionary than
    [params["env"]], where it writes ["horizon"] only, and
    [params["env"]["env_build"]], where it writes no key other than
    [reset_frame_idx_each_step], [get_image_interval], [frame_extract],
    [curriculum], [interpolation] and [fixed_delay_observation]. *)
Theorem eval_setup_touches_seven_keys h p le lb name dp de db args :
  config_tree h p le lb name dp de db →
  ∃ env eval_env h' de' db',
    main (VRef p) args h = (Ok (env, eval_env), h')
    ∧ h' !! p = Some dp
    ∧ h' !! fresh (dom h) = Some dp
    ∧ (∀ l, l ≠ le → l ≠ lb → l ≠ fresh (dom h) → h' !! l = h !! l)
    ∧ h' !! le = Some de' ∧ h' !! lb = Some db'
    ∧ (∀ k, k ≠ "horizon" → de' !! k = de !! k)
    ∧ (∀ k, k ∉ eval_keys → db' !! k = db !! k).
Proof.
  intros Htree. pose proof (main_value _ _ _ _ _ _ _ _ args Htree) as Hmain.
  destruct Htree as [Hp Hname Henv Hle HE Hlb Hple Hplb Hlelb Hwf].
  pose proof (fresh_not_allocated h p dp Hp) as Hfp.
  pose proof (fresh_not_allocated h le de Hle) as Hfle.
  pose proof (fresh_not_allocated h lb db Hlb) as Hflb.
  do 2 eexists.
  exists (with_dicts (<[fresh (dom h) := dp]> h) le lb (eval_env_build db)
            (<["horizon" := VInt 2000]> de)),
         (<["horizon" := VInt 2000]> de), (eval_env_build db).
  split; [exact Hmain|]. unfold with_dicts.
  split; [by rewrite !lookup_insert_ne|].
  split; [rewrite !lookup_insert_ne by done; by rewrite lookup_insert_eq|].
  split; [intros l H1 H2 H3; by rewrite !lookup_insert_ne|].
  split; [rewrite lookup_insert_ne by done; by rewrite lookup_insert_eq|].
  split; [by rewrite lookup_insert_eq|].
  split; [intros k Hk; by rewrite lookup_insert_ne|].
  intros k Hk. unfold eval_keys in Hk.
  assert (k ≠ "reset_frame_idx_each_step" ∧ k ≠ "get_image_interval"
          ∧ k ≠ "frame_extract" ∧ k ≠ "curriculum" ∧ k ≠ "interpolation"
          ∧ k ≠ "fixed_delay_observation") as (K1 & K2 & K3 & K4 & K5 & K6).
  { repeat split; intros ->; apply Hk; repeat constructor. }
  unfold eval_env_build. rewrite !disabled_lookup_ne by done.
  rewrite eval_frames_lookup by done. by rewrite lookup_insert_ne.
Qed.

Lemma eval_setup_touches_seven_keys_witness :
  ∃ env eval_env h' de' db',
    main (VRef 0) one_worker a1_config = (Ok (env, eval_env), h')
    ∧ h' !! 0%nat = Some {[ "env_name" := VStr "A1"; "env" := VRef 1 ]}
    ∧ h' !! fresh (dom a1_config) = Some {[ "env_name" := VStr "A1"; "env" := VRef 1 ]}
    ∧ (∀ l, l ≠ 1%nat → l ≠ 2%nat → l ≠ fresh (dom a1_config) →
            h' !! l = a1_config !! l)
    ∧ h' !! 1%nat = Some de' ∧ h' !! 2%nat = Some db'
    ∧ (∀ k, k ≠ "horizon" →
            de' !! k = ({[ "horizon" := VInt 1000; "env_build" := VRef 2 ]}
                          : gmap string Val) !! k)
    ∧ (∀ k, k ∉ eval_keys →
            db' !! k = ({[ "curriculum" := VBool true;
                           "get_image_interval" := VInt 4 ]}
                          : gmap string Val) !! k).
Proof.
  apply (eval_setup_touches_seven_keys a1_config 0 1 2 (VStr "A1") _ _ _ one_worker
           a1_config_tree).
Defined.

(** ** Configurations that lack an entry *)

(** X23: when the configuration has no ["env_name"], no ["env"], or its
    ["env"] dictionary has no ["env_build"], the module raises KeyError
    and leaves every dictionary of the configuration as it was loaded:
    only the copy has been added. *)
Theorem config_missing_keys (h : gmap nat (gmap string Val)) p dp args :
  h !! p = Some dp →
  (dp !! "env_name" = None →
   main (VRef p) args h = (Raise KeyError, <[fresh (dom h) := dp]> h))
  ∧ (dp !! "env" = None →
     main (VRef p) args h = (Raise KeyError, <[fresh (dom h) := dp]> h))
  ∧ (∀ name le de,
       dp !! "env_name" = Some name → dp !! "env" = Some (VRef le) →
       h !! le = Some de → de !! "env_build" = None →
       main (VRef p) args h = (Raise KeyError, <[fresh (dom h) := dp]> h))
  ∧ (∀ l, l ≠ fresh (dom h) → (<[fresh (dom h) := dp]> h) !! l = h !! l).
Proof.
  intros Hp. pose proof (fresh_not_allocated h p dp Hp) as Hfp.
  set (ep := fresh (dom h)) in *.
  assert ((<[ep := dp]> h) !! p = Some dp) as Hp1 by (by rewrite lookup_insert_ne).
  assert ((<[ep := dp]> h) !! ep = Some dp) as Hep1 by (by rewrite lookup_insert_eq).
  assert (eval_params (VRef p) h = (Ok (VRef ep), <[ep := dp]> h)) as Hcopy
    by (by apply dict_copy_heap).
  split; [|split; [|split]].
  - intros Hn. unfold main. rewrite (bind_ok _ _ _ _ _ Hcopy).
    unfold experiment. apply bind_raise.
    rewrite (subscript_heap _ p dp) by done. by rewrite Hn.
  - intros Hn. unfold main. rewrite (bind_ok _ _ _ _ _ Hcopy).
    unfold experiment.
    destruct (dp !! "env_name") as [name|] eqn:Hname.
    + rewrite (bind_ok _ _ _ name (<[ep := dp]> h))
        by (rewrite (subscript_heap _ p dp) by done; by rewrite Hname).
      apply bind_raise. rewrite (subscript_heap _ p dp) by done. by rewrite Hn.
    + apply bind_raise. rewrite (subscript_heap _ p dp) by done. by rewrite Hname.
  - intros name le de Hname Henv Hle Hb.
    pose proof (fresh_not_allocated h le de Hle) as Hfle.
    unfold main. rewrite (bind_ok _ _ _ _ _ Hcopy). unfold experiment.
    rewrite (bind_ok _ _ _ name (<[ep := dp]> h))
      by (rewrite (subscript_heap _ p dp) by done; by rewrite Hname).
    rewrite (bind_ok _ _ _ (VRef le) (<[ep := dp]> h))
      by (rewrite (subscript_heap _ p dp) by done; by rewrite Henv).
    unfold get_subprocvec_env. rewrite (bind_ok (mret _) _ _ _ _ eq_refl).
    apply bind_raise. unfold env_build.
    rewrite (bind_ok _ _ _ (VRef le) (<[ep := dp]> h))
      by (rewrite (subscript_heap _ ep dp) by done; by rewrite Henv).
    rewrite (subscript_heap _ le de) by (by rewrite lookup_insert_ne).
    by rewrite Hb.
  - intros l Hl. by rewrite lookup_insert_ne.
Qed.

Lemma config_missing_keys_witness :
  (({[ "env_name" := VStr "A1"; "env" := VRef 1 ]} : gmap string Val) !! "env_name"
   = None →
   main (VRef 0) one_worker flat_config
   = (Raise KeyError,
      <[fresh (dom flat_config) := {[ "env_name" := VStr "A1"; "env" := VRef 1 ]}]>
        flat_config))
  ∧ (({[ "env_name" := VStr "A1"; "env" := VRef 1 ]} : gmap string Val) !! "env"
     = None →
     main (VRef 0) one_worker flat_config
     = (Raise KeyError,
        <[fresh (dom flat_config) := {[ "env_name" := VStr "A1"; "env" := VRef 1 ]}]>
          flat_config))
  ∧ (∀ name le de,
       ({[ "env_name" := VStr "A1"; "env" := VRef 1 ]} : gmap string Val) !! "env_name"
       = Some name →
       ({[ "env_name" := VStr "A1"; "env" := VRef 1 ]} : gmap string Val) !! "env"
       = Some (VRef le) →
       flat_config !! le = Some de → de !! "env_build" = None →
       main (VRef 0) one_worker flat_config
       = (Raise KeyError,
          <[fresh (dom flat_config) := {[ "env_name" := VStr "A1"; "env" := VRef 1 ]}]>
            flat_config))
  ∧ (∀ l, l ≠ fresh (dom flat_config) →
          (<[fresh (dom flat_config) := {[ "env_name" := VStr "A1"; "env" := VRef 1 ]}]>
             flat_config) !! l = flat_config !! l).
Proof.
  apply (config_missing_keys flat_config 0%nat _ one_worker). reflexivity.
Defined.

Section failing_frames.
Variables (h0 : gmap nat (gmap string Val)) (p ep le lb : nat).
Variables (name : Val) (dp : gmap string Val).
Hypothesis Hp : h0 !! p = Some dp.
Hypothesis Hep : h0 !! ep = Some dp.
Hypothesis Hname : dp !! "env_name" = Some name.
Hypothesis Henv : dp !! "env" = Some (VRef le).
Hypothesis Hp_le : p ≠ le.
Hypothesis Hp_lb : p ≠ lb.
Hypothesis Hep_le : ep ≠ le.
Hypothesis Hep_lb : ep ≠ lb.
Hypothesis Hle_lb : le ≠ lb.

(** The frame settings when the image interval is 1 and there is no
    frame count. *)
Lemma frame_settings_no_frame_extract D E v :
  E !! "env_build" = Some (VRef lb) →
  D !! "get_image_interval" = Some v →
  py_gt v 1 = Ok false → py_eq v 1 = true →
  D !! "frame_extract" = None →
  frame_settings (VRef ep) (with_dicts h0 le lb D E)
  = (Raise KeyError, with_dicts h0 le lb D E).
Proof.
  intros HE Hv Hgt Heq Hfe.
  pose proof (env_build_ep h0 ep le lb dp Hep Henv Hep_le Hep_lb Hle_lb D E HE) as EB.
  pose proof (contains_lb h0 le lb D E "get_image_interval") as CT.
  rewrite Hv, bool_decide_eq_true_2 in CT by done.
  pose proof (subscript_lb h0 le lb D E _ v Hv) as SI.
  unfold frame_settings.
  rewrite (bind_ok _ _ _ _ _ EB), (bind_ok _ _ _ _ _ CT).
  rewrite (bind_ok _ (λ cond1 : bool, if cond1 then _ else _) _ false
             (with_dicts h0 le lb D E)).
  2:{ rewrite (bind_ok _ _ _ _ _ EB), (bind_ok _ _ _ _ _ SI).
      unfold lift. by rewrite Hgt. }
  rewrite (bind_ok _ _ _ _ _ EB), (bind_ok _ _ _ _ _ CT).
  apply bind_raise.
  rewrite (bind_ok _ _ _ _ _ EB), (bind_ok _ _ _ _ _ SI). rewrite Heq.
  rewrite (bind_ok _ _ _ _ _ EB). apply bind_raise.
  unfold subscript, deref, mbind, StateExn_bind, lift.
  rewrite (with_dicts_lb h0 le lb D E). by rewrite Hfe.
Qed.

Lemma experiment_no_frame_extract args de db v :
  h0 !! le = Some de → h0 !! lb = Some db →
  de !! "env_build" = Some (VRef lb) →
  db !! "get_image_interval" = Some v →
  py_gt v 1 = Ok false → py_eq v 1 = true →
  db !! "frame_extract" = None →
  experiment (VRef p) (VRef ep) args h0
  = (Raise KeyError,
     with_dicts h0 le lb (<["reset_frame_idx_each_step" := VBool true]> db)
       (<["horizon" := VInt 2000]> de)).
Proof.
  intros Hle Hlb HE Hv Hgt Heq Hfe.
  assert (with_dicts h0 le lb db de = h0) as Hh.
  { unfold with_dicts. rewrite (insert_id h0 le de Hle). by apply insert_id. }
  replace (experiment (VRef p) (VRef ep) args h0)
    with (experiment (VRef p) (VRef ep) args (with_dicts h0 le lb db de))
    by (by rewrite Hh).
  assert ((<["horizon" := VInt 2000]> de) !! "env_build" = Some (VRef lb)) as HE'
    by (by rewrite lookup_insert_ne).
  unfold experiment, get_subprocvec_env.
  rewrite (bind_ok _ _ _ _ _ (subscript_p h0 p le lb dp Hp Hp_le Hp_lb db de _ _ Hname)).
  rewrite (bind_ok _ _ _ _ _ (subscript_p h0 p le lb dp Hp Hp_le Hp_lb db de _ _ Henv)).
  rewrite (bind_ok (mret _) _ _ _ _ eq_refl).
  rewrite (bind_ok _ _ _ _ _
             (env_build_ep h0 ep le lb dp Hep Henv Hep_le Hep_lb Hle_lb db de HE)).
  rewrite (bind_ok _ _ _ _ _ (store_lb h0 le lb db de _ _)).
  rewrite (bind_ok _ _ _ _ _
             (subscript_ep h0 ep le lb dp Hep Hep_le Hep_lb _ de _ _ Henv)).
  rewrite (bind_ok _ _ _ _ _ (store_le h0 le lb Hle_lb _ de _ _)).
  apply bind_raise.
  apply (frame_settings_no_frame_extract _ _ v); try done.
  - by rewrite lookup_insert_ne.
  - by rewrite lookup_insert_ne.
Qed.

End failing_frames.

(** X24: with an image interval of 1 and no ["frame_extract"] entry the
    module raises KeyError when it compares the frame count, after it
    has written the horizon and [reset_frame_idx_each_step]: the
    training configuration, read through [params], already has horizon
    2000 although no evaluation environment was built. *)
Theorem setup_fails_half_way (h : gmap nat (gmap string Val)) p le lb name dp de db v
    args :
  h !! p = Some dp → dp !! "env_name" = Some name → dp !! "env" = Some (VRef le) →
  h !! le = Some de → de !! "env_build" = Some (VRef lb) → h !! lb = Some db →
  p ≠ le → p ≠ lb → le ≠ lb →
  db !! "get_image_interval" = Some v → py_gt v 1 = Ok false → py_eq v 1 = true →
  db !! "frame_extract" = None →
  ∃ h', main (VRef p) args h = (Raise KeyError, h')
        ∧ read_env (VRef p) "horizon" h' = (Ok (VInt 2000), h')
        ∧ read_env_build (VRef p) "reset_frame_idx_each_step" h'
          = (Ok (VBool true), h').
Proof.
  intros Hp Hname Henv Hle HE Hlb Hple Hplb Hlelb Hv Hgt Heq Hfe.
  pose proof (fresh_not_allocated h p dp Hp) as Hfp.
  pose proof (fresh_not_allocated h le de Hle) as Hfle.
  pose proof (fresh_not_allocated h lb db Hlb) as Hflb.
  set (ep := fresh (dom h)) in *. set (h0 := <[ep := dp]> h).
  assert (h0 !! p = Some dp) as Hp0 by (unfold h0; by rewrite lookup_insert_ne).
  assert (h0 !! ep = Some dp) as Hep0 by (unfold h0; by rewrite lookup_insert_eq).
  assert ((<["horizon" := VInt 2000]> de) !! "env_build" = Some (VRef lb)) as HE'
    by (by rewrite lookup_insert_ne).
  eexists. split; [|split].
  - unfold main. rewrite (bind_ok _ _ _ _ _ (dict_copy_heap h p dp Hp)).
    apply (experiment_no_frame_extract h0 p ep le lb name dp Hp0 Hep0 Hname Henv
             Hple Hplb Hfle Hflb Hlelb args de db v); try done.
    + unfold h0. by rewrite lookup_insert_ne.
    + unfold h0. by rewrite lookup_insert_ne.
  - unfold read_env.
    rewrite (bind_ok _ _ _ _ _ (subscript_p h0 p le lb dp Hp0 Hple Hplb _ _ "env" _ Henv)).
    apply subscript_le; [done|]. by rewrite lookup_insert_eq.
  - unfold read_env_build.
    rewrite (bind_ok _ _ _ _ _ (env_build_p h0 p le lb dp Hp0 Henv Hple Hplb Hlelb _ _ HE')).
    apply subscript_lb. by rewrite lookup_insert_eq.
Qed.

Lemma setup_fails_half_way_witness :
  ∃ h', main (VRef 0) one_worker interval_only_config = (Raise KeyError, h')
        ∧ read_env (VRef 0) "horizon" h' = (Ok (VInt 2000), h')
        ∧ read_env_build (VRef 0) "reset_frame_idx_each_step" h'
          = (Ok (VBool true), h').
Proof.
  apply (setup_fails_half_way interval_only_config 0 1 2 (VStr "A1")
           {[ "env_name" := VStr "A1"; "env" := VRef 1 ]}
           {[ "horizon" := VInt 1000; "env_build" := VRef 2 ]}
           {[ "get_image_interval" := VInt 1 ]} (VInt 1) one_worker); done.
Defined.

(** ** The frame settings *)

Lemma eval_frames_interval (d : gmap string Val) :
  eval_frames d !! "get_image_interval"
  = (frames_of (d !! "get_image_interval") (d !! "frame_extract")).1.
Proof.
  unfold eval_frames, frames_of.
  destruct (d !! "get_image_interval") as [v|] eqn:Hv; [|by rewrite Hv].
  destruct (py_gt v 1) as [[|]|].
  - by rewrite lookup_insert_eq.
  - destruct (_ && _); [by rewrite lookup_insert_ne|done].
  - destruct (_ && _); [by rewrite lookup_insert_ne|done].
Qed.

Lemma eval_frames_frame_extract (d : gmap string Val) :
  eval_frames d !! "frame_extract"
  = (frames_of (d !! "get_image_interval") (d !! "frame_extract")).2.
Proof.
  unfold eval_frames, frames_of.
  destruct (d !! "get_image_interval") as [v|] eqn:Hv; [|done].
  destruct (py_gt v 1) as [[|]|].
  - rewrite lookup_insert_ne by done. by rewrite lookup_insert_eq.
  - destruct (_ && _); [by rewrite lookup_insert_eq|done].
  - destruct (_ && _); [by rewrite lookup_insert_eq|done].
Qed.

Lemma eval_env_build_interval (d : gmap string Val) :
  eval_env_build d !! "get_image_interval"
  = (frames_of (d !! "get_image_interval") (d !! "frame_extract")).1.
Proof.
  unfold eval_env_build. rewrite !disabled_lookup_ne by done.
  rewrite eval_frames_interval. by rewrite !lookup_insert_ne.
Qed.

Lemma eval_env_build_frame_extract (d : gmap string Val) :
  eval_env_build d !! "frame_extract"
  = (frames_of (d !! "get_image_interval") (d !! "frame_extract")).2.
Proof.
  unfold eval_env_build. rewrite !disabled_lookup_ne by done.
  rewrite eval_frames_frame_extract. by rewrite !lookup_insert_ne.
Qed.

(** X25: through [params], after the set-up: an image interval above 1
    has become 1 and the frame count is the former interval; with an
    interval of 1 a frame count of 1 has become 4; without an interval
    the frame count is as it was. *)
Theorem frame_settings_through_params h p le lb name dp de db args :
  config_tree h p le lb name dp de db →
  ∃ env eval_env h',
    main (VRef p) args h = (Ok (env, eval_env), h')
    ∧ (∀ n, db !! "get_image_interval" = Some (VInt n) → (1 < n)%Z →
         read_env_build (VRef p) "get_image_interval" h' = (Ok (VInt 1), h')
         ∧ read_env_build (VRef p) "frame_extract" h' = (Ok (VInt n), h'))
    ∧ (db !! "get_image_interval" = Some (VInt 1) →
       db !! "frame_extract" = Some (VInt 1) →
       read_env_build (VRef p) "get_image_interval" h' = (Ok (VInt 1), h')
       ∧ read_env_build (VRef p) "frame_extract" h' = (Ok (VInt 4), h'))
    ∧ (db !! "get_image_interval" = None →
       read_env_build (VRef p) "get_image_interval" h' = (Raise KeyError, h')
       ∧ read_env_build (VRef p) "frame_extract" h'
         = (getitem (db !! "frame_extract"), h')).
Proof.
  intros Htree. pose proof (main_value _ _ _ _ _ _ _ _ args Htree) as Hmain.
  destruct Htree as [Hp Hname Henv Hle HE Hlb Hple Hplb Hlelb Hwf].
  pose proof (fresh_not_allocated h p dp Hp) as Hfp.
  set (h0 := <[fresh (dom h) := dp]> h) in *.
  assert (h0 !! p = Some dp) as Hp0 by (unfold h0; by rewrite lookup_insert_ne).
  assert ((<["horizon" := VInt 2000]> de) !! "env_build" = Some (VRef lb)) as HE'
    by (by rewrite lookup_insert_ne).
  assert (∀ k, read_env_build (VRef p) k
                 (with_dicts h0 le lb (eval_env_build db) (<["horizon" := VInt 2000]> de))
               = (getitem (eval_env_build db !! k),
                  with_dicts h0 le lb (eval_env_build db)
                    (<["horizon" := VInt 2000]> de))) as Hread.
  { intros k. unfold read_env_build.
    rewrite (bind_ok _ _ _ _ _ (env_build_p h0 p le lb dp Hp0 Henv Hple Hplb Hlelb _ _ HE')).
    apply subscript_heap. apply with_dicts_lb. }
  do 3 eexists. split; [exact Hmain|].
  rewrite !Hread, eval_env_build_interval, eval_env_build_frame_extract.
  split; [|split].
  - intros n Hn Hgt. rewrite Hn. unfold frames_of, py_gt.
    by rewrite (proj2 (Z.gtb_lt n 1) Hgt).
  - intros Hi Hf. by rewrite Hi, Hf.
  - intros Hi. by rewrite Hi.
Qed.

Lemma frame_settings_through_params_witness :
  ∃ env eval_env h',
    main (VRef 0) one_worker a1_config = (Ok (env, eval_env), h')
    ∧ (∀ n, ({[ "curriculum" := VBool true; "get_image_interval" := VInt 4 ]}
               : gmap string Val) !! "get_image_interval" = Some (VInt n) →
            (1 < n)%Z →
         read_env_build (VRef 0) "get_image_interval" h' = (Ok (VInt 1), h')
         ∧ read_env_build (VRef 0) "frame_extract" h' = (Ok (VInt n), h'))
    ∧ (({[ "curriculum" := VBool true; "get_image_interval" := VInt 4 ]}
          : gmap string Val) !! "get_image_interval" = Some (VInt 1) →
       ({[ "curriculum" := VBool true; "get_image_interval" := VInt 4 ]}
          : gmap string Val) !! "frame_extract" = Some (VInt 1) →
       read_env_build (VRef 0) "get_image_interval" h' = (Ok (VInt 1), h')
       ∧ read_env_build (VRef 0) "frame_extract" h' = (Ok (VInt 4), h'))
    ∧ (({[ "curriculum" := VBool true; "get_image_interval" := VInt 4 ]}
          : gmap string Val) !! "get_image_interval" = None →
       read_env_build (VRef 0) "get_image_interval" h' = (Raise KeyError, h')
       ∧ read_env_build (VRef 0) "frame_extract" h'
         = (getitem (({[ "curriculum" := VBool true; "get_image_interval" := VInt 4 ]}
                        : gmap string Val) !! "frame_extract"), h')).
Proof.
  apply (frame_settings_through_params a1_config 0 1 2 (VStr "A1") _ _ _ one_worker
           a1_config_tree).
Defined.

(** ** Running the set-up again *)

Lemma frames_of_idempotent interval frame_extract :
  frames_of (frames_of interval frame_extract).1 (frames_of interval frame_extract).2
  = frames_of interval frame_extract.
Proof.
  unfold frames_of. destruct interval as [v|]; [|done].
  destruct (py_gt v 1) as [[|]|] eqn:Hgt.
  - cbn [fst snd py_gt py_eq]. change (1 >? 1)%Z with false. cbn beta iota.
    assert (py_eq v 1 = false) as ->; [|done].
    destruct v as [|[|]|m| |]; try done. cbn in *.
    injection Hgt as Hgt. apply Z.gtb_lt in Hgt. apply Z.eqb_neq. lia.
  - destruct (py_eq v 1 && _) eqn:Hc; cbn [fst snd]; rewrite Hgt.
    + cbn [py_eq]. change (4 =? 1)%Z with false. by rewrite andb_false_r.
    + by rewrite Hc.
  - destruct (py_eq v 1 && _) eqn:Hc; cbn [fst snd]; rewrite Hgt.
    + cbn [py_eq]. change (4 =? 1)%Z with false. by rewrite andb_false_r.
    + by rewrite Hc.
Qed.

Lemma disabled_lookup_eq k (d : gmap string Val) :
  disabled k d !! k = (λ _, VBool false) <$> d !! k.
Proof.
  unfold disabled. destruct (d !! k) as [v|] eqn:Hk.
  - rewrite bool_decide_eq_true_2 by done. by rewrite lookup_insert_eq.
  - rewrite bool_decide_eq_false_2 by (by intros [? ?]). by rewrite Hk.
Qed.

Lemma eval_env_build_switch k (d : gmap string Val) :
  k ∈ ["curriculum"; "interpolation"; "fixed_delay_observation"] →
  eval_env_build d !! k = (λ _, VBool false) <$> d !! k.
Proof.
  intros Hk. unfold eval_env_build.
  assert (eval_frames (<["reset_frame_idx_each_step" := VBool true]> d) !! k = d !! k)
    as Hd.
  { assert (k ≠ "get_image_interval" ∧ k ≠ "frame_extract"
            ∧ "reset_frame_idx_each_step" ≠ k) as (? & ? & ?).
    { repeat (apply elem_of_cons in Hk as [->|Hk]; [done|]).
      by apply elem_of_nil in Hk. }
    rewrite eval_frames_lookup by done. by rewrite lookup_insert_ne. }
  apply elem_of_cons in Hk as [->|Hk].
  { rewrite !disabled_lookup_ne by done. by rewrite disabled_lookup_eq, Hd. }
  apply elem_of_cons in Hk as [->|Hk].
  { rewrite disabled_lookup_ne by done. rewrite disabled_lookup_eq.
    by rewrite disabled_lookup_ne, Hd. }
  apply list_elem_of_singleton in Hk as ->.
  rewrite disabled_lookup_eq. by rewrite !disabled_lookup_ne, Hd.
Qed.

Lemma eval_env_build_other k (d : gmap string Val) :
  k ∉ eval_keys → eval_env_build d !! k = d !! k.
Proof.
  intros Hk. unfold eval_keys in Hk.
  assert (k ≠ "reset_frame_idx_each_step" ∧ k ≠ "get_image_interval"
          ∧ k ≠ "frame_extract" ∧ k ≠ "curriculum" ∧ k ≠ "interpolation"
          ∧ k ≠ "fixed_delay_observation") as (K1 & K2 & K3 & K4 & K5 & K6).
  { repeat split; intros ->; apply Hk; repeat constructor. }
  unfold eval_env_build. rewrite !disabled_lookup_ne by done.
  rewrite eval_frames_lookup by done. by rewrite lookup_insert_ne.
Qed.

Lemma eval_env_build_idempotent (d : gmap string Val) :
  eval_env_build (eval_env_build d) = eval_env_build d.
Proof.
  apply map_eq. intros k.
  destruct (decide (k ∈ eval_keys)) as [Hk|Hk]; [|by rewrite !eval_env_build_other].
  unfold eval_keys in Hk.
  apply elem_of_cons in Hk as [->|Hk]; [by rewrite !eval_env_build_reset|].
  apply elem_of_cons in Hk as [->|Hk].
  { rewrite (eval_env_build_interval (eval_env_build d)).
    rewrite !eval_env_build_interval, !eval_env_build_frame_extract.
    by rewrite frames_of_idempotent. }
  apply elem_of_cons in Hk as [->|Hk].
  { rewrite (eval_env_build_frame_extract (eval_env_build d)).
    rewrite !eval_env_build_interval, !eval_env_build_frame_extract.
    by rewrite frames_of_idempotent. }
  rewrite !eval_env_build_switch by done. by destruct (d !! k).
Qed.

(** The evaluation configuration is as well formed as the one it was
    made from. *)
Lemma eval_env_build_frames_ok (d : gmap string Val) :
  (∀ v, d !! "get_image_interval" = Some v →
        (∃ b, py_gt v 1 = Ok b)
        ∧ (py_eq v 1 = true → is_Some (d !! "frame_extract"))) →
  ∀ v, eval_env_build d !! "get_image_interval" = Some v →
       (∃ b, py_gt v 1 = Ok b)
       ∧ (py_eq v 1 = true → is_Some (eval_env_build d !! "frame_extract")).
Proof.
  intros Hwf v. rewrite eval_env_build_interval, eval_env_build_frame_extract.
  unfold frames_of. destruct (d !! "get_image_interval") as [w|]; [|done].
  destruct (Hwf w eq_refl) as [[b Hb] Hfe]. rewrite Hb. destruct b.
  - cbn [fst snd]. intros [= <-]. split; [by eexists|by eexists].
  - destruct (py_eq w 1) eqn:Heq; cbn [andb].
    + destruct (Hfe eq_refl) as [x ->].
      destruct (py_eq x 1); cbn [fst snd]; intros [= <-];
        (split; [by eexists|by eexists]).
    + cbn [fst snd]. intros [= <-]. split; [by eexists|]. by rewrite Heq.
Qed.

(** X26: the set-up can be repeated: a second run of [experiment] in the
    same process, on the dictionaries the first has rewritten, asks for
    the same two sets of environments and leaves every dictionary as it
    found it. *)
Theorem eval_setup_idempotent h p le lb name dp de db args :
  config_tree h p le lb name dp de db →
  ∃ calls h',
    main (VRef p) args h = (Ok calls, h')
    ∧ experiment (VRef p) (VRef (fresh (dom h))) args h' = (Ok calls, h').
Proof.
  intros Htree. pose proof (main_value _ _ _ _ _ _ _ _ args Htree) as Hmain.
  destruct Htree as [Hp Hname Henv Hle HE Hlb Hple Hplb Hlelb Hwf].
  pose proof (fresh_not_allocated h p dp Hp) as Hfp.
  pose proof (fresh_not_allocated h le de Hle) as Hfle.
  pose proof (fresh_not_allocated h lb db Hlb) as Hflb.
  do 2 eexists. split; [exact Hmain|].
  set (h' := with_dicts (<[fresh (dom h) := dp]> h) le lb (eval_env_build db)
               (<["horizon" := VInt 2000]> de)).
  assert (h' !! le = Some (<["horizon" := VInt 2000]> de)) as Hle'.
  { unfold h', with_dicts. rewrite lookup_insert_ne by done. by rewrite lookup_insert_eq. }
  assert (h' !! lb = Some (eval_env_build db)) as Hlb'.
  { unfold h', with_dicts. by rewrite lookup_insert_eq. }
  rewrite (experiment_value h' p (fresh (dom h)) le lb name dp) with
    (de := <["horizon" := VInt 2000]> de) (db := eval_env_build db); try done.
  - f_equal. rewrite eval_env_build_idempotent, insert_insert_eq.
    unfold with_dicts. rewrite (insert_id h' le _ Hle'). by apply insert_id.
  - unfold h', with_dicts. by rewrite !lookup_insert_ne.
  - unfold h', with_dicts. rewrite !lookup_insert_ne by done. by rewrite lookup_insert_eq.
  - by rewrite lookup_insert_ne.
  - by apply eval_env_build_frames_ok.
Qed.

Lemma eval_setup_idempotent_witness :
  ∃ calls h',
    main (VRef 0) one_worker a1_config = (Ok calls, h')
    ∧ experiment (VRef 0) (VRef (fresh (dom a1_config))) one_worker h' = (Ok calls, h').
Proof.
  apply (eval_setup_idempotent a1_config 0 1 2 (VStr "A1") _ _ _ one_worker
           a1_config_tree).
Defined.

End ppo_nature_cnn_sim2sim_more_props.
